(** * Profile engine of the productivity assistant (ai-memory-database/main.py)

    A shallow embedding of the class [CouchbaseMemory] and of the tool
    functions built on it, followed by the properties of the profile
    document that the specification states.

    Modelling choices.
    - A JSON document is a [value]; a Python [dict] with string keys is a
      [gmap string value].  Python compares dicts without regard to insertion
      order, and so does equality of [gmap]s.
    - The Couchbase collection is a finite map from document ids to
      documents.  [collection.get] hands out a fresh copy and
      [collection.upsert] stores a copy, so there is no aliasing between the
      store and the dict a method works on; the aliasing inside one method
      ([current_tasks] being the list held by [doc]) is written out.
    - [datetime.now()] reads a clock that is part of the world: the n-th
      reading is [clock w n], and every call advances [ticks].
    - A Python exception is a [Raise]; [DocumentNotFoundException] is the one
      the code catches.  Output printed on the console is not modelled.
    - A Python [str] is held as its UTF-8 encoding, a [string] of bytes.
      Equality, concatenation, emptiness and the substring test are the same
      on the encoding as on the characters; the length, the iteration and
      [strip] go through the characters ([utf8_split], [code_point]). *)

From stdpp Require Import gmap strings list fin_maps pretty.

Set Warnings "-register-all,-clear-no-such-hyp".
Local Open Scope string_scope.
Local Open Scope list_scope.

(** ** JSON values *)

Inductive value :=
| VNone
| VBool (b : bool)
| VInt (z : Z)
| VStr (s : string)
| VList (l : list value)
| VDict (d : gmap string value).

Abbreviation dict := (gmap string value).

Definition dict_of (l : list (string * value)) : dict := list_to_map l.

(** ** Exceptions and results *)

Inductive exn :=
| DocumentNotFoundException
| KeyError
| TypeError
| AttributeError.

Inductive result (A : Type) :=
| Ok (a : A)
| Raise (e : exn).
Arguments Ok {A} a.
Arguments Raise {A} e.

(** ** Python operations on values *)

(** [bool(v)] *)
Definition truthy (v : value) : bool :=
  match v with
  | VNone => false
  | VBool b => b
  | VInt z => negb (Z.eqb z 0)
  | VStr s => negb (Nat.eqb (String.length s) 0)
  | VList l => negb (Nat.eqb (length l) 0)
  | VDict d => negb (Nat.eqb (size d) 0)
  end.

(** [v == s] for a [str] s *)
Definition eq_str (v : value) (s : string) : bool :=
  match v with
  | VStr s' => bool_decide (s' = s)
  | _ => false
  end.

Definition is_substring (s t : string) : bool :=
  match String.index 0 s t with
  | Some _ => true
  | None => false
  end.

(** [k in v] for a [str] k *)
Definition py_in (k : string) (v : value) : result bool :=
  match v with
  | VDict d => Ok (bool_decide (is_Some (d !! k)))
  | VList l => Ok (existsb (λ x, eq_str x k) l)
  | VStr s => Ok (is_substring k s)
  | _ => Raise TypeError
  end.

(** [v[k]] for a [str] k *)
Definition py_getitem (v : value) (k : string) : result value :=
  match v with
  | VDict d => match d !! k with Some x => Ok x | None => Raise KeyError end
  | _ => Raise TypeError
  end.

(** [v[k] = x] for a [str] k *)
Definition py_setitem (v : value) (k : string) (x : value) : result value :=
  match v with
  | VDict d => Ok (VDict (<[k := x]> d))
  | _ => Raise TypeError
  end.

(** [v.get(k, dflt)] *)
Definition py_get (v : value) (k : string) (dflt : value) : result value :=
  match v with
  | VDict d => Ok (default dflt (d !! k))
  | _ => Raise AttributeError
  end.

(** [v.append(x)] *)
Definition py_append (v : value) (x : value) : result value :=
  match v with
  | VList l => Ok (VList (l ++ [x]))
  | _ => Raise AttributeError
  end.

(** [v.update(d)] for a dict d: the keys of d win *)
Definition py_update (v : value) (d : dict) : result value :=
  match v with
  | VDict old => Ok (VDict (d ∪ old))
  | _ => Raise AttributeError
  end.

(** ** Characters of a string

    The bytes of a string are cut into characters as UTF-8 has them: a byte
    below 0xC0 alone, a lead byte 0xC0-0xDF, 0xE0-0xEF or 0xF0-0xF7 with the
    one, two or three continuation bytes (0x80-0xBF) that follow it.  A byte
    of 0x80 or more that is part of no such sequence, which the encoding of
    a [str] never has, is a character of its own, the one of that number. *)

Definition byte (c : Ascii.ascii) : N := Ascii.N_of_ascii c.

Definition continuation (c : Ascii.ascii) : bool :=
  (128 <=? byte c)%N && (byte c <? 192)%N.

Fixpoint utf8_split (s : string) : list string :=
  match s with
  | EmptyString => []
  | String a r =>
      let alone := String a EmptyString :: utf8_split r in
      if (byte a <? 192)%N then alone
      else
        match r with
        | String b r1 =>
            if negb (continuation b) then alone
            else if (byte a <? 224)%N then
              String a (String b EmptyString) :: utf8_split r1
            else
              match r1 with
              | String c r2 =>
                  if negb (continuation c) then alone
                  else if (byte a <? 240)%N then
                    String a (String b (String c EmptyString)) :: utf8_split r2
                  else
                    match r2 with
                    | String d r3 =>
                        if negb (continuation d) || negb (byte a <? 248)%N
                        then alone
                        else String a (String b (String c (String d EmptyString)))
                               :: utf8_split r3
                    | EmptyString => alone
                    end
              | EmptyString => alone
              end
        | EmptyString => alone
        end
  end.

(** the code point of a character: the number of a byte that stands alone,
    and U+FFFD for a sequence longer than its code point needs *)
Definition code_point (c : string) : N :=
  let low (x : Ascii.ascii) : N := (byte x - 128)%N in
  let at_least (least n : N) : N := if (least <=? n)%N then n else 65533%N in
  match c with
  | String a EmptyString => byte a
  | String a (String b EmptyString) =>
      at_least 128%N ((byte a - 192) * 64 + low b)%N
  | String a (String b (String c EmptyString)) =>
      at_least 2048%N ((byte a - 224) * 4096 + low b * 64 + low c)%N
  | String a (String b (String c (String d EmptyString))) =>
      at_least 65536%N
        ((byte a - 240) * 262144 + low b * 4096 + low c * 64 + low d)%N
  | _ => 65533%N
  end.

(** [len(v)] *)
Definition py_len (v : value) : result nat :=
  match v with
  | VList l => Ok (length l)
  | VDict d => Ok (size d)
  | VStr s => Ok (length (utf8_split s))
  | _ => Raise TypeError
  end.

Definition chars (s : string) : list value := VStr <$> utf8_split s.

(** the elements a [for] loop over [v] visits *)
Definition py_iter (v : value) : result (list value) :=
  match v with
  | VList l => Ok l
  | VDict d => Ok (VStr <$> (map_to_list d).*1)
  | VStr s => Ok (chars s)
  | _ => Raise TypeError
  end.

(** the characters [str.strip()] removes, those for which [str.isspace()]
    holds: U+0009-000D, U+001C-0020, U+0085, U+00A0, U+1680, U+2000-200A,
    U+2028, U+2029, U+202F, U+205F and U+3000 *)
Definition is_space (c : string) : bool :=
  let n := code_point c in
  let within (lo hi : N) : bool := (lo <=? n)%N && (n <=? hi)%N in
  (within 9 13 || within 28 32 || within 133 133 || within 160 160 ||
   within 5760 5760 || within 8192 8202 || within 8232 8233 ||
   within 8239 8239 || within 8287 8287 || within 12288 12288)%N.

(** [s.strip()] is not empty: some character of s is not white space *)
Definition strip_nonempty (s : string) : bool :=
  existsb (λ c, negb (is_space c)) (utf8_split s).

(** the test [s and s.strip()] *)
Definition str_given (s : string) : bool :=
  negb (Nat.eqb (String.length s) 0) && strip_nonempty s.

(** ** The world: document store and clock *)

Record instant := Instant {
  isoformat : string;      (* datetime.now().isoformat() *)
  strftime_sec : string    (* datetime.now().strftime('%Y%m%d_%H%M%S') *)
}.

Record world := World {
  store : gmap string dict;
  clock : nat → instant;
  ticks : nat
}.

Definition M (A : Type) : Type := world → result A * world.

Definition ret {A} (a : A) : M A := λ w, (Ok a, w).

Definition bind {A B} (c : M A) (k : A → M B) : M B :=
  λ w, match c w with
       | (Ok a, w') => k a w'
       | (Raise e, w') => (Raise e, w')
       end.

Definition lift {A} (r : result A) : M A := λ w, (r, w).

Notation "'do' x <- c ; k" := (bind c (λ x, k))
  (at level 10, x name, c at level 100, k at level 200).
Notation "'do_' c ; k" := (bind c (λ _, k))
  (at level 10, c at level 100, k at level 200).

(** [try: c  except DocumentNotFoundException: h] *)
Definition try_not_found {A} (c : M A) (h : M A) : M A :=
  λ w, match c w with
       | (Raise DocumentNotFoundException, w') => h w'
       | r => r
       end.

(** [datetime.now()] *)
Definition now : M instant :=
  λ w, (Ok (clock w (ticks w)),
        {| store := store w; clock := clock w; ticks := S (ticks w) |}).

(** [datetime.now().isoformat()] as a JSON string *)
Definition now_iso : M value :=
  do t <- now; ret (VStr (isoformat t)).

(** [collection.get(doc_id).content_as[dict]] *)
Definition collection_get (doc_id : string) : M dict :=
  λ w, match store w !! doc_id with
       | Some doc => (Ok doc, w)
       | None => (Raise DocumentNotFoundException, w)
       end.

(** [collection.upsert(doc_id, doc)] *)
Definition collection_upsert (doc_id : string) (doc : dict) : M unit :=
  λ w, (Ok tt,
        {| store := <[doc_id := doc]> (store w); clock := clock w; ticks := ticks w |}).

(** [d[k1][k2] = x] on a dict d *)
Definition set_nested (d : dict) (k1 k2 : string) (x : value) : result dict :=
  match py_getitem (VDict d) k1 with
  | Ok inner =>
      match py_setitem inner k2 x with
      | Ok inner' => Ok (<[k1 := inner']> d)
      | Raise e => Raise e
      end
  | Raise e => Raise e
  end.

(** ** class CouchbaseMemory *)

Module CouchbaseMemory.

Definition _doc_id (user_id : string) : string := "user::" +:+ user_id.

Definition default_schema (created_at last_updated : value) : dict :=
  dict_of [
    ("personal_info", VDict (dict_of [
        ("name", VStr ""); ("age", VInt 0); ("domain", VStr "")]));
    ("daily_routine", VDict (dict_of [
        ("meal_timings", VDict (dict_of [
            ("breakfast", VStr ""); ("lunch", VStr ""); ("dinner", VStr "")]));
        ("working_hours", VDict (dict_of [
            ("start", VStr ""); ("end", VStr ""); ("timezone", VStr "")]));
        ("workout_preferences", VList [])]));
    ("habits_and_behaviors", VDict (dict_of [
        ("procrastination_habits", VList []); ("known_blockers", VList [])]));
    ("task_tracking", VDict (dict_of [
        ("current_tasks", VList []); ("completed_tasks", VList [])]));
    ("productivity_insights", VDict (dict_of [
        ("best_focus_times", VList []);
        ("energy_levels", VDict (dict_of [
            ("morning", VStr ""); ("afternoon", VStr ""); ("evening", VStr "")]));
        ("habit_streaks", VDict (dict_of [
            ("workout_streak_days", VInt 0); ("task_completion_streak", VInt 0)]))]));
    ("preferences", VDict (dict_of [
        ("notifications", VDict (dict_of [
            ("reminder_frequency", VStr ""); ("preferred_channels", VList [])]));
        ("motivation_style", VStr "")]));
    ("metadata", VDict (dict_of [
        ("created_at", created_at);
        ("last_updated", last_updated);
        ("version", VInt 1)]))
  ].

(** [for key, value in defaults.items(): if key not in existing: existing[key] = value] *)
Definition backfill (existing defaults : dict) : dict :=
  map_fold (λ key value acc,
              if bool_decide (is_Some (acc !! key)) then acc
              else <[key := value]> acc)
           existing defaults.

(** the test [if user_data:] on an optional dict *)
Definition given (user_data : option dict) : bool :=
  match user_data with
  | Some d => truthy (VDict d)
  | None => false
  end.

Definition initialize_user_schema (user_id : string) (user_data : option dict)
  : M bool :=
  let doc_id := _doc_id user_id in
  do created_at <- now_iso;
  do last_updated <- now_iso;
  let default_schema := default_schema created_at last_updated in
  let default_schema :=
    if given user_data then default ∅ user_data ∪ default_schema
    else default_schema in
  do t <- now_iso;
  do default_schema <- lift (set_nested default_schema "metadata" "last_updated" t);
  do_ try_not_found
        (do existing_doc <- collection_get doc_id;
         let existing_doc := backfill existing_doc default_schema in
         do t <- now_iso;
         do existing_doc <-
           lift (set_nested existing_doc "metadata" "last_updated" t);
         collection_upsert doc_id existing_doc)
        (collection_upsert doc_id default_schema);
  ret true.

(** the dict built where a document has no ["metadata"] *)
Definition fresh_metadata : M value :=
  do created_at <- now_iso;
  do last_updated <- now_iso;
  ret (VDict (dict_of [
    ("created_at", created_at);
    ("last_updated", last_updated);
    ("version", VInt 1)])).

(** [if "metadata" not in doc: doc["metadata"] = {...}] *)
Definition ensure_metadata (doc : dict) : M dict :=
  if bool_decide (is_Some (doc !! "metadata")) then ret doc
  else do md <- fresh_metadata; ret (<["metadata" := md]> doc).

(** [try: doc = get  except DocumentNotFoundException: initialize; doc = get] *)
Definition get_or_initialize (user_id : string) : M dict :=
  let doc_id := _doc_id user_id in
  try_not_found
    (collection_get doc_id)
    (do_ initialize_user_schema user_id None;
     collection_get doc_id).

(** the value [doc[section]] holds after
    [if section in doc:
       if isinstance(doc[section], dict) and isinstance(data, dict):
         doc[section].update(data)
       else: doc[section] = data
     else: doc[section] = data] *)
Definition merge_section (old : option value) (data : value) : value :=
  match old with
  | Some (VDict old_d) =>
      match data with
      | VDict data_d => VDict (data_d ∪ old_d)
      | _ => data
      end
  | _ => data
  end.

Definition update_user_section (user_id : string) (section : string) (data : value)
  : M bool :=
  let doc_id := _doc_id user_id in
  do doc <- get_or_initialize user_id;
  do doc <- ensure_metadata doc;
  let doc := <[section := merge_section (doc !! section) data]> doc in
  do t <- now_iso;
  do doc <- lift (set_nested doc "metadata" "last_updated" t);
  do_ collection_upsert doc_id doc;
  ret true.

(** the test [if section:] on an optional string *)
Definition named (section : option string) : bool :=
  match section with
  | Some s => truthy (VStr s)
  | None => false
  end.

Definition get_user_section (user_id : string) (section : option string)
  : M value :=
  let doc_id := _doc_id user_id in
  try_not_found
    (do doc <- collection_get doc_id;
     if named section
     then ret (default (VDict ∅) (doc !! default "" section))
     else ret (VDict doc))
    (ret (if named section then VDict ∅ else VDict ∅)).

(** [if k2 not in d[k1]: d[k1][k2] = x] on a dict d that has the key k1 *)
Definition ensure_nested (d : dict) (k1 k2 : string) (x : value) : result dict :=
  match py_getitem (VDict d) k1 with
  | Ok inner =>
      match py_in k2 inner with
      | Ok true => Ok d
      | Ok false => set_nested d k1 k2 x
      | Raise e => Raise e
      end
  | Raise e => Raise e
  end.

(** [d[k1][k2]] on a dict d *)
Definition get_nested (d : dict) (k1 k2 : string) : result value :=
  match py_getitem (VDict d) k1 with
  | Ok inner => py_getitem inner k2
  | Raise e => Raise e
  end.

Definition empty_task_tracking : value :=
  VDict (dict_of [("current_tasks", VList []); ("completed_tasks", VList [])]).

(** [if "task_tracking" not in doc: doc["task_tracking"] = {...}] *)
Definition ensure_task_tracking (doc : dict) : dict :=
  if bool_decide (is_Some (doc !! "task_tracking")) then doc
  else <["task_tracking" := empty_task_tracking]> doc.

Definition _add_task (user_id : string) (task_data : dict) : M bool :=
  let doc_id := _doc_id user_id in
  do doc <- get_or_initialize user_id;
  let doc := ensure_task_tracking doc in
  do doc <- lift (ensure_nested doc "task_tracking" "current_tasks" (VList []));
  do doc <- ensure_metadata doc;
  do t <- now_iso;
  let task_data := <["last_activity" := t]> task_data in
  do current_tasks <- lift (get_nested doc "task_tracking" "current_tasks");
  do current_tasks <- lift (py_append current_tasks (VDict task_data));
  do doc <- lift (set_nested doc "task_tracking" "current_tasks" current_tasks);
  do t <- now_iso;
  do doc <- lift (set_nested doc "metadata" "last_updated" t);
  do_ collection_upsert doc_id doc;
  ret true.

(** the loop of [_complete_task]: the first task whose ["task_id"] equals
    [task_id] is popped; the result is that task and the remaining list *)
Fixpoint pop_task (task_id : string) (tasks : list value)
  : result (option (value * list value)) :=
  match tasks with
  | [] => Ok None
  | task :: rest =>
      match py_get task "task_id" VNone with
      | Ok v =>
          if eq_str v task_id then Ok (Some (task, rest))
          else
            match pop_task task_id rest with
            | Ok (Some (found, rest')) => Ok (Some (found, task :: rest'))
            | Ok None => Ok None
            | Raise e => Raise e
            end
      | Raise e => Raise e
      end
  end.

Definition _complete_task (user_id : string) (task_id : string) : M bool :=
  let doc_id := _doc_id user_id in
  try_not_found
    (do doc <- collection_get doc_id;
     let doc := ensure_task_tracking doc in
     do doc <- lift (ensure_nested doc "task_tracking" "current_tasks" (VList []));
     do doc <- lift (ensure_nested doc "task_tracking" "completed_tasks" (VList []));
     do current_tasks <- lift (get_nested doc "task_tracking" "current_tasks");
     do visited <- lift (py_iter current_tasks);
     do popped <- lift (pop_task task_id visited);
     match popped with
     | Some (completed_task, rest) =>
         (* [current_tasks] is the list held by [doc]: the pop shows there *)
         do doc <- lift (set_nested doc "task_tracking" "current_tasks" (VList rest));
         if truthy completed_task then
           do doc <- ensure_metadata doc;
           do t <- now_iso;
           do completed_task <- lift (py_setitem completed_task "completed_on" t);
           do completed_task <-
             lift (py_setitem completed_task "status" (VStr "completed"));
           do completed_tasks <-
             lift (get_nested doc "task_tracking" "completed_tasks");
           do completed_tasks <- lift (py_append completed_tasks completed_task);
           do doc <-
             lift (set_nested doc "task_tracking" "completed_tasks" completed_tasks);
           do t <- now_iso;
           do doc <- lift (set_nested doc "metadata" "last_updated" t);
           do_ collection_upsert doc_id doc;
           ret true
         else ret false
     | None => ret false
     end)
    (ret false).

Definition _update_productivity_insights (user_id : string) (insights : dict)
  : M bool :=
  update_user_section user_id "productivity_insights" (VDict insights).

Definition default_habit_streaks : value :=
  VDict (dict_of [("workout_streak_days", VInt 0); ("task_completion_streak", VInt 0)]).

Definition default_productivity_insights : value :=
  VDict (dict_of [
    ("best_focus_times", VList []);
    ("energy_levels", VDict (dict_of [
        ("morning", VStr ""); ("afternoon", VStr ""); ("evening", VStr "")]));
    ("habit_streaks", default_habit_streaks)]).

Definition update_habit_streaks (user_id : string) (streaks : dict) : M bool :=
  let doc_id := _doc_id user_id in
  do doc <- get_or_initialize user_id;
  let doc :=
    if bool_decide (is_Some (doc !! "productivity_insights")) then doc
    else <["productivity_insights" := default_productivity_insights]> doc in
  do doc <-
    lift (ensure_nested doc "productivity_insights" "habit_streaks"
            default_habit_streaks);
  do doc <- ensure_metadata doc;
  do habit_streaks <- lift (get_nested doc "productivity_insights" "habit_streaks");
  do habit_streaks <- lift (py_update habit_streaks streaks);
  do doc <- lift (set_nested doc "productivity_insights" "habit_streaks" habit_streaks);
  do t <- now_iso;
  do doc <- lift (set_nested doc "metadata" "last_updated" t);
  do_ collection_upsert doc_id doc;
  ret true.

End CouchbaseMemory.

(** ** The tool functions

    Each tool reads its user id from an attribute of the function object
    ([getattr(f, "user_id", USER_ID)]); here it is the first argument.
    [persistent_data] is the one [CouchbaseMemory] of the module. *)

Import CouchbaseMemory.

Definition status_message (status message : string) : dict :=
  dict_of [("status", VStr status); ("message", VStr message)].

Definition initialize_user_profile (user_id : string) : M dict :=
  do success <- initialize_user_schema user_id None;
  if (success : bool) then
    ret (status_message "success" ("User profile initialized for " +:+ user_id))
  else ret (status_message "error" "Failed to initialize user profile").

(** [if k in updates and updates[k]: acc[k] = updates[k]] *)
Definition take_truthy (k : string) (updates acc : dict) : dict :=
  match updates !! k with
  | Some v => if truthy v then <[k := v]> acc else acc
  | None => acc
  end.

Definition personal_info_of (personal_updates : dict) : dict :=
  let personal_info := ∅ in
  let personal_info := take_truthy "name" personal_updates personal_info in
  let personal_info := take_truthy "age" personal_updates personal_info in
  let personal_info := take_truthy "domain" personal_updates personal_info in
  personal_info.

Definition update_personal_info (user_id : string) (personal_updates : dict)
  : M dict :=
  let personal_info := personal_info_of personal_updates in
  let failed := status_message "error" "No information provided to update" in
  if truthy (VDict personal_info) then
    do success <- update_user_section user_id "personal_info" (VDict personal_info);
    if (success : bool) then
      ret (status_message "success" "Personal information updated")
    else ret failed
  else ret failed.

Definition routine_data_of (routine_updates : dict) : dict :=
  let routine_data := ∅ in
  let routine_data := take_truthy "meal_timings" routine_updates routine_data in
  let routine_data := take_truthy "working_hours" routine_updates routine_data in
  let routine_data := take_truthy "workout_preferences" routine_updates routine_data in
  routine_data.

Definition update_daily_routine (user_id : string) (routine_updates : dict)
  : M dict :=
  let routine_data := routine_data_of routine_updates in
  let failed := status_message "error" "No routine information provided" in
  if truthy (VDict routine_data) then
    do success <- update_user_section user_id "daily_routine" (VDict routine_data);
    if (success : bool) then ret (status_message "success" "Daily routine updated")
    else ret failed
  else ret failed.

Definition add_task (user_id : string) (task_description priority due_date : string)
  : M dict :=
  do t <- now;
  let task_id := "task_" +:+ strftime_sec t in
  do created_at <- now_iso;
  let task_data := dict_of [
    ("task_id", VStr task_id);
    ("description", VStr task_description);
    ("priority", VStr priority);
    ("status", VStr "pending");
    ("created_at", created_at)] in
  let task_data :=
    if str_given due_date then <["due_date" := VStr due_date]> task_data
    else task_data in
  do success <- _add_task user_id task_data;
  if (success : bool) then
    ret (<["task_id" := VStr task_id]>
           (status_message "success"
              ("Task '" +:+ task_description +:+ "' added with ID: " +:+ task_id)))
  else ret (status_message "error" "Failed to add task").

Definition complete_task (user_id : string) (task_id : string) : M dict :=
  do success <- _complete_task user_id task_id;
  if (success : bool) then
    ret (status_message "success" ("Task " +:+ task_id +:+ " marked as completed"))
  else
    ret (status_message "error"
           ("Failed to complete task " +:+ task_id +:+ " - task not found")).

Definition get_current_tasks (user_id : string) : M dict :=
  do tasks <- get_user_section user_id (Some "task_tracking");
  do current_tasks <- lift (py_get tasks "current_tasks" (VList []));
  do count <- lift (py_len current_tasks);
  ret (dict_of [
    ("status", VStr "success");
    ("current_tasks", current_tasks);
    ("count", VInt (Z.of_nat count))]).

Definition insights_of (insights_updates : dict) : dict :=
  let insights := ∅ in
  let insights := take_truthy "best_focus_times" insights_updates insights in
  let insights := take_truthy "energy_levels" insights_updates insights in
  let insights := take_truthy "habit_streaks" insights_updates insights in
  insights.

Definition update_productivity_insights (user_id : string) (insights_updates : dict)
  : M dict :=
  let insights := insights_of insights_updates in
  let failed := status_message "error" "No insights provided" in
  if truthy (VDict insights) then
    do success <- _update_productivity_insights user_id insights;
    if (success : bool) then
      ret (status_message "success" "Productivity insights updated")
    else ret failed
  else ret failed.

Definition valid_category (category : string) : bool :=
  existsb (λ c, bool_decide (category = c))
          ["procrastination_habits"; "known_blockers"].

Definition add_habit_or_blocker (user_id : string) (category item : string)
  : M dict :=
  if negb (valid_category category) then
    ret (status_message "error"
           "Category must be 'procrastination_habits' or 'known_blockers'")
  else
    do habits_data <- get_user_section user_id (Some "habits_and_behaviors");
    do has_category <- lift (py_in category habits_data);
    do habits_data <-
      (if (has_category : bool) then ret habits_data
       else lift (py_setitem habits_data category (VList [])));
    do items <- lift (py_getitem habits_data category);
    do present <- lift (py_in item items);
    let info :=
      status_message "info" ("'" +:+ item +:+ "' already exists in " +:+ category) in
    if (present : bool) then ret info
    else
      do items <- lift (py_append items (VStr item));
      do habits_data <- lift (py_setitem habits_data category items);
      do success <- update_user_section user_id "habits_and_behaviors" habits_data;
      if (success : bool) then
        ret (status_message "success" ("Added '" +:+ item +:+ "' to " +:+ category))
      else ret info.

Definition get_user_profile (user_id : string) (section : string) : M dict :=
  if str_given section then
    do data <- get_user_section user_id (Some section);
    ret (dict_of [("status", VStr "success"); ("section", VStr section); ("data", data)])
  else
    do data <- get_user_section user_id None;
    ret (dict_of [("status", VStr "success"); ("profile", data)]).

(** ** The example profile and the demonstration *)

Definition USER_ID : string := "Chris".

(** [list(v.keys())] *)
Definition py_keys (v : value) : result (list value) :=
  match v with
  | VDict d => Ok (VStr <$> (map_to_list d).*1)
  | _ => Raise AttributeError
  end.

Definition example_data : dict :=
  dict_of [
    ("personal_info", VDict (dict_of [
        ("name", VStr "Shubham Dalvi");
        ("age", VInt 28);
        ("domain", VStr "Data Engineering")]));
    ("daily_routine", VDict (dict_of [
        ("meal_timings", VDict (dict_of [
            ("breakfast", VStr "08:00");
            ("lunch", VStr "13:00");
            ("dinner", VStr "20:00")]));
        ("working_hours", VDict (dict_of [
            ("start", VStr "09:30");
            ("end", VStr "18:30");
            ("timezone", VStr "Europe/Dublin")]));
        ("workout_preferences", VList [VStr "swimming"; VStr "walking"])]));
    ("habits_and_behaviors", VDict (dict_of [
        ("procrastination_habits", VList [
            VStr "doom scrolling";
            VStr "thinking the task is easy and delaying it";
            VStr "gaming"]);
        ("known_blockers", VList [
            VStr "lack of clarity in task";
            VStr "frequent context switching";
            VStr "low energy after meals"])]));
    ("productivity_insights", VDict (dict_of [
        ("best_focus_times", VList [VStr "10:00-12:00"; VStr "15:00-17:00"]);
        ("energy_levels", VDict (dict_of [
            ("morning", VStr "high");
            ("afternoon", VStr "low");
            ("evening", VStr "medium")]));
        ("habit_streaks", VDict (dict_of [
            ("workout_streak_days", VInt 5);
            ("task_completion_streak", VInt 3)]))]));
    ("preferences", VDict (dict_of [
        ("notifications", VDict (dict_of [
            ("reminder_frequency", VStr "every 2 hours");
            ("preferred_channels", VList [VStr "push"; VStr "email"])]));
        ("motivation_style",
         VStr "data-driven feedback and progress visualization")]))
  ].

Definition create_example_user_profile : M bool :=
  initialize_user_schema "Shubham" (Some example_data).

(** the insights [demo_new_schema] passes to [update_productivity_insights] *)
Definition demo_insights : dict :=
  dict_of [
    ("best_focus_times", VList [VStr "09:00-11:00"; VStr "14:00-16:00"]);
    ("energy_levels", VDict (dict_of [
        ("morning", VStr "high");
        ("afternoon", VStr "medium");
        ("evening", VStr "low")]))
  ].

(** [demo_new_schema]; the tools read their user id from the attribute that
    defaults to [USER_ID], here the argument.  What the demonstration prints
    is left out, but not the calls that compute it.  [task_id] is
    [task_result.get("task_id")]: a string wherever [add_task] gives one. *)
Definition demo_new_schema (user_id : string) : M unit :=
  do_ create_example_user_profile;
  do task_result <-
    add_task user_id "Finish ETL pipeline testing" "high" "2025-07-06";
  do task_id <- lift (py_get (VDict task_result) "task_id" VNone);
  do current_tasks <- get_current_tasks user_id;
  do insights_result <- update_productivity_insights user_id demo_insights;
  do profile <- get_user_profile user_id "";
  do shown <- lift (py_get (VDict profile) "profile" (VDict ∅));
  do keys <- lift (py_keys shown);
  if truthy task_id then
    match task_id with
    | VStr s => do_ complete_task user_id s; ret tt
    | _ => ret tt
    end
  else ret tt.

(** ** Vocabulary of the properties *)

(** the document stored for a user *)
Definition stored (user_id : string) (w : world) : option dict :=
  store w !! _doc_id user_id.

(** the n-th reading of the clock from [w] on, as [isoformat()] gives it *)
Definition reading (w : world) (n : nat) : value :=
  VStr (isoformat (clock w (n + ticks w))).

(** [w] after n readings of the clock *)
Definition advance (n : nat) (w : world) : world :=
  {| store := store w; clock := clock w; ticks := n + ticks w |}.

(** [w] after an upsert of the user's document *)
Definition written (user_id : string) (doc : dict) (w : world) : world :=
  {| store := <[_doc_id user_id := doc]> (store w);
     clock := clock w; ticks := ticks w |}.

(** ["metadata"] is absent or a dict *)
Definition metadata_ok (doc : dict) : bool :=
  match doc !! "metadata" with
  | Some (VDict _) | None => true
  | Some _ => false
  end.

(** [doc["metadata"]["last_updated"] = t] where ["metadata"] is a dict *)
Definition touch (t : value) (doc : dict) : dict :=
  match doc !! "metadata" with
  | Some (VDict md) => <["metadata" := VDict (<["last_updated" := t]> md)]> doc
  | _ => doc
  end.

(** a field of a section of a document *)
Definition field (doc : dict) (section key : string) : option value :=
  match doc !! section with
  | Some (VDict d) => d !! key
  | _ => None
  end.

(** the world after [initialize_user_schema] has created the document *)
Definition initialized (user_id : string) (w : world) : world :=
  written user_id (default_schema (reading w 0) (reading w 2)) (advance 3 w).

(** the number of clock readings [ensure_metadata] takes *)
Definition metadata_cost (doc : dict) : nat :=
  if bool_decide (is_Some (doc !! "metadata")) then 0 else 2.

(** the document [ensure_metadata] yields *)
Definition ensured (doc : dict) (w : world) : dict :=
  if bool_decide (is_Some (doc !! "metadata")) then doc
  else <["metadata" := VDict (dict_of [
         ("created_at", reading w 0);
         ("last_updated", reading w 1);
         ("version", VInt 1)])]> doc.

(** the seven sections of the schema *)
Definition sections : gset string :=
  list_to_set ["personal_info"; "daily_routine"; "habits_and_behaviors";
               "task_tracking"; "productivity_insights"; "preferences";
               "metadata"].

(** a clock whose readings differ by a microsecond within one second *)
Definition fast_clock (n : nat) : instant :=
  {| isoformat := "2026-01-05T09:00:00.00000" +:+ pretty n;
     strftime_sec := "20260105_090000" |}.

(** a clock that is read once a second *)
Definition slow_clock (n : nat) : instant :=
  {| isoformat := "2026-01-05T09:00:0" +:+ pretty n;
     strftime_sec := "20260105_09000" +:+ pretty n |}.

(** a store without documents *)
Definition empty_world (c : nat → instant) : world :=
  {| store := ∅; clock := c; ticks := 0 |}.

(** a document written before the schema had tasks or preferences *)
Definition old_profile : dict :=
  dict_of [
    ("personal_info", VDict (dict_of [("name", VStr "Chris"); ("age", VInt 41)]));
    ("metadata", VDict (dict_of [
        ("created_at", VStr "2025-11-30T08:15:00.000000");
        ("last_updated", VStr "2025-12-24T18:00:00.000000");
        ("version", VInt 1)]))].

Definition old_world : world :=
  {| store := {[ _doc_id "Chris" := old_profile ]}; clock := fast_clock; ticks := 0 |}.

(** the world a computation leaves, and what it returns or raises *)
Definition after {A} (c : M A) (w : world) : world := (c w).2.
Definition outcome {A} (c : M A) (w : world) : result A := (c w).1.

(** a section of the document stored for a user *)
Definition stored_section (user_id section : string) (w : world) : option value :=
  match stored user_id w with
  | Some doc => doc !! section
  | None => None
  end.

(** a field of a section of the document stored for a user *)
Definition stored_field (user_id section key : string) (w : world) : option value :=
  match stored user_id w with
  | Some doc => field doc section key
  | None => None
  end.

(** ** Well-formed documents *)

Definition is_dict (v : value) : bool :=
  match v with VDict _ => true | _ => false end.

Definition is_list (v : value) : bool :=
  match v with VList _ => true | _ => false end.

(** a list of dicts *)
Definition is_task_list (v : value) : bool :=
  match v with VList l => forallb is_dict l | _ => false end.

(** a key is absent or its value has the shape [p] *)
Definition absent_or (p : value → bool) (o : option value) : bool :=
  match o with Some v => p v | None => true end.

(** ["task_tracking"] is absent or a dict whose ["current_tasks"] is absent
    or a list of dicts and whose ["completed_tasks"] is absent or a list *)
Definition tasks_ok (doc : dict) : bool :=
  match doc !! "task_tracking" with
  | None => true
  | Some (VDict tr) =>
      absent_or is_task_list (tr !! "current_tasks")
      && absent_or is_list (tr !! "completed_tasks")
  | Some _ => false
  end.

(** ["habits_and_behaviors"] is absent or a dict whose two lists are absent
    or lists *)
Definition habits_ok (doc : dict) : bool :=
  match doc !! "habits_and_behaviors" with
  | None => true
  | Some (VDict h) =>
      absent_or is_list (h !! "procrastination_habits")
      && absent_or is_list (h !! "known_blockers")
  | Some _ => false
  end.

(** the dict under ["task_tracking"], with two empty lists where there is
    none *)
Definition tracking_of (doc : dict) : dict :=
  match doc !! "task_tracking" with
  | Some (VDict tr) => tr
  | _ => dict_of [("current_tasks", VList []); ("completed_tasks", VList [])]
  end.

(** a list of tasks of a document, empty where there is none *)
Definition tasks_of (key : string) (doc : dict) : list value :=
  match tracking_of doc !! key with
  | Some (VList l) => l
  | _ => []
  end.

Definition current_tasks_of : dict → list value := tasks_of "current_tasks".
Definition completed_tasks_of : dict → list value := tasks_of "completed_tasks".

(** [task.get("task_id") == task_id] *)
Definition has_id (task_id : string) (task : value) : bool :=
  match task with
  | VDict d => eq_str (default VNone (d !! "task_id")) task_id
  | _ => false
  end.

(** the task as [_complete_task] stores it *)
Definition completed (t : value) (task : dict) : dict :=
  <["status" := VStr "completed"]> (<["completed_on" := t]> task).

(** the document after the backfilling tests of [_add_task] and of
    [_complete_task] *)
Definition with_current (doc : dict) : dict :=
  <["task_tracking" :=
     VDict (<["current_tasks" := VList (current_tasks_of doc)]> (tracking_of doc))]>
    doc.

Definition with_task_lists (doc : dict) : dict :=
  <["task_tracking" :=
     VDict (<["completed_tasks" := VList (completed_tasks_of doc)]>
              (<["current_tasks" := VList (current_tasks_of doc)]>
                 (tracking_of doc)))]> doc.

(** a list of tasks of the document stored for a user *)
Definition stored_tasks (key user_id : string) (w : world) : list value :=
  match stored user_id w with
  | Some doc => tasks_of key doc
  | None => []
  end.

(** two tasks added within one second of [fast_clock] *)
Definition two_tasks_world : world :=
  after (add_task "Chris" "Call the bank" "low" "")
    (after (add_task "Chris" "Write report" "high" "") (empty_world fast_clock)).

(** two tasks added in different seconds of [slow_clock] *)
Definition two_ids_world : world :=
  after (add_task "Chris" "Call the bank" "low" "")
    (after (add_task "Chris" "Write report" "high" "") (empty_world slow_clock)).

(** the document stored in [two_ids_world] *)
Definition two_ids_doc : dict := default ∅ (stored "Chris" two_ids_world).

(** ** Sequences of task operations *)

Inductive task_op :=
| AddTask (description priority due_date : string)
| CompleteTask (task_id : string).

Definition run_task_op (user_id : string) (o : task_op) : M dict :=
  match o with
  | AddTask description priority due_date =>
      add_task user_id description priority due_date
  | CompleteTask task_id => complete_task user_id task_id
  end.

Fixpoint run_task_ops (user_id : string) (ops : list task_op) (w : world) : world :=
  match ops with
  | [] => w
  | o :: rest => run_task_ops user_id rest (after (run_task_op user_id o) w)
  end.

(** the id [add_task] makes up when it starts in [w] *)
Definition next_task_id (w : world) : string :=
  "task_" +:+ strftime_sec (clock w (ticks w)).

(** the ids the [add_task] calls of a run make up, in order *)
Fixpoint generated_ids (user_id : string) (ops : list task_op) (w : world)
  : list string :=
  match ops with
  | [] => []
  | o :: rest =>
      match o with
      | AddTask _ _ _ => [next_task_id w]
      | CompleteTask _ => []
      end ++ generated_ids user_id rest (after (run_task_op user_id o) w)
  end.

(** [task.get("task_id")] where the task is a dict *)
Definition id_of (task : value) : value :=
  match task with
  | VDict d => default VNone (d !! "task_id")
  | _ => VNone
  end.

(** the ids in [current_tasks], then those in [completed_tasks] *)
Definition task_ids (doc : dict) : list value :=
  id_of <$> (current_tasks_of doc ++ completed_tasks_of doc).

Definition stored_task_ids (user_id : string) (w : world) : list value :=
  match stored user_id w with
  | Some doc => task_ids doc
  | None => []
  end.

(** ** Habits and blockers *)

(** the dict under ["habits_and_behaviors"], empty where there is none *)
Definition habits_of (doc : dict) : dict :=
  match doc !! "habits_and_behaviors" with
  | Some (VDict h) => h
  | _ => ∅
  end.

(** a list of habits or blockers of a document, empty where there is none *)
Definition habit_list (category : string) (doc : dict) : list value :=
  match habits_of doc !! category with
  | Some (VList l) => l
  | _ => []
  end.

(** [item in l] *)
Definition has_item (item : string) (l : list value) : bool :=
  existsb (λ x, eq_str x item) l.

(** the number of entries of [l] equal to [item] *)
Definition occurrences (item : string) (l : list value) : nat :=
  length (List.filter (λ x, eq_str x item) l).

(** the three answers of [add_habit_or_blocker] *)
Definition invalid_category : dict :=
  status_message "error"
    "Category must be 'procrastination_habits' or 'known_blockers'".

Definition already_present (category item : string) : dict :=
  status_message "info" ("'" +:+ item +:+ "' already exists in " +:+ category).

Definition added (category item : string) : dict :=
  status_message "success" ("Added '" +:+ item +:+ "' to " +:+ category).

(** a profile with one habit on record *)
Definition habits_world : world :=
  after (add_habit_or_blocker "Chris" "procrastination_habits" "gaming")
    (empty_world fast_clock).

Definition habits_doc : dict := default ∅ (stored "Chris" habits_world).

(** ** Mutations of the engine *)

Inductive mutation :=
| UpdateSection (section : string) (data : value)
| AddTask_ (description priority due_date : string)
| CompleteTask_ (task_id : string)
| UpdateHabitStreaks (streaks : dict)
| AddHabitOrBlocker (category item : string).

(** the world a mutation leaves, whether it returns or raises *)
Definition mutate (user_id : string) (m : mutation) (w : world) : world :=
  match m with
  | UpdateSection section data => after (update_user_section user_id section data) w
  | AddTask_ description priority due_date =>
      after (add_task user_id description priority due_date) w
  | CompleteTask_ task_id => after (complete_task user_id task_id) w
  | UpdateHabitStreaks streaks => after (update_habit_streaks user_id streaks) w
  | AddHabitOrBlocker category item =>
      after (add_habit_or_blocker user_id category item) w
  end.

(** a mutation that is not an update of the metadata section itself *)
Definition spares_metadata (m : mutation) : bool :=
  match m with
  | UpdateSection section _ => negb (bool_decide (section = "metadata"))
  | _ => true
  end.

(** ["productivity_insights"] is absent, or a dict whose ["habit_streaks"],
    where present, is a dict *)
Definition insights_ok (doc : dict) : bool :=
  match doc !! "productivity_insights" with
  | None => true
  | Some (VDict d) =>
      match d !! "habit_streaks" with
      | Some (VDict _) | None => true
      | Some _ => false
      end
  | Some _ => false
  end.

(** the part of the document a mutation works on has the types of the
    schema *)
Definition typed_for (m : mutation) (doc : dict) : bool :=
  match m with
  | UpdateSection _ _ => true
  | AddTask_ _ _ _ | CompleteTask_ _ => tasks_ok doc
  | UpdateHabitStreaks _ => insights_ok doc
  | AddHabitOrBlocker _ _ => habits_ok doc
  end.

(** the mutation finds something to write: always, but for [complete_task],
    which needs a current task with the id, and [add_habit_or_blocker], which
    needs one of the two categories and an item its list does not have *)
Definition takes_effect (m : mutation) (doc : dict) : bool :=
  match m with
  | UpdateSection _ _ | AddTask_ _ _ _ | UpdateHabitStreaks _ => true
  | CompleteTask_ task_id => existsb (has_id task_id) (current_tasks_of doc)
  | AddHabitOrBlocker category item =>
      valid_category category && negb (has_item item (habit_list category doc))
  end.

(** the last reading of the clock taken before [w'] *)
Definition last_reading (w' : world) : value :=
  VStr (isoformat (clock w' (pred (ticks w')))).

(** from [w] to [w'] the clock was read, and the user's document holds the
    last reading as [metadata.last_updated] *)
Definition refreshed (user_id : string) (w w' : world) : Prop :=
  clock w' = clock w ∧
  (ticks w < ticks w')%nat ∧
  stored_field user_id "metadata" "last_updated" w' = Some (last_reading w').

(** from [w] to [w'] nothing was written, or the user's document was
    written with the metadata [md] but for a new [last_updated] *)
Definition kept (user_id : string) (md : dict) (w w' : world) : Prop :=
  clock w' = clock w ∧
  (store w' = store w ∨
   ∃ doc',
     store w' = <[_doc_id user_id := doc']> (store w) ∧
     doc' !! "metadata" =
       Some (VDict (<["last_updated" := last_reading w']> md))).

(** the dict under ["metadata"], empty where there is none *)
Definition metadata_of (doc : dict) : dict :=
  match doc !! "metadata" with
  | Some (VDict md) => md
  | _ => ∅
  end.

(** ** What the tools answer *)

(** ["status"] is one of the three words *)
Definition status_ok (r : dict) : bool :=
  match r !! "status" with
  | Some (VStr s) =>
      existsb (λ x, bool_decide (s = x)) ["success"; "error"; "info"]
  | _ => false
  end.

(** ["message"] is there and is a string *)
Definition has_message (r : dict) : bool :=
  match r !! "message" with
  | Some (VStr _) => true
  | _ => false
  end.

(** the computation returns (it does not raise) *)
Definition returns {A} (c : M A) (w : world) : Prop :=
  ∃ r w', c w = (Ok r, w').

(** whatever the computation returns has the property *)
Definition answers (c : M dict) (w : world) (P : dict → Prop) : Prop :=
  ∀ r w', c w = (Ok r, w') → P r.

(** the user has no document, or one whose metadata, task lists and habits
    have the shapes of the schema *)
Definition well_formed_store (user_id : string) (w : world) : bool :=
  match stored user_id w with
  | None => true
  | Some doc => metadata_ok doc && tasks_ok doc && habits_ok doc
  end.

(** the computation returned a dict, and a key of that dict *)
Definition answered (c : M dict) (w : world) : bool :=
  match outcome c w with Ok _ => true | Raise _ => false end.

Definition answer_field (c : M dict) (w : world) (key : string) : option value :=
  match outcome c w with Ok r => r !! key | Raise _ => None end.

(** ** Vocabulary of the further properties *)

(** from [w] to [w'] the clock is the same one, it was only read, and no
    document but the user's own was written *)
Definition own (user_id : string) (w w' : world) : Prop :=
  clock w' = clock w ∧
  (ticks w ≤ ticks w')%nat ∧
  ∀ key, key ≠ _doc_id user_id → store w' !! key = store w !! key.

(** a computation that keeps to the user's own document, however it ends *)
Definition local (user_id : string) {A} (c : M A) : Prop :=
  ∀ w, own user_id w (after c w).

(** a computation that returns [True] whenever it returns *)
Definition yields_true (c : M bool) : Prop :=
  ∀ w b w', c w = (Ok b, w') → b = true.

(** the dict [add_task] hands to [_add_task] *)
Definition task_data_of (task_id description priority due_date : string)
    (created_at : value) : dict :=
  let task_data := dict_of [
    ("task_id", VStr task_id);
    ("description", VStr description);
    ("priority", VStr priority);
    ("status", VStr "pending");
    ("created_at", created_at)] in
  if str_given due_date then <["due_date" := VStr due_date]> task_data
  else task_data.

(** the answer of [add_task] *)
Definition task_added (task_id description : string) : dict :=
  <["task_id" := VStr task_id]>
    (status_message "success"
       ("Task '" +:+ description +:+ "' added with ID: " +:+ task_id)).

(** the answer of [get_current_tasks] for a list of tasks *)
Definition tasks_answer (tasks : list value) : dict :=
  dict_of [
    ("status", VStr "success");
    ("current_tasks", VList tasks);
    ("count", VInt (Z.of_nat (length tasks)))].

(** a seed whose metadata is a string *)
Definition bad_seed : dict := dict_of [("metadata", VStr "v1")].

(** the dict a value is, the empty one for the values that are none *)
Definition dict_in (v : value) : dict :=
  match v with VDict d => d | _ => ∅ end.

(** the productivity insights of a document, and its habit streaks, as
    [update_habit_streaks] completes them *)
Definition insights_or_default (doc : dict) : dict :=
  match doc !! "productivity_insights" with
  | Some (VDict d) => d
  | _ => dict_in default_productivity_insights
  end.

Definition streaks_or_default (doc : dict) : dict :=
  match insights_or_default doc !! "habit_streaks" with
  | Some (VDict s) => s
  | _ => dict_in default_habit_streaks
  end.

(** a document whose habit streaks are a number *)
Definition bad_streaks_doc : dict :=
  dict_of [("productivity_insights", VDict (dict_of [("habit_streaks", VInt 3)]))].

(** a world where the user's document is the default schema *)
Definition schema_world : world :=
  written "Chris" (default_schema (VStr "created") (VStr "updated"))
    (empty_world fast_clock).

(** insights with new streaks, an empty list of focus times and a key that
    is none of the tool's *)
Definition some_insights : dict :=
  dict_of [
    ("habit_streaks", VDict (dict_of [("workout_streak_days", VInt 5)]));
    ("best_focus_times", VList []);
    ("notes", VStr "slept badly")].

(** a no-break space, U+00A0, as UTF-8 has it *)
Definition nbsp : string :=
  String (Ascii.ascii_of_nat 194) (String (Ascii.ascii_of_nat 160) EmptyString).

(** * Properties *)

(** ** How the methods run *)

Lemma backfill_union (existing defaults : dict) :
  backfill existing defaults = existing ∪ defaults.
Proof.
  unfold backfill.
  induction defaults as [|k v m Hk Hfold IH] using map_first_key_ind.
  - rewrite map_fold_empty. by rewrite (right_id_L ∅ (∪)).
  - rewrite map_fold_insert_first_key by done.
    rewrite IH. case_bool_decide as Hin.
    + apply map_eq. intros i. rewrite !lookup_union. destruct (decide (k = i)) as [->|].
      * rewrite lookup_insert_eq, Hk. destruct Hin as [x Hx].
        rewrite lookup_union, Hk in Hx. destruct (existing !! i); [done|discriminate].
      * by rewrite lookup_insert_ne.
    + rewrite insert_union_r; [done|].
      rewrite <-not_eq_None_Some in Hin. apply dec_stable in Hin.
      rewrite lookup_union in Hin. destruct (existing !! k); simpl in *; [destruct (m !! k); done|done].
Qed.

Lemma default_schema_metadata c l :
  default_schema c l !! "metadata" =
  Some (VDict (dict_of [("created_at", c); ("last_updated", l); ("version", VInt 1)])).
Proof. reflexivity. Qed.

Lemma default_schema_touch c l t :
  touch t (default_schema c l) = default_schema c t.
Proof. reflexivity. Qed.

Lemma set_nested_touch doc md t :
  doc !! "metadata" = Some (VDict md) →
  set_nested doc "metadata" "last_updated" t = Ok (touch t doc).
Proof. intros H. unfold set_nested, touch, py_getitem, py_setitem. by rewrite H. Qed.

Ltac run :=
  cbv [bind now_iso now ret lift try_not_found collection_get collection_upsert
       given fresh_metadata ensure_metadata get_or_initialize];
  cbn [store clock ticks].

Lemma initialize_absent user_id w :
  stored user_id w = None →
  initialize_user_schema user_id None w =
  (Ok true,
   written user_id (default_schema (reading w 0) (reading w 2)) (advance 3 w)).
Proof.
  intros H. unfold stored in H. unfold initialize_user_schema. run.
  rewrite (set_nested_touch _ _ _ (default_schema_metadata _ _)).
  rewrite H. reflexivity.
Qed.

Lemma union_metadata (doc : dict) c l :
  metadata_ok doc = true →
  ∃ md, (doc ∪ default_schema c l) !! "metadata" = Some (VDict md).
Proof.
  unfold metadata_ok. intros H. rewrite lookup_union.
  destruct (doc !! "metadata") as [[]|] eqn:E; try done.
  - rewrite default_schema_metadata. by eexists.
  - rewrite default_schema_metadata. by eexists.
Qed.

Lemma initialize_existing user_id w doc :
  stored user_id w = Some doc →
  metadata_ok doc = true →
  initialize_user_schema user_id None w =
  (Ok true,
   written user_id
     (touch (reading w 3) (doc ∪ default_schema (reading w 0) (reading w 2)))
     (advance 4 w)).
Proof.
  intros H Hmd. unfold stored in H. unfold initialize_user_schema. run.
  rewrite (set_nested_touch _ _ _ (default_schema_metadata _ _)).
  rewrite H, backfill_union, default_schema_touch.
  destruct (union_metadata doc (reading w 0) (reading w 2) Hmd) as [md E].
  unfold reading in *. cbn [Nat.add] in *.
  rewrite (set_nested_touch _ _ _ E). reflexivity.
Qed.

Lemma get_or_initialize_existing user_id w doc :
  stored user_id w = Some doc → get_or_initialize user_id w = (Ok doc, w).
Proof. unfold stored. intros H. run. by rewrite H. Qed.

Lemma stored_written user_id doc w : stored user_id (written user_id doc w) = Some doc.
Proof. unfold stored, written. cbn [store]. apply lookup_insert_eq. Qed.

Lemma get_or_initialize_absent user_id w :
  stored user_id w = None →
  get_or_initialize user_id w =
  (Ok (default_schema (reading w 0) (reading w 2)), initialized user_id w).
Proof.
  intros H. unfold get_or_initialize.
  cbv [try_not_found bind collection_get]. unfold stored in H. rewrite H.
  fold (stored user_id w) in H. rewrite (initialize_absent _ _ H).
  fold (initialized user_id w).
  pose proof (stored_written user_id (default_schema (reading w 0) (reading w 2)) (advance 3 w)) as E.
  unfold stored in E. fold (initialized user_id w) in E. by rewrite E.
Qed.

Lemma ensure_metadata_spec doc w :
  ensure_metadata doc w = (Ok (ensured doc w), advance (metadata_cost doc) w).
Proof.
  unfold ensure_metadata, ensured, metadata_cost.
  case_bool_decide; run; [by destruct w|reflexivity].
Qed.

Lemma update_user_section_existing user_id section data w doc :
  stored user_id w = Some doc →
  update_user_section user_id section data w =
  let doc0 := ensured doc w in
  let w0 := advance (metadata_cost doc) w in
  match set_nested (<[section := merge_section (doc0 !! section) data]> doc0)
          "metadata" "last_updated" (reading w0 0) with
  | Ok doc' => (Ok true, written user_id doc' (advance 1 w0))
  | Raise e => (Raise e, advance 1 w0)
  end.
Proof.
  intros H. unfold update_user_section. unfold bind at 1.
  rewrite (get_or_initialize_existing _ _ _ H). unfold bind at 1.
  rewrite ensure_metadata_spec. run.
  cbv zeta. unfold reading. cbn [advance store clock ticks Nat.add].
  by destruct (set_nested _ _ _ _).
Qed.

Lemma update_user_section_absent user_id section data w :
  stored user_id w = None →
  update_user_section user_id section data w =
  update_user_section user_id section data (initialized user_id w).
Proof.
  intros H. unfold update_user_section. unfold bind at 1.
  rewrite (get_or_initialize_absent _ _ H).
  symmetry. unfold bind at 1.
  rewrite (get_or_initialize_existing _ (initialized user_id w) _ (stored_written _ _ _)).
  reflexivity.
Qed.

Lemma default_schema_dom c l : dom (default_schema c l) = sections.
Proof. reflexivity. Qed.

Lemma default_schema_insert c l c' l' :
  default_schema c l =
  <["metadata" := VDict (dict_of [("created_at", c); ("last_updated", l);
                                   ("version", VInt 1)])]> (default_schema c' l').
Proof. reflexivity. Qed.

Lemma default_schema_other c l c' l' s :
  s ≠ "metadata" → default_schema c l !! s = default_schema c' l' !! s.
Proof.
  intros Hs. rewrite (default_schema_insert c l c' l').
  by rewrite lookup_insert_ne.
Qed.


(** ** Initialization *)

Section initialize.
Variable user_id : string.
Variable w : world.

(** C2, in the form the code satisfies:
    for a user without a document, [initialize_user_schema]
    stores a document with the seven sections of the schema at their default
    values, where [metadata.version] is 1, [metadata.created_at] is the
    first reading of the clock and [metadata.last_updated] the third one;
    the two are equal exactly when the clock gave the same reading twice.
    The call itself returns [True]; the document is what the store holds. *)
Theorem initialize_creates_schema :
  stored user_id w = None →
  ∃ doc,
    initialize_user_schema user_id None w =
      (Ok true, written user_id doc (advance 3 w)) ∧
    stored user_id (written user_id doc (advance 3 w)) = Some doc ∧
    dom doc = sections ∧
    (∀ s c l, s ≠ "metadata" → doc !! s = default_schema c l !! s) ∧
    field doc "metadata" "version" = Some (VInt 1) ∧
    field doc "metadata" "created_at" = Some (reading w 0) ∧
    field doc "metadata" "last_updated" = Some (reading w 2) ∧
    (field doc "metadata" "created_at" = field doc "metadata" "last_updated"
     ↔ isoformat (clock w (ticks w)) = isoformat (clock w (2 + ticks w))).
Proof.
  intros Habsent. exists (default_schema (reading w 0) (reading w 2)).
  split; [by apply initialize_absent|].
  split; [apply stored_written|].
  split; [apply default_schema_dom|].
  split; [intros s c l Hs; by apply default_schema_other|].
  repeat (split; [reflexivity|]).
  change (Some (reading w 0) = Some (reading w 2)
          ↔ isoformat (clock w (ticks w)) = isoformat (clock w (2 + ticks w))).
  unfold reading. cbn [Nat.add]. split; [congruence|by intros ->].
Qed.

(** C3: for a stored document (whose metadata, where present, is a dict)
    [initialize_user_schema] returns [True] and stores a document that has
    the old sections and the missing sections of the schema and no other;
    a section that was there keeps its value, a missing one gets its
    default, [metadata.last_updated] is the latest reading of the clock and
    the rest of the metadata is as it was; a second call changes
    [metadata.last_updated] and nothing else. *)
Theorem initialize_backfills (doc : dict) :
  stored user_id w = Some doc →
  metadata_ok doc = true →
  ∃ doc',
    initialize_user_schema user_id None w =
      (Ok true, written user_id doc' (advance 4 w)) ∧
    stored user_id (written user_id doc' (advance 4 w)) = Some doc' ∧
    dom doc' = dom doc ∪ sections ∧
    (∀ s, s ≠ "metadata" → is_Some (doc !! s) → doc' !! s = doc !! s) ∧
    (∀ s c l, s ≠ "metadata" → doc !! s = None →
              doc' !! s = default_schema c l !! s) ∧
    (∀ md, doc !! "metadata" = Some (VDict md) →
           doc' !! "metadata" =
             Some (VDict (<["last_updated" := reading w 3]> md))) ∧
    (doc !! "metadata" = None →
     doc' !! "metadata" =
       Some (VDict (dict_of [("created_at", reading w 0);
                             ("last_updated", reading w 3);
                             ("version", VInt 1)]))) ∧
    ∃ w'',
      initialize_user_schema user_id None (written user_id doc' (advance 4 w)) =
        (Ok true, w'') ∧
      stored user_id w'' = Some (touch (reading w 7) doc') ∧
      ∀ s, s ≠ "metadata" → touch (reading w 7) doc' !! s = doc' !! s.
Proof.
  intros Hdoc Hmd.
  set (dflt := default_schema (reading w 0) (reading w 2)).
  destruct (union_metadata doc (reading w 0) (reading w 2) Hmd) as [md0 Hmd0].
  fold dflt in Hmd0.
  assert (Htouch : touch (reading w 3) (doc ∪ dflt) =
                   <["metadata" := VDict (<["last_updated" := reading w 3]> md0)]>
                     (doc ∪ dflt)) by (unfold touch; by rewrite Hmd0).
  exists (touch (reading w 3) (doc ∪ dflt)).
  split; [by apply initialize_existing|].
  split; [apply stored_written|].
  split.
  { rewrite Htouch, dom_insert_L, dom_union_L. unfold dflt.
    rewrite default_schema_dom. unfold sections. set_solver. }
  split.
  { intros s Hs [x Hx]. rewrite Htouch, lookup_insert_ne by done.
    by rewrite lookup_union, Hx, union_Some_l. }
  split.
  { intros s c l Hs Hnone. rewrite Htouch, lookup_insert_ne by done.
    rewrite lookup_union, Hnone, (left_id_L None (∪)).
    by apply default_schema_other. }
  split.
  { intros md E. rewrite Htouch, lookup_insert_eq.
    rewrite lookup_union, E, union_Some_l in Hmd0. by simplify_eq. }
  split.
  { intros E. rewrite Htouch, lookup_insert_eq.
    rewrite lookup_union, E, (left_id_L None (∪)) in Hmd0.
    unfold dflt in Hmd0. rewrite default_schema_metadata in Hmd0.
    by simplify_eq. }
  set (doc' := touch (reading w 3) (doc ∪ dflt)).
  set (w' := written user_id doc' (advance 4 w)).
  assert (Hok : metadata_ok doc' = true).
  { unfold metadata_ok, doc'. by rewrite Htouch, lookup_insert_eq. }
  assert (Hfull : ∀ c l, doc' ∪ default_schema c l = doc').
  { intros c l. apply map_eq. intros s. rewrite lookup_union.
    destruct (doc' !! s) as [x|] eqn:E; [by rewrite union_Some_l|].
    rewrite (left_id_L None (∪)). apply not_elem_of_dom.
    rewrite default_schema_dom. apply not_elem_of_dom in E.
    unfold doc' in E. rewrite Htouch, dom_insert_L, dom_union_L in E.
    unfold dflt in E. rewrite default_schema_dom in E. set_solver. }
  eexists. split.
  { rewrite (initialize_existing user_id w' doc' (stored_written _ _ _) Hok).
    reflexivity. }
  rewrite stored_written, Hfull. split; [reflexivity|].
  intros s Hs. unfold touch. destruct (doc' !! "metadata") as [[]|]; try done.
  by rewrite lookup_insert_ne.
Qed.
End initialize.

(** the readings of [fast_clock] differ: [created_at] and [last_updated] of
    a new document are not equal *)
Lemma initialize_created_at_differs :
  ∃ doc,
    stored "Chris"
      (initialize_user_schema "Chris" None (empty_world fast_clock)).2 = Some doc ∧
    field doc "metadata" "created_at" = Some (VStr "2026-01-05T09:00:00.000000") ∧
    field doc "metadata" "last_updated" = Some (VStr "2026-01-05T09:00:00.000002") ∧
    field doc "metadata" "created_at" ≠ field doc "metadata" "last_updated".
Proof.
  rewrite initialize_absent by reflexivity.
  eexists. split; [apply stored_written|].
  split; [reflexivity|]. split; [reflexivity|]. vm_compute. discriminate.
Qed.

Lemma initialize_creates_schema_witness :
  ∃ doc,
    stored "Chris" (empty_world fast_clock) = None ∧
    initialize_user_schema "Chris" None (empty_world fast_clock) =
      (Ok true, written "Chris" doc (advance 3 (empty_world fast_clock))) ∧
    dom doc = sections ∧
    field doc "metadata" "version" = Some (VInt 1).
Proof.
  destruct (initialize_creates_schema "Chris" (empty_world fast_clock))
    as (doc & Hrun & _ & Hdom & _ & Hversion & _); [reflexivity|].
  exists doc. repeat split; assumption.
Defined.

Lemma initialize_backfills_witness :
  ∃ doc',
    stored "Chris" old_world = Some old_profile ∧
    metadata_ok old_profile = true ∧
    initialize_user_schema "Chris" None old_world =
      (Ok true, written "Chris" doc' (advance 4 old_world)) ∧
    dom doc' = dom old_profile ∪ sections.
Proof.
  destruct (initialize_backfills "Chris" old_world old_profile)
    as (doc' & Hrun & _ & Hdom & _); [reflexivity|reflexivity|].
  exists doc'. repeat split; assumption.
Defined.

(** ** Reading a section *)

(** C7: for a user without a document [get_user_section] returns an empty
    dict and raises nothing, with a section name and without one; for a
    stored document that lacks the named section it returns an empty dict
    as well.  The store and the clock are left as they were. *)
Theorem get_user_section_empty (user_id : string) (w : world) :
  (stored user_id w = None →
   ∀ section, get_user_section user_id section w = (Ok (VDict ∅), w)) ∧
  (∀ doc s, stored user_id w = Some doc → s ≠ "" → doc !! s = None →
            get_user_section user_id (Some s) w = (Ok (VDict ∅), w)).
Proof.
  unfold stored, get_user_section. split.
  - intros Habsent section. run. rewrite Habsent. by destruct (named section).
  - intros doc s Hdoc Hs Hnone. run. rewrite Hdoc.
    assert (named (Some s) = true) as -> by (by destruct s).
    cbn [from_option]. unfold id. by rewrite Hnone.
Qed.

Lemma get_user_section_empty_witness :
  stored "Chris" (empty_world fast_clock) = None ∧
  get_user_section "Chris" (Some "task_tracking") (empty_world fast_clock) =
    (Ok (VDict ∅), empty_world fast_clock) ∧
  get_user_section "Chris" None (empty_world fast_clock) =
    (Ok (VDict ∅), empty_world fast_clock) ∧
  stored "Chris" old_world = Some old_profile ∧
  old_profile !! "task_tracking" = None ∧
  get_user_section "Chris" (Some "task_tracking") old_world = (Ok (VDict ∅), old_world).
Proof.
  destruct (get_user_section_empty "Chris" (empty_world fast_clock)) as [Habsent _].
  destruct (get_user_section_empty "Chris" old_world) as [_ Hsection].
  split; [reflexivity|]. split; [by apply Habsent|]. split; [by apply Habsent|].
  split; [reflexivity|]. split; [reflexivity|].
  by apply (Hsection old_profile).
Defined.

(** ** Updating a section *)

Lemma update_user_section_ok user_id section data w doc md1 :
  stored user_id w = Some doc →
  (<[section := merge_section (ensured doc w !! section) data]> (ensured doc w))
    !! "metadata" = Some (VDict md1) →
  update_user_section user_id section data w =
  (Ok true,
   written user_id
     (<["metadata" := VDict (<["last_updated" := reading w (metadata_cost doc)]> md1)]>
        (<[section := merge_section (ensured doc w !! section) data]> (ensured doc w)))
     (advance (1 + metadata_cost doc) w)).
Proof.
  intros Hdoc Hmd. rewrite (update_user_section_existing _ _ _ _ _ Hdoc).
  cbv zeta. rewrite (set_nested_touch _ _ _ Hmd). unfold touch. rewrite Hmd.
  reflexivity.
Qed.

Lemma ensured_lookup doc w s :
  is_Some (doc !! s) → ensured doc w !! s = doc !! s.
Proof.
  intros Hs. unfold ensured. case_bool_decide as Hmd; [done|].
  rewrite lookup_insert_ne; [done|]. intros <-. done.
Qed.

Lemma ensured_metadata doc w :
  metadata_ok doc = true → ∃ md, ensured doc w !! "metadata" = Some (VDict md).
Proof.
  unfold metadata_ok, ensured. intros Hok. case_bool_decide as Hmd.
  - destruct (doc !! "metadata") as [[]|]; try done; try (by eexists).
  - rewrite lookup_insert_eq. by eexists.
Qed.

Lemma ensured_other doc w s :
  s ≠ "metadata" → ensured doc w !! s = doc !! s.
Proof.
  intros Hs. unfold ensured. case_bool_decide; [done|]. by rewrite lookup_insert_ne.
Qed.

(** a section that is a dict, merged with a dict: what the store holds after *)
Lemma update_user_section_merge user_id section w doc old data :
  stored user_id w = Some doc →
  metadata_ok doc = true →
  doc !! section = Some (VDict old) →
  ∃ w' doc' new,
    update_user_section user_id section (VDict data) w = (Ok true, w') ∧
    stored user_id w' = Some doc' ∧
    doc' !! section = Some (VDict new) ∧
    (section ≠ "metadata" → new = data ∪ old) ∧
    (section = "metadata" →
     new = <["last_updated" := reading w (metadata_cost doc)]> (data ∪ old)) ∧
    (∀ s, s ≠ section → s ≠ "metadata" → doc' !! s = doc !! s).
Proof.
  intros Hdoc Hok Hsec.
  assert (Hsec0 : ensured doc w !! section = Some (VDict old))
    by (rewrite ensured_lookup; [done|by eexists]).
  destruct (ensured_metadata doc w Hok) as [md Hmd].
  destruct (decide (section = "metadata")) as [->|Hne].
  - assert (md = old) as -> by congruence.
    eexists _, _, _. split.
    { eapply update_user_section_ok; [done|].
      rewrite Hsec0. cbn [merge_section]. by rewrite lookup_insert_eq. }
    split; [apply stored_written|].
    split; [by rewrite lookup_insert_eq|].
    split; [done|]. split; [done|].
    intros s Hs1 Hs2. by rewrite !lookup_insert_ne, ensured_other.
  - eexists _, _, _. split.
    { eapply update_user_section_ok; [done|].
      rewrite lookup_insert_ne by done. exact Hmd. }
    split; [apply stored_written|].
    split; [rewrite lookup_insert_ne by done; rewrite lookup_insert_eq, Hsec0; done|].
    split; [done|]. split; [done|].
    intros s Hs1 Hs2. by rewrite !lookup_insert_ne, ensured_other.
Qed.

(** the write of [update_user_section]: the document stored, the readings
    taken and the timestamp *)
Lemma update_user_section_fresh user_id section w doc old data :
  stored user_id w = Some doc →
  metadata_ok doc = true →
  doc !! section = Some (VDict old) →
  ∃ doc' new,
    update_user_section user_id section (VDict data) w =
      (Ok true, written user_id doc' (advance (1 + metadata_cost doc) w)) ∧
    doc' !! section = Some (VDict new) ∧
    (section ≠ "metadata" → new = data ∪ old) ∧
    (section = "metadata" →
     new = <["last_updated" := reading w (metadata_cost doc)]> (data ∪ old)) ∧
    field doc' "metadata" "last_updated" = Some (reading w (metadata_cost doc)) ∧
    metadata_ok doc' = true ∧
    (∀ s, s ≠ section → s ≠ "metadata" → doc' !! s = doc !! s).
Proof.
  intros Hdoc Hok Hsec.
  assert (Hsec0 : ensured doc w !! section = Some (VDict old))
    by (rewrite ensured_lookup; [done|by eexists]).
  destruct (ensured_metadata doc w Hok) as [md Hmd].
  destruct (decide (section = "metadata")) as [->|Hne].
  - assert (md = old) as -> by congruence.
    eexists _, _. split.
    { eapply update_user_section_ok; [done|].
      rewrite Hsec0. cbn [merge_section]. by rewrite lookup_insert_eq. }
    split; [by rewrite lookup_insert_eq|].
    split; [done|]. split; [done|].
    split; [unfold field; by rewrite !lookup_insert_eq|].
    split; [unfold metadata_ok; by rewrite lookup_insert_eq|].
    intros s Hs1 Hs2. by rewrite !lookup_insert_ne, ensured_other.
  - eexists _, _. split.
    { eapply update_user_section_ok; [done|].
      rewrite lookup_insert_ne by done. exact Hmd. }
    split; [rewrite lookup_insert_ne by done; rewrite lookup_insert_eq, Hsec0; done|].
    split; [done|]. split; [done|].
    split; [unfold field; by rewrite !lookup_insert_eq|].
    split; [unfold metadata_ok; by rewrite lookup_insert_eq|].
    intros s Hs1 Hs2. by rewrite !lookup_insert_ne, ensured_other.
Qed.

(** the two updates of the example on a stored document *)
Lemma update_section_example_run user_id w doc old :
  stored user_id w = Some doc →
  metadata_ok doc = true →
  doc !! "personal_info" = Some (VDict old) →
  ∃ w1 w2 doc2,
    update_user_section user_id "personal_info"
      (VDict (dict_of [("age", VInt 30)])) w = (Ok true, w1) ∧
    update_user_section user_id "personal_info"
      (VDict (dict_of [("name", VStr "Alex")])) w1 = (Ok true, w2) ∧
    stored user_id w2 = Some doc2 ∧
    doc2 !! "personal_info" =
      Some (VDict (dict_of [("name", VStr "Alex")] ∪
                   (dict_of [("age", VInt 30)] ∪ old))).
Proof.
  intros Hdoc Hok Hsec.
  destruct (update_user_section_fresh user_id "personal_info" w doc old
              (dict_of [("age", VInt 30)]) Hdoc Hok Hsec)
    as (doc1 & new1 & Hrun1 & Hnew1 & Hother1 & _ & _ & Hok1 & _).
  destruct (update_user_section_fresh user_id "personal_info"
              (written user_id doc1 (advance (1 + metadata_cost doc) w)) doc1 new1
              (dict_of [("name", VStr "Alex")]) (stored_written _ _ _) Hok1 Hnew1)
    as (doc2 & new2 & Hrun2 & Hnew2 & Hother2 & _).
  eexists _, _, doc2. split; [exact Hrun1|]. split; [exact Hrun2|].
  split; [apply stored_written|].
  rewrite Hnew2, Hother2 by done. by rewrite Hother1.
Qed.

(** C1, in the form the code satisfies:
    on a stored document whose section is a dict (and whose
    metadata, where present, is one), [update_user_section] with a dict
    returns [True] and writes the document merged shallowly: every key of
    [data] maps to its value from [data] and every key that only the old
    section has keeps its value, except that [metadata.last_updated] always
    holds the reading of the clock the call took last, also when the data is
    aimed at the metadata and names [last_updated]; the other sections but
    the metadata are as they were.  In particular, updating [personal_info]
    with [{"age": 30}] and then with [{"name": "Alex"}] gives a section where
    [name] is ["Alex"], [age] is 30 and every other key of the old section
    has its old value, so the section is [{"name": "Alex", "age": 30}] when
    the old section had no other key; for a user without a document, whose
    profile the first update creates, it is
    [{"name": "Alex", "age": 30, "domain": ""}]. *)
Theorem update_section_merges user_id w :
  (∀ doc,
     stored user_id w = Some doc →
     metadata_ok doc = true →
     (∀ section old data,
        doc !! section = Some (VDict old) →
        ∃ doc' new,
          update_user_section user_id section (VDict data) w =
            (Ok true, written user_id doc' (advance (1 + metadata_cost doc) w)) ∧
          doc' !! section = Some (VDict new) ∧
          (∀ k v, data !! k = Some v →
                  (section, k) ≠ ("metadata", "last_updated") → new !! k = Some v) ∧
          (∀ k, data !! k = None →
                (section, k) ≠ ("metadata", "last_updated") → new !! k = old !! k) ∧
          field doc' "metadata" "last_updated" =
            Some (reading w (metadata_cost doc)) ∧
          (∀ s, s ≠ section → s ≠ "metadata" → doc' !! s = doc !! s)) ∧
     (∀ old,
        doc !! "personal_info" = Some (VDict old) →
        ∃ w1 w2 doc2 new,
          update_user_section user_id "personal_info"
            (VDict (dict_of [("age", VInt 30)])) w = (Ok true, w1) ∧
          update_user_section user_id "personal_info"
            (VDict (dict_of [("name", VStr "Alex")])) w1 = (Ok true, w2) ∧
          stored user_id w2 = Some doc2 ∧
          doc2 !! "personal_info" = Some (VDict new) ∧
          new !! "name" = Some (VStr "Alex") ∧
          new !! "age" = Some (VInt 30) ∧
          (∀ k, k ≠ "name" → k ≠ "age" → new !! k = old !! k) ∧
          (dom old ⊆ {["name"; "age"]} →
           new = dict_of [("name", VStr "Alex"); ("age", VInt 30)]))) ∧
  (stored user_id w = None →
   ∃ w1 w2 doc2,
     update_user_section user_id "personal_info"
       (VDict (dict_of [("age", VInt 30)])) w = (Ok true, w1) ∧
     update_user_section user_id "personal_info"
       (VDict (dict_of [("name", VStr "Alex")])) w1 = (Ok true, w2) ∧
     stored user_id w2 = Some doc2 ∧
     doc2 !! "personal_info" =
       Some (VDict (dict_of [("name", VStr "Alex"); ("age", VInt 30);
                             ("domain", VStr "")]))).
Proof.
  split.
  - intros doc Hdoc Hok. split.
    + intros section old data Hsec.
      destruct (update_user_section_fresh user_id section w doc old data Hdoc Hok Hsec)
        as (doc' & new & Hrun & Hnew & Hother & Hmeta & Hfresh & _ & Hframe).
      exists doc', new. split; [exact Hrun|]. split; [exact Hnew|].
      split; [|split; [|by split]].
      * intros k v Hk Hne. destruct (decide (section = "metadata")) as [->|Hs].
        -- rewrite (Hmeta eq_refl), lookup_insert_ne by congruence.
           by rewrite lookup_union, Hk, union_Some_l.
        -- by rewrite (Hother Hs), lookup_union, Hk, union_Some_l.
      * intros k Hk Hne. destruct (decide (section = "metadata")) as [->|Hs].
        -- rewrite (Hmeta eq_refl), lookup_insert_ne by congruence.
           by rewrite lookup_union, Hk, (left_id_L None (∪)).
        -- by rewrite (Hother Hs), lookup_union, Hk, (left_id_L None (∪)).
    + intros old Hsec.
      destruct (update_section_example_run user_id w doc old Hdoc Hok Hsec)
        as (w1 & w2 & doc2 & Hrun1 & Hrun2 & Hst2 & Hnew2).
      exists w1, w2, doc2,
        (dict_of [("name", VStr "Alex")] ∪ (dict_of [("age", VInt 30)] ∪ old)).
      repeat (split; [assumption|]).
      split.
      { rewrite lookup_union.
        change (dict_of [("name", VStr "Alex")] !! "name") with (Some (VStr "Alex")).
        by rewrite union_Some_l. }
      split.
      { rewrite !lookup_union.
        change (dict_of [("name", VStr "Alex")] !! "age") with (@None value).
        rewrite (left_id_L None (∪)).
        change (dict_of [("age", VInt 30)] !! "age") with (Some (VInt 30)).
        by rewrite union_Some_l. }
      split.
      * intros k Hk1 Hk2. rewrite !lookup_union. unfold dict_of.
        cbn [list_to_map foldr fst snd].
        rewrite !lookup_insert_ne, !lookup_empty by done.
        by rewrite !(left_id_L None (∪)).
      * intros Hdom. apply map_eq. intros k.
        destruct (decide (k = "name")) as [->|Hk1].
        { rewrite lookup_union.
          change (dict_of [("name", VStr "Alex")] !! "name") with (Some (VStr "Alex")).
          by rewrite union_Some_l. }
        destruct (decide (k = "age")) as [->|Hk2].
        { rewrite !lookup_union.
          change (dict_of [("name", VStr "Alex")] !! "age") with (@None value).
          rewrite (left_id_L None (∪)).
          change (dict_of [("age", VInt 30)] !! "age") with (Some (VInt 30)).
          by rewrite union_Some_l. }
        rewrite !lookup_union. unfold dict_of. cbn [list_to_map foldr fst snd].
        rewrite !lookup_insert_ne, !lookup_empty by done.
        rewrite !(left_id_L None (∪)). apply not_elem_of_dom. set_solver.
  - intros Hnone. rewrite (update_user_section_absent _ _ _ _ Hnone).
    destruct (update_section_example_run user_id (initialized user_id w)
                (default_schema (reading w 0) (reading w 2))
                (dict_of [("name", VStr ""); ("age", VInt 0); ("domain", VStr "")])
                (stored_written _ _ _) eq_refl eq_refl)
      as (w1 & w2 & doc2 & Hrun1 & Hrun2 & Hst2 & Hnew2).
    exists w1, w2, doc2. split; [exact Hrun1|]. split; [exact Hrun2|].
    split; [exact Hst2|]. rewrite Hnew2. by do 2 f_equal.
Qed.

(** for a user without a document the two updates of the example leave the
    default [domain] in the section: it is not [{"name": "Alex", "age": 30}];
    and an update of the metadata that names [last_updated] does not set it *)
Lemma update_section_example_fails :
  (outcome (update_user_section "Chris" "personal_info"
              (VDict (dict_of [("age", VInt 30)]))) (empty_world fast_clock) = Ok true ∧
   outcome (update_user_section "Chris" "personal_info"
              (VDict (dict_of [("name", VStr "Alex")])))
     (after (update_user_section "Chris" "personal_info"
               (VDict (dict_of [("age", VInt 30)]))) (empty_world fast_clock)) = Ok true ∧
   stored_section "Chris" "personal_info"
     (after (update_user_section "Chris" "personal_info"
               (VDict (dict_of [("name", VStr "Alex")])))
        (after (update_user_section "Chris" "personal_info"
                  (VDict (dict_of [("age", VInt 30)]))) (empty_world fast_clock))) =
     Some (VDict (dict_of [("name", VStr "Alex"); ("age", VInt 30);
                           ("domain", VStr "")])) ∧
   dict_of [("name", VStr "Alex"); ("age", VInt 30); ("domain", VStr "")] ≠
     dict_of [("name", VStr "Alex"); ("age", VInt 30)]) ∧
  (outcome (update_user_section "Chris" "metadata"
              (VDict (dict_of [("last_updated", VStr "never")]))) old_world = Ok true ∧
   stored_field "Chris" "metadata" "last_updated"
     (after (update_user_section "Chris" "metadata"
               (VDict (dict_of [("last_updated", VStr "never")]))) old_world) =
     Some (VStr "2026-01-05T09:00:00.000000")).
Proof.
  split.
  - split; [vm_compute; reflexivity|].
    split; [vm_compute; reflexivity|].
    split; [vm_compute; reflexivity|].
    intros H. apply (f_equal (λ m : dict, m !! "domain")) in H.
    vm_compute in H. discriminate.
  - split; vm_compute; reflexivity.
Qed.

Lemma update_section_merges_witness :
  stored "Chris" old_world = Some old_profile ∧
  metadata_ok old_profile = true ∧
  (∃ w1 w2 doc2,
     update_user_section "Chris" "personal_info"
       (VDict (dict_of [("age", VInt 30)])) old_world = (Ok true, w1) ∧
     update_user_section "Chris" "personal_info"
       (VDict (dict_of [("name", VStr "Alex")])) w1 = (Ok true, w2) ∧
     stored "Chris" w2 = Some doc2 ∧
     doc2 !! "personal_info" =
       Some (VDict (dict_of [("name", VStr "Alex"); ("age", VInt 30)]))) ∧
  (∃ doc',
     outcome (update_user_section "Chris" "metadata"
                (VDict (dict_of [("last_updated", VStr "never")]))) old_world =
       Ok true ∧
     stored "Chris"
       (after (update_user_section "Chris" "metadata"
                 (VDict (dict_of [("last_updated", VStr "never")]))) old_world) =
       Some doc' ∧
     field doc' "metadata" "last_updated" = Some (reading old_world 0)) ∧
  stored "Chris" (empty_world fast_clock) = None ∧
  ∃ w1 w2 doc2,
    update_user_section "Chris" "personal_info"
      (VDict (dict_of [("age", VInt 30)])) (empty_world fast_clock) = (Ok true, w1) ∧
    update_user_section "Chris" "personal_info"
      (VDict (dict_of [("name", VStr "Alex")])) w1 = (Ok true, w2) ∧
    stored "Chris" w2 = Some doc2 ∧
    doc2 !! "personal_info" =
      Some (VDict (dict_of [("name", VStr "Alex"); ("age", VInt 30);
                            ("domain", VStr "")])).
Proof.
  split; [reflexivity|]. split; [reflexivity|].
  destruct (update_section_merges "Chris" old_world) as [Hstored _].
  destruct (Hstored old_profile eq_refl eq_refl) as [Hmerge Hexample].
  split.
  { destruct (Hexample (dict_of [("name", VStr "Chris"); ("age", VInt 41)]))
      as (w1 & w2 & doc2 & new & H1 & H2 & Hst & Hnew & _ & _ & _ & Heq);
      [reflexivity|].
    exists w1, w2, doc2. repeat (split; [assumption|]).
    rewrite Hnew, Heq; [reflexivity|].
    by replace (dom (dict_of [("name", VStr "Chris"); ("age", VInt 41)]))
      with ({["name"; "age"]} : gset string) by reflexivity. }
  split.
  { destruct (Hmerge "metadata"
                (dict_of [("created_at", VStr "2025-11-30T08:15:00.000000");
                          ("last_updated", VStr "2025-12-24T18:00:00.000000");
                          ("version", VInt 1)])
                (dict_of [("last_updated", VStr "never")]))
      as (doc' & new & Hrun & _ & _ & _ & Hfresh & _); [reflexivity|].
    exists doc'. unfold outcome, after. rewrite Hrun. cbn [fst snd].
    split; [reflexivity|]. split; [apply stored_written|exact Hfresh]. }
  split; [reflexivity|].
  destruct (update_section_merges "Chris" (empty_world fast_clock)) as [_ Habsent].
  exact (Habsent eq_refl).
Defined.

(** ** The task lists *)

Lemma pop_task_none task_id l :
  forallb is_dict l = true →
  existsb (has_id task_id) l = false →
  pop_task task_id l = Ok None.
Proof.
  induction l as [|t l IH]; [done|]. cbn [forallb existsb pop_task].
  intros [Ht Hl]%andb_prop [Hid Hex]%orb_false_elim.
  destruct t; try done. cbn [py_get has_id] in *. rewrite Hid.
  by rewrite (IH Hl Hex).
Qed.

Lemma pop_task_first task_id before task after :
  forallb is_dict before = true →
  existsb (has_id task_id) before = false →
  has_id task_id (VDict task) = true →
  pop_task task_id (before ++ VDict task :: after) =
  Ok (Some (VDict task, before ++ after)).
Proof.
  intros Hl Hex Hid. induction before as [|t l IH].
  - cbn [app pop_task py_get]. cbn [has_id] in Hid. by rewrite Hid.
  - cbn [forallb existsb] in *.
    apply andb_prop in Hl as [Ht Hl]. apply orb_false_elim in Hex as [Hidt Hex].
    destruct t; try done. cbn [app pop_task py_get]. cbn [has_id] in Hidt.
    rewrite Hidt. by rewrite (IH Hl Hex).
Qed.

Lemma existsb_first {A} (p : A → bool) (l : list A) :
  existsb p l = true →
  ∃ before x after,
    l = before ++ x :: after ∧ existsb p before = false ∧ p x = true.
Proof.
  induction l as [|a l IH]; [done|]. cbn [existsb].
  destruct (p a) eqn:Ha.
  - intros _. by exists [], a, l.
  - cbn [orb]. intros (before & x & after & -> & Hb & Hx)%IH.
    exists (a :: before), x, after. cbn [existsb]. by rewrite Ha.
Qed.

Lemma ensure_current_tasks doc :
  tasks_ok doc = true →
  ensure_nested (ensure_task_tracking doc) "task_tracking" "current_tasks"
    (VList []) = Ok (with_current doc).
Proof.
  unfold tasks_ok, ensure_task_tracking, with_current, current_tasks_of,
    tasks_of, tracking_of.
  unfold ensure_nested, set_nested, py_getitem, py_in, py_setitem.
  destruct (doc !! "task_tracking") as [[| | | | |tr]|] eqn:Ett; try done.
  - intros [Hcur Hcomp]%andb_prop.
    rewrite bool_decide_eq_true_2 by done. rewrite Ett.
    destruct (tr !! "current_tasks") as [[| | | |cur|]|] eqn:Ecur; try done.
    rewrite bool_decide_eq_true_2 by done.
    rewrite (insert_id tr "current_tasks") by done. by rewrite insert_id.
  - intros _. rewrite bool_decide_eq_false_2 by (by intros [??]).
    rewrite lookup_insert_eq. unfold empty_task_tracking.
    by rewrite bool_decide_eq_true_2 by done.
Qed.

Lemma ensure_completed_tasks doc :
  tasks_ok doc = true →
  ensure_nested (with_current doc) "task_tracking" "completed_tasks" (VList []) =
    Ok (with_task_lists doc).
Proof.
  unfold tasks_ok, with_current, with_task_lists, current_tasks_of,
    completed_tasks_of, tasks_of, tracking_of.
  unfold ensure_nested, set_nested, py_getitem, py_in, py_setitem.
  rewrite !lookup_insert_eq. rewrite lookup_insert_ne by done.
  destruct (doc !! "task_tracking") as [[| | | | |tr]|] eqn:Ett; try done.
  intros [Hcur Hcomp]%andb_prop.
  destruct (tr !! "completed_tasks") as [[| | | |comp|]|] eqn:Ecomp; try done.
  - rewrite bool_decide_eq_true_2 by done.
    by rewrite (insert_id (<["current_tasks" := _]> tr) "completed_tasks")
      by (by rewrite lookup_insert_ne).
  - rewrite bool_decide_eq_false_2 by (by intros [??]).
    by rewrite insert_insert_eq.
Qed.

Lemma current_tasks_dicts doc :
  tasks_ok doc = true → forallb is_dict (current_tasks_of doc) = true.
Proof.
  unfold tasks_ok, current_tasks_of, tasks_of, tracking_of.
  destruct (doc !! "task_tracking") as [[| | | | |tr]|]; try done.
  intros [Hcur _]%andb_prop.
  by destruct (tr !! "current_tasks") as [[| | | |cur|]|].
Qed.

Lemma has_id_truthy task_id task :
  has_id task_id (VDict task) = true → truthy (VDict task) = true.
Proof.
  cbn [has_id truthy]. intros Hid.
  destruct (decide (task = ∅)) as [->|Hne].
  - by rewrite lookup_empty in Hid.
  - apply map_size_non_empty_iff in Hne. by destruct (size task).
Qed.

Lemma metadata_cost_insert doc s v :
  s ≠ "metadata" → metadata_cost (<[s := v]> doc) = metadata_cost doc.
Proof. intros Hs. unfold metadata_cost. by rewrite lookup_insert_ne. Qed.

Lemma ensured_insert doc w s v :
  s ≠ "metadata" → ensured (<[s := v]> doc) w = <[s := v]> (ensured doc w).
Proof.
  intros Hs. unfold ensured. rewrite lookup_insert_ne by done.
  case_bool_decide; [done|]. by rewrite insert_insert_ne.
Qed.

Lemma _complete_task_absent user_id task_id w :
  stored user_id w = None → _complete_task user_id task_id w = (Ok false, w).
Proof. unfold stored, _complete_task. intros H. run. by rewrite H. Qed.

Lemma _complete_task_not_found user_id task_id w doc :
  stored user_id w = Some doc →
  tasks_ok doc = true →
  existsb (has_id task_id) (current_tasks_of doc) = false →
  _complete_task user_id task_id w = (Ok false, w).
Proof.
  unfold stored, _complete_task. intros Hdoc Hok Hex. run. rewrite Hdoc.
  rewrite (ensure_current_tasks _ Hok), (ensure_completed_tasks _ Hok).
  unfold get_nested, with_task_lists, py_getitem.
  rewrite lookup_insert_eq, lookup_insert_ne, lookup_insert_eq by done.
  cbn [py_iter]. by rewrite (pop_task_none _ _ (current_tasks_dicts _ Hok) Hex).
Qed.

Ltac step :=
  cbv [bind now_iso now ret lift try_not_found collection_get collection_upsert];
  cbn [store clock ticks advance].

Lemma _complete_task_found user_id task_id w doc before task after :
  stored user_id w = Some doc →
  tasks_ok doc = true →
  metadata_ok doc = true →
  current_tasks_of doc = before ++ VDict task :: after →
  existsb (has_id task_id) before = false →
  has_id task_id (VDict task) = true →
  _complete_task user_id task_id w =
  (Ok true,
   written user_id
     (touch (reading w (1 + metadata_cost doc))
        (<["task_tracking" :=
            VDict (<["completed_tasks" :=
                      VList (completed_tasks_of doc ++
                             [VDict (completed (reading w (metadata_cost doc)) task)])]>
                     (<["current_tasks" := VList (before ++ after)]>
                        (<["completed_tasks" := VList (completed_tasks_of doc)]>
                           (<["current_tasks" := VList (current_tasks_of doc)]>
                              (tracking_of doc)))))]>
           (ensured doc w)))
     (advance (2 + metadata_cost doc) w)).
Proof.
  unfold stored, _complete_task. intros Hdoc Hok Hmd Hcur Hex Hid. step. rewrite Hdoc.
  rewrite (ensure_current_tasks _ Hok), (ensure_completed_tasks _ Hok).
  pose proof (current_tasks_dicts _ Hok) as Hdicts.
  unfold get_nested, set_nested, with_task_lists, py_getitem, py_setitem.
  rewrite lookup_insert_eq, lookup_insert_ne, lookup_insert_eq by done.
  cbn [py_iter]. rewrite Hcur in Hdicts |- * at 1.
  rewrite forallb_app in Hdicts. apply andb_prop in Hdicts as [Hb _].
  rewrite (pop_task_first _ _ _ _ Hb Hex Hid).
  rewrite (has_id_truthy _ _ Hid). cbv beta iota.
  rewrite insert_insert_eq.
  rewrite ensure_metadata_spec.
  rewrite metadata_cost_insert, ensured_insert by done.
  step. cbn [py_append].
  rewrite !lookup_insert_eq.
  rewrite (lookup_insert_ne _ "current_tasks" "completed_tasks") by done.
  rewrite lookup_insert_eq. cbn [py_append]. rewrite insert_insert_eq.
  destruct (ensured_metadata doc w Hmd) as [md Emd].
  unfold touch. rewrite !lookup_insert_ne by done. rewrite Emd.
  reflexivity.
Qed.

Lemma _add_task_existing user_id task_data w doc :
  stored user_id w = Some doc →
  tasks_ok doc = true →
  metadata_ok doc = true →
  _add_task user_id task_data w =
  (Ok true,
   written user_id
     (touch (reading w (1 + metadata_cost doc))
        (<["task_tracking" :=
            VDict (<["current_tasks" :=
                      VList (current_tasks_of doc ++
                             [VDict (<["last_activity" :=
                                        reading w (metadata_cost doc)]> task_data)])]>
                     (<["current_tasks" := VList (current_tasks_of doc)]>
                        (tracking_of doc)))]>
           (ensured doc w)))
     (advance (2 + metadata_cost doc) w)).
Proof.
  intros Hdoc Hok Hmd. unfold _add_task. unfold bind at 1.
  rewrite (get_or_initialize_existing _ _ _ Hdoc). step.
  rewrite (ensure_current_tasks _ Hok).
  rewrite ensure_metadata_spec. unfold with_current.
  rewrite metadata_cost_insert, ensured_insert by done.
  step. unfold get_nested, set_nested, py_getitem, py_setitem.
  rewrite !lookup_insert_eq. cbn [py_append]. rewrite insert_insert_eq.
  destruct (ensured_metadata doc w Hmd) as [md Emd].
  unfold touch. rewrite !lookup_insert_ne by done. rewrite Emd.
  reflexivity.
Qed.

Lemma _add_task_absent user_id task_data w :
  stored user_id w = None →
  _add_task user_id task_data w = _add_task user_id task_data (initialized user_id w).
Proof.
  intros H. unfold _add_task. unfold bind at 1.
  rewrite (get_or_initialize_absent _ _ H).
  symmetry. unfold bind at 1.
  rewrite (get_or_initialize_existing _ (initialized user_id w) _ (stored_written _ _ _)).
  reflexivity.
Qed.

Lemma touch_lookup_ne t doc s :
  s ≠ "metadata" → touch t doc !! s = doc !! s.
Proof.
  intros Hs. unfold touch. destruct (doc !! "metadata") as [[]|]; try done.
  by rewrite lookup_insert_ne.
Qed.

Lemma touch_metadata t doc md :
  doc !! "metadata" = Some (VDict md) →
  touch t doc !! "metadata" = Some (VDict (<["last_updated" := t]> md)).
Proof. intros H. unfold touch. rewrite H. apply lookup_insert_eq. Qed.

Lemma tasks_of_lookup key doc tr l :
  doc !! "task_tracking" = Some (VDict tr) →
  tr !! key = Some (VList l) →
  tasks_of key doc = l.
Proof. intros Hd Ht. unfold tasks_of, tracking_of. by rewrite Hd, Ht. Qed.

(** C4, in the form the code satisfies:
    [_complete_task] returns [False] and leaves the world as
    it is for a user without a document; on a stored document with well-formed
    task lists it returns [True] exactly when some task of [current_tasks] has
    the task id; when none has, it returns [False] and writes nothing; when
    one has, the first such task leaves [current_tasks] and is appended to
    [completed_tasks] with [status] ["completed"] and [completed_on] the
    reading of the clock, and [metadata.last_updated] is the next reading.
    A repeat of the call returns [False] and writes nothing when no other
    task of [current_tasks] carried the same id. *)
Theorem complete_task_moves user_id task_id w :
  (stored user_id w = None → _complete_task user_id task_id w = (Ok false, w)) ∧
  (∀ doc,
     stored user_id w = Some doc → tasks_ok doc = true → metadata_ok doc = true →
     outcome (_complete_task user_id task_id) w =
       Ok (existsb (has_id task_id) (current_tasks_of doc)) ∧
     (existsb (has_id task_id) (current_tasks_of doc) = false →
      _complete_task user_id task_id w = (Ok false, w)) ∧
     (∀ before task after,
        current_tasks_of doc = before ++ VDict task :: after →
        existsb (has_id task_id) before = false →
        has_id task_id (VDict task) = true →
        ∃ w' doc' t,
          _complete_task user_id task_id w = (Ok true, w') ∧
          stored user_id w' = Some doc' ∧
          current_tasks_of doc' = before ++ after ∧
          completed_tasks_of doc' =
            completed_tasks_of doc ++ [VDict (completed t task)] ∧
          completed t task !! "status" = Some (VStr "completed") ∧
          completed t task !! "completed_on" = Some t ∧
          t = reading w (metadata_cost doc) ∧
          field doc' "metadata" "last_updated" =
            Some (reading w (1 + metadata_cost doc)) ∧
          (existsb (has_id task_id) after = false →
           _complete_task user_id task_id w' = (Ok false, w')))).
Proof.
  split; [apply _complete_task_absent|].
  intros doc Hdoc Hok Hmd.
  assert (Hfound : ∀ before task after,
    current_tasks_of doc = before ++ VDict task :: after →
    existsb (has_id task_id) before = false →
    has_id task_id (VDict task) = true →
    ∃ w' doc' t,
      _complete_task user_id task_id w = (Ok true, w') ∧
      stored user_id w' = Some doc' ∧
      current_tasks_of doc' = before ++ after ∧
      completed_tasks_of doc' =
        completed_tasks_of doc ++ [VDict (completed t task)] ∧
      completed t task !! "status" = Some (VStr "completed") ∧
      completed t task !! "completed_on" = Some t ∧
      t = reading w (metadata_cost doc) ∧
      field doc' "metadata" "last_updated" =
        Some (reading w (1 + metadata_cost doc)) ∧
      (existsb (has_id task_id) after = false →
       _complete_task user_id task_id w' = (Ok false, w'))).
  { intros before task after Hcur Hex Hid.
    pose proof (_complete_task_found _ _ _ _ _ _ _ Hdoc Hok Hmd Hcur Hex Hid) as Hrun.
    destruct (ensured_metadata doc w Hmd) as [md Emd].
    match type of Hrun with _ = (_, written _ ?d _) => set (doc' := d) in * end.
    assert (Htr : doc' !! "task_tracking" =
      Some (VDict (<["completed_tasks" :=
                      VList (completed_tasks_of doc ++
                             [VDict (completed (reading w (metadata_cost doc)) task)])]>
                     (<["current_tasks" := VList (before ++ after)]>
                        (<["completed_tasks" := VList (completed_tasks_of doc)]>
                           (<["current_tasks" := VList (current_tasks_of doc)]>
                              (tracking_of doc))))))).
    { unfold doc'. rewrite touch_lookup_ne by done. apply lookup_insert_eq. }
    assert (Hcur' : current_tasks_of doc' = before ++ after).
    { apply (tasks_of_lookup _ _ _ _ Htr).
      rewrite lookup_insert_ne by done. apply lookup_insert_eq. }
    eexists _, doc', _. split; [exact Hrun|].
    split; [apply stored_written|].
    split; [exact Hcur'|].
    split; [apply (tasks_of_lookup _ _ _ _ Htr), lookup_insert_eq|].
    split; [apply lookup_insert_eq|].
    split; [unfold completed; rewrite lookup_insert_ne by done; apply lookup_insert_eq|].
    split; [reflexivity|].
    split.
    { unfold field, doc'. erewrite touch_metadata.
      - apply lookup_insert_eq.
      - rewrite lookup_insert_ne by done. exact Emd. }
    intros Hafter. apply (_complete_task_not_found _ _ _ doc').
    - apply stored_written.
    - unfold tasks_ok. rewrite Htr.
      rewrite (lookup_insert_ne _ "completed_tasks" "current_tasks") by done.
      rewrite !lookup_insert_eq. cbn [absent_or is_task_list is_list].
      pose proof (current_tasks_dicts _ Hok) as Hd. rewrite Hcur in Hd.
      rewrite forallb_app in Hd |- *. cbn [forallb] in Hd.
      apply andb_prop in Hd as [-> [_ ->]%andb_prop]. done.
    - rewrite Hcur', existsb_app, Hex, Hafter. done. }
  split; [|split; [by apply _complete_task_not_found|exact Hfound]].
  destruct (existsb (has_id task_id) (current_tasks_of doc)) eqn:Hex.
  - apply existsb_first in Hex as (before & x & after & Hcur & Hb & Hx).
    destruct x as [| | | | |task]; try done.
    destruct (Hfound before task after Hcur Hb Hx) as (w' & doc' & t & Hrun & _).
    unfold outcome. by rewrite Hrun.
  - unfold outcome. by rewrite (_complete_task_not_found _ _ _ _ Hdoc Hok Hex).
Qed.

(** two tasks added within one second carry the same id: the call returns
    [True] twice and leaves two completed tasks with that id *)
Lemma complete_task_repeat_succeeds :
  has_id "task_20260105_090000" <$> stored_tasks "current_tasks" "Chris" two_tasks_world
    = [true; true] ∧
  outcome (_complete_task "Chris" "task_20260105_090000") two_tasks_world = Ok true ∧
  outcome (_complete_task "Chris" "task_20260105_090000")
    (after (_complete_task "Chris" "task_20260105_090000") two_tasks_world) = Ok true ∧
  has_id "task_20260105_090000" <$>
    stored_tasks "completed_tasks" "Chris"
      (after (_complete_task "Chris" "task_20260105_090000")
         (after (_complete_task "Chris" "task_20260105_090000") two_tasks_world))
    = [true; true].
Proof. repeat split; vm_compute; reflexivity. Qed.

Lemma stored_default user_id w :
  bool_decide (is_Some (stored user_id w)) = true →
  stored user_id w = Some (default ∅ (stored user_id w)).
Proof. intros [doc ->]%bool_decide_eq_true. reflexivity. Qed.

Lemma complete_task_moves_witness :
  stored "Chris" two_ids_world = Some two_ids_doc ∧
  tasks_ok two_ids_doc = true ∧
  metadata_ok two_ids_doc = true ∧
  outcome (_complete_task "Chris" "task_20260105_090007") two_ids_world = Ok true.
Proof.
  assert (E : stored "Chris" two_ids_world = Some two_ids_doc)
    by (apply stored_default; vm_compute; reflexivity).
  assert (Htasks : tasks_ok two_ids_doc = true) by (vm_compute; reflexivity).
  assert (Hmd : metadata_ok two_ids_doc = true) by (vm_compute; reflexivity).
  repeat (split; [assumption|]).
  destruct (complete_task_moves "Chris" "task_20260105_090007" two_ids_world)
    as [_ Hstored].
  destruct (Hstored two_ids_doc E Htasks Hmd) as [Hout _].
  rewrite Hout. vm_compute. reflexivity.
Defined.

(** ** Task ids *)

Lemma tracking_lists_ok doc :
  tasks_ok doc = true →
  absent_or is_task_list (tracking_of doc !! "current_tasks") = true ∧
  absent_or is_list (tracking_of doc !! "completed_tasks") = true.
Proof.
  unfold tasks_ok, tracking_of.
  destruct (doc !! "task_tracking") as [[| | | | |tr]|]; try done.
  by intros [??]%andb_prop.
Qed.

(** what [_add_task] leaves in the store *)
Lemma _add_task_effect user_id task_data w doc :
  stored user_id w = Some doc →
  tasks_ok doc = true →
  metadata_ok doc = true →
  ∃ doc',
    outcome (_add_task user_id task_data) w = Ok true ∧
    stored user_id (after (_add_task user_id task_data) w) = Some doc' ∧
    tasks_ok doc' = true ∧
    metadata_ok doc' = true ∧
    current_tasks_of doc' =
      current_tasks_of doc ++
      [VDict (<["last_activity" := reading w (metadata_cost doc)]> task_data)] ∧
    completed_tasks_of doc' = completed_tasks_of doc.
Proof.
  intros Hdoc Hok Hmd. unfold outcome, after.
  rewrite (_add_task_existing _ _ _ _ Hdoc Hok Hmd). cbn [fst snd].
  destruct (ensured_metadata doc w Hmd) as [md Emd].
  destruct (tracking_lists_ok doc Hok) as [Hcur Hcomp].
  eexists. split; [reflexivity|]. split; [apply stored_written|].
  match goal with |- tasks_ok ?d = _ ∧ _ => set (doc' := d) end.
  assert (Htr : doc' !! "task_tracking" =
    Some (VDict (<["current_tasks" :=
                    VList (current_tasks_of doc ++
                           [VDict (<["last_activity" :=
                                      reading w (metadata_cost doc)]> task_data)])]>
                   (<["current_tasks" := VList (current_tasks_of doc)]>
                      (tracking_of doc))))).
  { unfold doc'. rewrite touch_lookup_ne by done. apply lookup_insert_eq. }
  split.
  { unfold tasks_ok. rewrite Htr. rewrite lookup_insert_eq.
    rewrite !lookup_insert_ne by done. rewrite Hcomp.
    cbn [absent_or is_task_list]. rewrite forallb_app.
    by rewrite (current_tasks_dicts _ Hok). }
  split.
  { unfold metadata_ok, doc'. erewrite touch_metadata; [done|].
    rewrite lookup_insert_ne by done. exact Emd. }
  split; [apply (tasks_of_lookup _ _ _ _ Htr), lookup_insert_eq|].
  unfold completed_tasks_of, tasks_of at 1. unfold tracking_of at 1.
  rewrite Htr. by rewrite !lookup_insert_ne by done.
Qed.

(** what [_complete_task] leaves in the store *)
Lemma _complete_task_effect user_id task_id w doc :
  stored user_id w = Some doc →
  tasks_ok doc = true →
  metadata_ok doc = true →
  after (_complete_task user_id task_id) w = w ∨
  ∃ before task rest doc' t,
    current_tasks_of doc = before ++ VDict task :: rest ∧
    stored user_id (after (_complete_task user_id task_id) w) = Some doc' ∧
    tasks_ok doc' = true ∧
    metadata_ok doc' = true ∧
    current_tasks_of doc' = before ++ rest ∧
    completed_tasks_of doc' = completed_tasks_of doc ++ [VDict (completed t task)].
Proof.
  intros Hdoc Hok Hmd.
  destruct (existsb (has_id task_id) (current_tasks_of doc)) eqn:Hex.
  - right. apply existsb_first in Hex as (before & x & rest & Hcur & Hb & Hx).
    destruct x as [| | | | |task]; try done.
    pose proof (_complete_task_found _ _ _ _ _ _ _ Hdoc Hok Hmd Hcur Hb Hx) as Hrun.
    destruct (ensured_metadata doc w Hmd) as [md Emd].
    unfold after. rewrite Hrun. cbn [snd].
    exists before, task, rest. eexists _, _. split; [exact Hcur|].
    split; [apply stored_written|].
    match goal with |- tasks_ok ?d = _ ∧ _ => set (doc' := d) end.
    assert (Htr : doc' !! "task_tracking" =
      Some (VDict (<["completed_tasks" :=
                      VList (completed_tasks_of doc ++
                             [VDict (completed (reading w (metadata_cost doc)) task)])]>
                     (<["current_tasks" := VList (before ++ rest)]>
                        (<["completed_tasks" := VList (completed_tasks_of doc)]>
                           (<["current_tasks" := VList (current_tasks_of doc)]>
                              (tracking_of doc))))))).
    { unfold doc'. rewrite touch_lookup_ne by done. apply lookup_insert_eq. }
    split.
    { unfold tasks_ok. rewrite Htr.
      rewrite (lookup_insert_ne _ "completed_tasks" "current_tasks") by done.
      rewrite !lookup_insert_eq. cbn [absent_or is_task_list is_list].
      pose proof (current_tasks_dicts _ Hok) as Hd. rewrite Hcur in Hd.
      rewrite forallb_app in Hd |- *. cbn [forallb] in Hd.
      apply andb_prop in Hd as [-> [_ ->]%andb_prop]. done. }
    split.
    { unfold metadata_ok, doc'. erewrite touch_metadata; [done|].
      rewrite lookup_insert_ne by done. exact Emd. }
    split.
    { apply (tasks_of_lookup _ _ _ _ Htr).
      rewrite lookup_insert_ne by done. apply lookup_insert_eq. }
    apply (tasks_of_lookup _ _ _ _ Htr), lookup_insert_eq.
  - left. unfold after. by rewrite (_complete_task_not_found _ _ _ _ Hdoc Hok Hex).
Qed.

Lemma add_task_after user_id description priority due_date w :
  ∃ task_data,
    task_data !! "task_id" = Some (VStr (next_task_id w)) ∧
    after (add_task user_id description priority due_date) w =
      after (_add_task user_id task_data) (advance 2 w).
Proof.
  unfold after at 1, add_task. step.
  match goal with |- context [_add_task _ ?td _] => exists td end.
  split.
  - unfold next_task_id. by destruct (str_given due_date).
  - unfold after, advance. cbn [Nat.add].
    match goal with |- context [_add_task ?u ?td ?w'] =>
      destruct (_add_task u td w') as [[[]|] ?] end; reflexivity.
Qed.

Lemma complete_task_after user_id task_id w :
  after (complete_task user_id task_id) w = after (_complete_task user_id task_id) w.
Proof.
  unfold after, complete_task, bind, ret.
  by destruct (_complete_task user_id task_id w) as [[[]|] ?].
Qed.

Lemma id_of_completed t task : id_of (VDict (completed t task)) = id_of (VDict task).
Proof. unfold id_of, completed. by rewrite !lookup_insert_ne. Qed.

Lemma task_ids_moved (before rest comp : list value) x x' :
  id_of x' = id_of x →
  id_of <$> ((before ++ rest) ++ comp ++ [x']) ≡ₚ
  id_of <$> ((before ++ x :: rest) ++ comp).
Proof.
  intros Hx. repeat (rewrite fmap_app || rewrite fmap_cons).
  cbn [fmap list_fmap]. rewrite Hx.
  rewrite <-!(assoc_L (++)). apply Permutation_app_head.
  rewrite (assoc_L (++)), (Permutation_app_comm _ [id_of x]). reflexivity.
Qed.

Lemma task_ids_added (cur comp : list value) x :
  id_of <$> ((cur ++ [x]) ++ comp) ≡ₚ id_of x :: (id_of <$> (cur ++ comp)).
Proof.
  rewrite !fmap_app. cbn [fmap list_fmap].
  rewrite <-(assoc_L (++)). cbn [app]. symmetry. apply Permutation_middle.
Qed.

(** the ids stay pairwise distinct as long as every new id is a new one *)
Lemma run_task_ops_distinct user_id ops :
  ∀ w doc,
    stored user_id w = Some doc →
    tasks_ok doc = true →
    metadata_ok doc = true →
    NoDup (task_ids doc) →
    NoDup (generated_ids user_id ops w) →
    (∀ i, i ∈ generated_ids user_id ops w → VStr i ∉ task_ids doc) →
    NoDup (stored_task_ids user_id (run_task_ops user_id ops w)).
Proof.
  induction ops as [|[description priority due_date|task_id] ops IH];
    intros w doc Hdoc Hok Hmd Hids Hgen Hfresh.
  - cbn [run_task_ops]. unfold stored_task_ids. by rewrite Hdoc.
  - cbn [run_task_ops generated_ids run_task_op app] in *.
    destruct (add_task_after user_id description priority due_date w)
      as (task_data & Hid & Hafter).
    rewrite Hafter in *.
    destruct (_add_task_effect user_id task_data (advance 2 w) doc Hdoc Hok Hmd)
      as (doc' & _ & Hdoc' & Hok' & Hmd' & Hcur' & Hcomp').
    assert (Hperm : task_ids doc' ≡ₚ VStr (next_task_id w) :: task_ids doc).
    { unfold task_ids. rewrite Hcur', Hcomp', task_ids_added.
      cbn [id_of]. by rewrite lookup_insert_ne, Hid by done. }
    apply NoDup_cons in Hgen as [Hnew Hgen].
    apply (IH _ doc' Hdoc' Hok' Hmd'); [|done|].
    + rewrite Hperm. apply NoDup_cons. split; [|done].
      apply Hfresh. by left.
    + intros i Hi. rewrite Hperm. intros [Heq|Hin]%elem_of_cons.
      * injection Heq as ->. done.
      * by apply (Hfresh i); [right|].
  - cbn [run_task_ops generated_ids run_task_op app] in *.
    rewrite complete_task_after in *.
    destruct (_complete_task_effect user_id task_id w doc Hdoc Hok Hmd)
      as [Hsame|(before & task & rest & doc' & t & Hcur & Hdoc' & Hok' & Hmd'
                 & Hcur' & Hcomp')].
    + rewrite Hsame in *. by apply (IH _ doc).
    + assert (Hperm : task_ids doc' ≡ₚ task_ids doc).
      { unfold task_ids. rewrite Hcur', Hcomp', Hcur.
        apply task_ids_moved, id_of_completed. }
      apply (IH _ doc' Hdoc' Hok' Hmd'); [by rewrite Hperm|done|].
      intros i Hi. rewrite Hperm. by apply Hfresh.
Qed.

(** C5, in the form the code satisfies:
    after [initialize_user_schema] for a new user and any
    sequence of [add_task] and [complete_task] calls in which the ids made up
    by the [add_task] calls are pairwise distinct (no two of them read the
    clock within the same second), the task ids found in [current_tasks] and
    in [completed_tasks] are pairwise distinct: no id occurs twice in
    [current_tasks] and none occurs in both lists.  This holds after every
    such sequence, so at every time of a run. *)
Theorem task_ids_unique user_id w0 ops :
  stored user_id w0 = None →
  NoDup (generated_ids user_id ops
           (after (initialize_user_schema user_id None) w0)) →
  NoDup (stored_task_ids user_id
           (run_task_ops user_id ops
              (after (initialize_user_schema user_id None) w0))) ∧
  NoDup (id_of <$> stored_tasks "current_tasks" user_id
           (run_task_ops user_id ops
              (after (initialize_user_schema user_id None) w0))) ∧
  ∀ i,
    i ∈ id_of <$> stored_tasks "current_tasks" user_id
          (run_task_ops user_id ops
             (after (initialize_user_schema user_id None) w0)) →
    i ∉ id_of <$> stored_tasks "completed_tasks" user_id
          (run_task_ops user_id ops
             (after (initialize_user_schema user_id None) w0)).
Proof.
  intros Habsent. unfold after at 1 2 3 4 5.
  rewrite (initialize_absent _ _ Habsent). cbn [snd].
  set (w := written _ _ _). intros Hgen.
  assert (Hall : NoDup (stored_task_ids user_id (run_task_ops user_id ops w))).
  { apply (run_task_ops_distinct _ _ w
             (default_schema (reading w0 0) (reading w0 2)));
      [apply stored_written|reflexivity|reflexivity|constructor|done|].
    intros i _. apply not_elem_of_nil. }
  split; [exact Hall|].
  unfold stored_task_ids, stored_tasks, task_ids in *.
  destruct (stored user_id (run_task_ops user_id ops w)) as [doc|].
  - rewrite fmap_app in Hall. apply NoDup_app in Hall as (Hcur & Hdisj & _).
    split; [exact Hcur|exact Hdisj].
  - split; [constructor|]. intros i []%elem_of_nil.
Qed.

(** two [add_task] calls within one second give the second task the id of
    the first, and after [complete_task] that id is in both lists *)
Lemma task_ids_collide :
  stored_task_ids "Chris" two_tasks_world =
    [VStr "task_20260105_090000"; VStr "task_20260105_090000"] ∧
  id_of <$> stored_tasks "current_tasks" "Chris"
    (after (complete_task "Chris" "task_20260105_090000") two_tasks_world) =
    [VStr "task_20260105_090000"] ∧
  id_of <$> stored_tasks "completed_tasks" "Chris"
    (after (complete_task "Chris" "task_20260105_090000") two_tasks_world) =
    [VStr "task_20260105_090000"].
Proof. repeat split; vm_compute; reflexivity. Qed.

Lemma task_ids_unique_witness :
  stored "Chris" (empty_world slow_clock) = None ∧
  generated_ids "Chris"
    [AddTask "Write report" "high" ""; AddTask "Call the bank" "low" "2026-01-09";
     CompleteTask "task_20260105_090003"]
    (after (initialize_user_schema "Chris" None) (empty_world slow_clock)) =
    ["task_20260105_090003"; "task_20260105_090007"] ∧
  NoDup (stored_task_ids "Chris"
           (run_task_ops "Chris"
              [AddTask "Write report" "high" "";
               AddTask "Call the bank" "low" "2026-01-09";
               CompleteTask "task_20260105_090003"]
              (after (initialize_user_schema "Chris" None) (empty_world slow_clock)))).
Proof.
  split; [reflexivity|]. split; [vm_compute; reflexivity|].
  apply (task_ids_unique "Chris" (empty_world slow_clock)); [reflexivity|].
  apply (bool_decide_unpack _). vm_compute. exact I.
Defined.

(** ** Habits and blockers *)

Lemma get_user_section_stored user_id section w doc :
  stored user_id w = Some doc →
  section ≠ "" →
  get_user_section user_id (Some section) w =
    (Ok (default (VDict ∅) (doc !! section)), w).
Proof.
  unfold stored, get_user_section. intros Hdoc Hs. step. rewrite Hdoc.
  by assert (named (Some section) = true) as -> by (by destruct section).
Qed.

Lemma habits_ok_list category doc :
  habits_ok doc = true →
  valid_category category = true →
  default (VDict ∅) (doc !! "habits_and_behaviors") = VDict (habits_of doc) ∧
  (habits_of doc !! category = None ∨
   habits_of doc !! category = Some (VList (habit_list category doc))).
Proof.
  unfold habits_ok, habit_list, habits_of, valid_category. cbn [existsb].
  intros Hok Hc.
  assert (category = "procrastination_habits" ∨ category = "known_blockers")
    as Hcat.
  { apply orb_prop in Hc as [Hc|Hc]; [left; by apply bool_decide_eq_true in Hc|].
    rewrite orb_false_r in Hc. right. by apply bool_decide_eq_true in Hc. }
  destruct (doc !! "habits_and_behaviors") as [[| | | | |h]|]; try done.
  - split; [done|]. apply andb_prop in Hok as [H1 H2].
    destruct Hcat as [-> | ->].
    + destruct (h !! "procrastination_habits") as [[]|]; try done; auto.
    + destruct (h !! "known_blockers") as [[]|]; try done; auto.
  - split; [done|]. left. apply lookup_empty.
Qed.

Lemma occurrences_none item l : has_item item l = false → occurrences item l = 0.
Proof.
  unfold has_item, occurrences. induction l as [|x l IH]; [done|].
  cbn [existsb List.filter]. intros [-> Hl]%orb_false_elim. by apply IH.
Qed.

Lemma occurrences_snoc item l :
  occurrences item (l ++ [VStr item]) = S (occurrences item l).
Proof.
  unfold occurrences. rewrite List.filter_app, length_app. cbn [List.filter eq_str].
  rewrite bool_decide_eq_true_2 by done. cbn [length]. lia.
Qed.

Lemma has_item_snoc item l : has_item item (l ++ [VStr item]) = true.
Proof.
  unfold has_item. rewrite existsb_app. cbn [existsb eq_str].
  rewrite bool_decide_eq_true_2 by done. by rewrite orb_true_r.
Qed.

Lemma add_habit_invalid user_id category item w :
  valid_category category = false →
  add_habit_or_blocker user_id category item w = (Ok invalid_category, w).
Proof. intros H. unfold add_habit_or_blocker. by rewrite H. Qed.

Lemma add_habit_present user_id category item w doc :
  stored user_id w = Some doc →
  habits_ok doc = true →
  valid_category category = true →
  has_item item (habit_list category doc) = true →
  add_habit_or_blocker user_id category item w =
    (Ok (already_present category item), w).
Proof.
  intros Hdoc Hok Hc Hin. unfold add_habit_or_blocker. rewrite Hc. cbn [negb].
  unfold bind at 1. rewrite (get_user_section_stored _ _ _ _ Hdoc) by done.
  destruct (habits_ok_list category doc Hok Hc) as [-> Hlist]. step.
  cbn [py_in py_setitem py_getitem].
  destruct Hlist as [Hnone|Hsome].
  - unfold habit_list in Hin. by rewrite Hnone in Hin.
  - rewrite Hsome. rewrite bool_decide_eq_true_2 by done.
    cbv beta iota. cbn [py_getitem]. rewrite Hsome.
    cbn [py_in]. fold (has_item item (habit_list category doc)). by rewrite Hin.
Qed.

Lemma add_habit_new user_id category item w doc :
  stored user_id w = Some doc →
  habits_ok doc = true →
  metadata_ok doc = true →
  valid_category category = true →
  has_item item (habit_list category doc) = false →
  ∃ doc',
    add_habit_or_blocker user_id category item w =
      (Ok (added category item),
       written user_id doc' (advance (1 + metadata_cost doc) w)) ∧
    habits_ok doc' = true ∧
    metadata_ok doc' = true ∧
    habit_list category doc' = habit_list category doc ++ [VStr item] ∧
    (∀ c, c ≠ category → habits_of doc' !! c = habits_of doc !! c) ∧
    (∀ s, s ≠ "habits_and_behaviors" → s ≠ "metadata" → doc' !! s = doc !! s).
Proof.
  intros Hdoc Hok Hmd Hc Hin. unfold add_habit_or_blocker. rewrite Hc. cbn [negb].
  unfold bind at 1. rewrite (get_user_section_stored _ _ _ _ Hdoc) by done.
  destruct (habits_ok_list category doc Hok Hc) as [Hh Hlist]. rewrite Hh. step.
  cbn [py_in py_setitem py_getitem].
  set (l := habit_list category doc) in *.
  set (h := habits_of doc) in *.
  assert (Hrun : ∀ h1 items,
    <[category := VList items]> h1 ∪ h = <[category := VList items]> h →
    ∃ doc',
      (let (r, w') :=
         update_user_section user_id "habits_and_behaviors"
           (VDict (<[category := VList items]> h1)) w in
       match r with
       | Ok a => (if a then ret (added category item)
                  else ret (already_present category item)) w'
       | Raise e => (Raise e, w')
       end) =
      (Ok (added category item),
       written user_id doc' (advance (1 + metadata_cost doc) w)) ∧
      habits_ok doc' = true ∧
      metadata_ok doc' = true ∧
      habit_list category doc' = items ∧
      (∀ c, c ≠ category → habits_of doc' !! c = h !! c) ∧
      (∀ s, s ≠ "habits_and_behaviors" → s ≠ "metadata" → doc' !! s = doc !! s)).
  { intros h1 items Hunion.
    destruct (ensured_metadata doc w Hmd) as [md Emd].
    assert (Hmerge : merge_section (ensured doc w !! "habits_and_behaviors")
                       (VDict (<[category := VList items]> h1)) =
                     VDict (<[category := VList items]> h)).
    { rewrite ensured_other by done. unfold h, habits_of in *.
      destruct (doc !! "habits_and_behaviors") as [[| | | | |h0]|]; try done;
        cbn [merge_section]; by rewrite <-Hunion, ?(right_id_L ∅ (∪)). }
    rewrite (update_user_section_ok _ _ _ _ _ md Hdoc)
      by (by rewrite lookup_insert_ne).
    rewrite Hmerge. eexists. split; [reflexivity|].
    split.
    { unfold habits_ok. rewrite lookup_insert_ne, lookup_insert_eq by done.
      unfold habits_ok in Hok. unfold h, habits_of in *.
      unfold valid_category in Hc. cbn [existsb] in Hc. rewrite orb_false_r in Hc.
      destruct (doc !! "habits_and_behaviors") as [[| | | | |h0]|]; try done.
      - apply andb_prop in Hok as [H1 H2].
        apply orb_prop in Hc as [->%bool_decide_eq_true| ->%bool_decide_eq_true].
        + rewrite lookup_insert_eq, lookup_insert_ne by done. by rewrite H2.
        + rewrite lookup_insert_eq, lookup_insert_ne by done. by rewrite H1.
      - apply orb_prop in Hc as [->%bool_decide_eq_true| ->%bool_decide_eq_true];
          by rewrite lookup_insert_eq, lookup_insert_ne, lookup_empty by done. }
    split; [unfold metadata_ok; by rewrite lookup_insert_eq|].
    split.
    { unfold habit_list, habits_of.
      by rewrite lookup_insert_ne, !lookup_insert_eq by done. }
    split.
    { intros c Hne. unfold habits_of at 1.
      rewrite lookup_insert_ne, lookup_insert_eq by done.
      by rewrite lookup_insert_ne. }
    intros s Hs1 Hs2. by rewrite !lookup_insert_ne, ensured_other. }
  assert (Hunion : ∀ h1 items, (∀ c, c ≠ category → h1 !! c = h !! c) →
            <[category := VList items]> h1 ∪ h = <[category := VList items]> h).
  { intros h1 items Hh1. apply map_eq. intros c. rewrite lookup_union.
    destruct (decide (category = c)) as [<-|Hne].
    - by rewrite !lookup_insert_eq, union_Some_l.
    - rewrite !lookup_insert_ne by done. rewrite Hh1 by done. by destruct (h !! c). }
  destruct Hlist as [Hnone|Hsome].
  - rewrite Hnone. rewrite bool_decide_eq_false_2 by (by intros [??]).
    cbv beta iota. cbn [py_getitem].
    rewrite lookup_insert_eq. cbn [py_in existsb py_append py_setitem app].
    assert (l = []) as -> by (unfold l, habit_list; fold h; by rewrite Hnone).
    apply (Hrun (<[category := VList []]> h) [VStr item]), Hunion.
    intros c Hne. by rewrite lookup_insert_ne.
  - rewrite Hsome. rewrite bool_decide_eq_true_2 by done.
    cbv beta iota. cbn [py_getitem]. rewrite Hsome.
    cbn [py_in]. fold (has_item item l). rewrite Hin. cbn [py_append py_setitem].
    by apply (Hrun h (l ++ [VStr item])), Hunion.
Qed.

Lemma get_user_section_absent user_id section w :
  stored user_id w = None →
  get_user_section user_id section w = (Ok (VDict ∅), w).
Proof.
  unfold stored, get_user_section. intros Habsent. step. rewrite Habsent.
  by destruct (named section).
Qed.

Lemma valid_category_iff category :
  valid_category category = true ↔
  category = "procrastination_habits" ∨ category = "known_blockers".
Proof.
  unfold valid_category. cbn [existsb]. rewrite orb_false_r, orb_true_iff.
  by rewrite !bool_decide_eq_true.
Qed.

Lemma add_habit_absent user_id category item w :
  stored user_id w = None →
  valid_category category = true →
  ∃ w' doc',
    add_habit_or_blocker user_id category item w = (Ok (added category item), w') ∧
    stored user_id w' = Some doc' ∧
    habits_ok doc' = true ∧
    metadata_ok doc' = true ∧
    habit_list category doc' = [VStr item].
Proof.
  intros Habsent Hc. unfold add_habit_or_blocker. rewrite Hc. cbn [negb].
  unfold bind at 1. rewrite (get_user_section_absent _ _ _ Habsent). step.
  cbn [py_in py_setitem py_getitem]. rewrite lookup_empty.
  rewrite bool_decide_eq_false_2 by (by intros [??]). cbv beta iota.
  cbn [py_getitem]. rewrite lookup_insert_eq.
  cbn [py_in existsb py_append py_setitem app]. rewrite insert_insert_eq.
  rewrite (update_user_section_absent _ _ _ _ Habsent).
  set (dflt := default_schema (reading w 0) (reading w 2)).
  assert (Hst : stored user_id (initialized user_id w) = Some dflt)
    by apply stored_written.
  assert (Hens : ensured dflt (initialized user_id w) = dflt) by reflexivity.
  erewrite (update_user_section_ok _ _ _ _ _ _ Hst);
    [|rewrite Hens, lookup_insert_ne by done; apply default_schema_metadata].
  rewrite Hens. eexists _, _. split; [reflexivity|].
  split; [apply stored_written|].
  apply valid_category_iff in Hc.
  change (dflt !! "habits_and_behaviors") with
    (Some (VDict (dict_of [("procrastination_habits", VList []);
                           ("known_blockers", VList [])]))).
  cbn [merge_section].
  split.
  { unfold habits_ok. rewrite lookup_insert_ne, lookup_insert_eq by done.
    rewrite !lookup_union.
    destruct Hc as [-> | ->]; by rewrite lookup_insert_eq, lookup_insert_ne by done. }
  split; [unfold metadata_ok; by rewrite lookup_insert_eq|].
  unfold habit_list, habits_of.
  rewrite lookup_insert_ne, lookup_insert_eq by done.
  by rewrite lookup_union, lookup_insert_eq, union_Some_l.
Qed.

Lemma has_item_false item l : has_item item l = false → VStr item ∉ l.
Proof.
  unfold has_item. induction l as [|x l IH]; [intros _; apply not_elem_of_nil|].
  cbn [existsb]. intros [Hx Hl]%orb_false_elim.
  apply not_elem_of_cons. split; [|by apply IH].
  intros <-. cbn [eq_str] in Hx. by rewrite bool_decide_eq_true_2 in Hx.
Qed.

(** C6: [add_habit_or_blocker] answers with the error and writes nothing when
    the category is not one of the two; for a valid category and a stored
    document with well-formed habits, it answers that the item is already
    there and writes nothing when the list has the item, and otherwise
    appends the item once to the list and writes: the item then occurs exactly
    once, a list without duplicates stays without duplicates, and a second
    call with the same item finds it there and writes nothing.  For a user
    without a document the profile is created and the list holds the item. *)
Theorem add_habit_or_blocker_outcomes user_id category item w :
  (valid_category category = true ↔
   category = "procrastination_habits" ∨ category = "known_blockers") ∧
  (valid_category category = false →
   add_habit_or_blocker user_id category item w = (Ok invalid_category, w)) ∧
  (valid_category category = true →
   (stored user_id w = None →
    ∃ w' doc',
      add_habit_or_blocker user_id category item w =
        (Ok (added category item), w') ∧
      stored user_id w' = Some doc' ∧
      habit_list category doc' = [VStr item] ∧
      add_habit_or_blocker user_id category item w' =
        (Ok (already_present category item), w')) ∧
   (∀ doc,
      stored user_id w = Some doc → habits_ok doc = true → metadata_ok doc = true →
      (has_item item (habit_list category doc) = true →
       add_habit_or_blocker user_id category item w =
         (Ok (already_present category item), w)) ∧
      (has_item item (habit_list category doc) = false →
       ∃ w' doc',
         add_habit_or_blocker user_id category item w =
           (Ok (added category item), w') ∧
         stored user_id w' = Some doc' ∧
         habit_list category doc' = habit_list category doc ++ [VStr item] ∧
         occurrences item (habit_list category doc') = 1 ∧
         (NoDup (habit_list category doc) → NoDup (habit_list category doc')) ∧
         add_habit_or_blocker user_id category item w' =
           (Ok (already_present category item), w')))).
Proof.
  split; [apply valid_category_iff|].
  split; [apply add_habit_invalid|].
  intros Hc. split.
  - intros Habsent.
    destruct (add_habit_absent user_id category item w Habsent Hc)
      as (w' & doc' & Hrun & Hst & Hok & Hmd & Hlist).
    exists w', doc'. repeat (split; [assumption|]).
    apply (add_habit_present _ _ _ _ doc'); try done.
    rewrite Hlist. apply (has_item_snoc item []).
  - intros doc Hdoc Hok Hmd. split; [by apply add_habit_present|].
    intros Hnew.
    destruct (add_habit_new user_id category item w doc Hdoc Hok Hmd Hc Hnew)
      as (doc' & Hrun & Hok' & Hmd' & Hlist & _).
    eexists _, doc'. split; [exact Hrun|].
    split; [apply stored_written|]. split; [exact Hlist|].
    split; [by rewrite Hlist, occurrences_snoc, occurrences_none|].
    split.
    + intros Hnd. rewrite Hlist. apply NoDup_app. split; [done|].
      split; [|apply NoDup_singleton].
      intros x Hx ->%list_elem_of_singleton. by apply (has_item_false item _ Hnew).
    + apply (add_habit_present _ _ _ _ doc'); try done; [apply stored_written|].
      rewrite Hlist. apply has_item_snoc.
Qed.

Lemma add_habit_or_blocker_outcomes_witness :
  valid_category "bogus_category" = false ∧
  add_habit_or_blocker "Chris" "bogus_category" "x" habits_world =
    (Ok invalid_category, habits_world) ∧
  valid_category "procrastination_habits" = true ∧
  stored "Chris" habits_world = Some habits_doc ∧
  habits_ok habits_doc = true ∧
  metadata_ok habits_doc = true ∧
  has_item "gaming" (habit_list "procrastination_habits" habits_doc) = true ∧
  add_habit_or_blocker "Chris" "procrastination_habits" "gaming" habits_world =
    (Ok (already_present "procrastination_habits" "gaming"), habits_world) ∧
  has_item "doom scrolling" (habit_list "procrastination_habits" habits_doc) = false ∧
  ∃ w' doc',
    add_habit_or_blocker "Chris" "procrastination_habits" "doom scrolling"
      habits_world = (Ok (added "procrastination_habits" "doom scrolling"), w') ∧
    stored "Chris" w' = Some doc' ∧
    occurrences "doom scrolling" (habit_list "procrastination_habits" doc') = 1.
Proof.
  assert (E : stored "Chris" habits_world = Some habits_doc)
    by (apply stored_default; vm_compute; reflexivity).
  assert (Hok : habits_ok habits_doc = true) by (vm_compute; reflexivity).
  assert (Hmd : metadata_ok habits_doc = true) by (vm_compute; reflexivity).
  assert (Hin : has_item "gaming"
                  (habit_list "procrastination_habits" habits_doc) = true)
    by (vm_compute; reflexivity).
  assert (Hnew : has_item "doom scrolling"
                   (habit_list "procrastination_habits" habits_doc) = false)
    by (vm_compute; reflexivity).
  destruct (add_habit_or_blocker_outcomes "Chris" "bogus_category" "x" habits_world)
    as (_ & Hbogus & _).
  destruct (add_habit_or_blocker_outcomes "Chris" "procrastination_habits" "gaming"
              habits_world) as (_ & _ & Hgaming).
  destruct (Hgaming eq_refl) as [_ Hgaming'].
  destruct (Hgaming' habits_doc E Hok Hmd) as [Hpresent _].
  destruct (add_habit_or_blocker_outcomes "Chris" "procrastination_habits"
              "doom scrolling" habits_world) as (_ & _ & Hdoom).
  destruct (Hdoom eq_refl) as [_ Hdoom'].
  destruct (Hdoom' habits_doc E Hok Hmd) as [_ Hadd].
  destruct (Hadd Hnew) as (w' & doc' & Hrun & Hst & _ & Hocc & _).
  split; [reflexivity|]. split; [by apply Hbogus|]. split; [reflexivity|].
  repeat (split; [assumption|]). split; [by apply Hpresent|].
  split; [assumption|]. exists w', doc'. by repeat split.
Defined.

(** ** Personal information *)

Lemma take_truthy_lookup k updates acc j :
  take_truthy k updates acc !! j =
  match updates !! k with
  | Some v => if truthy v then (if decide (k = j) then Some v else acc !! j)
              else acc !! j
  | None => acc !! j
  end.
Proof.
  unfold take_truthy. destruct (updates !! k) as [v|]; [|done].
  destruct (truthy v); [|done]. by rewrite lookup_insert.
Qed.

Lemma personal_info_of_lookup updates k v :
  personal_info_of updates !! k = Some v ↔
  (k = "name" ∨ k = "age" ∨ k = "domain") ∧
  updates !! k = Some v ∧ truthy v = true.
Proof.
  unfold personal_info_of. rewrite !take_truthy_lookup, lookup_empty.
  destruct (updates !! "domain") as [vd|] eqn:Ed;
    destruct (updates !! "age") as [va|] eqn:Ea;
    destruct (updates !! "name") as [vn|] eqn:En;
    repeat match goal with
      | |- context [truthy ?x] => destruct (truthy x) eqn:?
      | |- context [decide (?a = k)] => destruct (decide (a = k)) as [<-|?]
      end;
    split; try (intros [[?|[?|?]] [? ?]]); try intros ?; simplify_eq;
    try done; try congruence; by auto.
Qed.

Lemma truthy_dict d : truthy (VDict d) = false ↔ d = ∅.
Proof.
  cbn [truthy]. rewrite <-map_size_empty_iff.
  destruct (size d); cbn; split; (done || lia).
Qed.

Lemma personal_info_of_empty updates :
  personal_info_of updates = ∅ ↔
  ∀ k v, k = "name" ∨ k = "age" ∨ k = "domain" →
         updates !! k = Some v → truthy v = false.
Proof.
  split.
  - intros Hempty k v Hk Hv. destruct (truthy v) eqn:Ht; [|done].
    assert (personal_info_of updates !! k = Some v) as Hin
      by (by apply personal_info_of_lookup).
    by rewrite Hempty, lookup_empty in Hin.
  - intros Hall. apply map_eq. intros k. rewrite lookup_empty.
    destruct (personal_info_of updates !! k) as [v|] eqn:E; [|done].
    apply personal_info_of_lookup in E as (Hk & Hv & Ht).
    by rewrite (Hall k v Hk Hv) in Ht.
Qed.

(** C10: [update_personal_info] forwards to [update_user_section] the keys
    among [name], [age] and [domain] whose values are truthy, and no other;
    [age] is never forwarded as 0.  When no value is truthy (the dict may be
    empty) the answer is the error and nothing is written or read; otherwise
    the world after is the one [update_user_section] leaves for the forwarded
    dict.  On a stored document whose [personal_info] is a dict, a call whose
    [age] is absent or falsy leaves the stored [age] as it was. *)
Theorem update_personal_info_filters user_id personal_updates w :
  (∀ k v, personal_info_of personal_updates !! k = Some v ↔
          (k = "name" ∨ k = "age" ∨ k = "domain") ∧
          personal_updates !! k = Some v ∧ truthy v = true) ∧
  personal_info_of personal_updates !! "age" ≠ Some (VInt 0) ∧
  ((∀ k v, k = "name" ∨ k = "age" ∨ k = "domain" →
           personal_updates !! k = Some v → truthy v = false) →
   update_personal_info user_id personal_updates w =
     (Ok (status_message "error" "No information provided to update"), w)) ∧
  (personal_info_of personal_updates ≠ ∅ →
   after (update_personal_info user_id personal_updates) w =
     after (update_user_section user_id "personal_info"
              (VDict (personal_info_of personal_updates))) w) ∧
  (∀ doc old,
     stored user_id w = Some doc →
     metadata_ok doc = true →
     doc !! "personal_info" = Some (VDict old) →
     (∀ v, personal_updates !! "age" = Some v → truthy v = false) →
     stored_field user_id "personal_info" "age"
       (after (update_personal_info user_id personal_updates) w) = old !! "age").
Proof.
  assert (Hforward : personal_info_of personal_updates ≠ ∅ →
    after (update_personal_info user_id personal_updates) w =
      after (update_user_section user_id "personal_info"
               (VDict (personal_info_of personal_updates))) w).
  { intros Hne. unfold after, update_personal_info.
    destruct (truthy (VDict (personal_info_of personal_updates))) eqn:Ht;
      [|by apply truthy_dict in Ht].
    unfold bind, ret.
    by destruct (update_user_section _ _ _ w) as [[[]|] ?]. }
  assert (Herror : personal_info_of personal_updates = ∅ →
    update_personal_info user_id personal_updates w =
      (Ok (status_message "error" "No information provided to update"), w)).
  { intros Hempty. unfold update_personal_info.
    by rewrite (proj2 (truthy_dict _) Hempty). }
  split; [apply personal_info_of_lookup|].
  split; [by intros (_ & _ & Ht)%personal_info_of_lookup|].
  split; [by intros Hall%personal_info_of_empty; apply Herror|].
  split; [exact Hforward|].
  intros doc old Hdoc Hmd Hsec Hage.
  destruct (decide (personal_info_of personal_updates = ∅)) as [Hempty|Hne].
  - unfold after. rewrite (Herror Hempty). cbn [snd].
    unfold stored_field, field. by rewrite Hdoc, Hsec.
  - rewrite (Hforward Hne).
    destruct (update_user_section_merge user_id "personal_info" w doc old
                (personal_info_of personal_updates) Hdoc Hmd Hsec)
      as (w' & doc' & new & Hrun & Hst & Hnew & Hother & _).
    unfold after. rewrite Hrun. cbn [snd].
    unfold stored_field, field. rewrite Hst, Hnew, Hother by done.
    rewrite lookup_union.
    destruct (personal_info_of personal_updates !! "age") as [v|] eqn:E;
      [|by rewrite (left_id_L None (∪))].
    apply personal_info_of_lookup in E as (_ & Hv & Ht).
    by rewrite (Hage v Hv) in Ht.
Qed.

Lemma update_personal_info_filters_witness :
  (∀ k v, k = "name" ∨ k = "age" ∨ k = "domain" →
          dict_of [("name", VStr ""); ("age", VInt 0)] !! k = Some v →
          truthy v = false) ∧
  update_personal_info "Chris" (dict_of [("name", VStr ""); ("age", VInt 0)])
    old_world =
    (Ok (status_message "error" "No information provided to update"), old_world) ∧
  stored "Chris" old_world = Some old_profile ∧
  metadata_ok old_profile = true ∧
  stored_field "Chris" "personal_info" "age"
    (after (update_personal_info "Chris"
              (dict_of [("name", VStr "Alex"); ("age", VInt 0)])) old_world) =
    Some (VInt 41).
Proof.
  assert (Hfalsy : ∀ k v, k = "name" ∨ k = "age" ∨ k = "domain" →
            dict_of [("name", VStr ""); ("age", VInt 0)] !! k = Some v →
            truthy v = false).
  { intros k v [-> | [-> | ->]] Hv; vm_compute in Hv; by simplify_eq. }
  destruct (update_personal_info_filters "Chris"
              (dict_of [("name", VStr ""); ("age", VInt 0)]) old_world)
    as (_ & _ & Herror & _).
  destruct (update_personal_info_filters "Chris"
              (dict_of [("name", VStr "Alex"); ("age", VInt 0)]) old_world)
    as (_ & _ & _ & _ & Hage).
  split; [exact Hfalsy|]. split; [by apply Herror|].
  split; [reflexivity|]. split; [reflexivity|].
  rewrite (Hage old_profile (dict_of [("name", VStr "Chris"); ("age", VInt 41)]));
    [reflexivity|reflexivity|reflexivity|reflexivity|].
  intros v Hv. vm_compute in Hv. by simplify_eq.
Defined.
(** ** The write of the habit streaks *)

Lemma update_habit_streaks_run user_id streaks w doc :
  stored user_id w = Some doc →
  metadata_ok doc = true →
  insights_ok doc = true →
  ∃ doc',
    update_habit_streaks user_id streaks w =
      (Ok true, written user_id doc' (advance (1 + metadata_cost doc) w)) ∧
    field doc' "productivity_insights" "habit_streaks" =
      Some (VDict (streaks ∪ streaks_or_default doc)) ∧
    (∀ k, k ≠ "habit_streaks" →
       field doc' "productivity_insights" k = insights_or_default doc !! k) ∧
    (∀ s, s ≠ "productivity_insights" → s ≠ "metadata" → doc' !! s = doc !! s) ∧
    field doc' "metadata" "last_updated" = Some (reading w (metadata_cost doc)).
Proof.
  intros Hdoc Hmd Hins. unfold update_habit_streaks. unfold bind at 1.
  rewrite (get_or_initialize_existing _ _ _ Hdoc).
  set (docB := if bool_decide (is_Some (doc !! "productivity_insights")) then doc
               else <["productivity_insights" := default_productivity_insights]> doc).
  assert (HB : docB !! "productivity_insights" = Some (VDict (insights_or_default doc))).
  { unfold docB, insights_or_default, insights_ok in *. case_bool_decide as Hp.
    - destruct (doc !! "productivity_insights") as [[]|]; try done.
      all: by destruct Hp as [??].
    - rewrite lookup_insert_eq.
      destruct (doc !! "productivity_insights") as [v|]; [|done].
      by destruct Hp. }
  assert (HBo : ∀ s, s ≠ "productivity_insights" → docB !! s = doc !! s).
  { intros s Hs. unfold docB. case_bool_decide; [done|]. by rewrite lookup_insert_ne. }
  set (insA := <["habit_streaks" := VDict (streaks_or_default doc)]>
                 (insights_or_default doc)).
  set (docA := <["productivity_insights" := VDict insA]> docB).
  assert (EA : ensure_nested docB "productivity_insights" "habit_streaks"
                 default_habit_streaks = Ok docA).
  { unfold ensure_nested, set_nested, py_getitem. rewrite HB. cbn [py_in py_setitem].
    assert (Hi : insights_ok doc = true) by exact Hins.
    unfold docA, insA, streaks_or_default.
    unfold insights_ok in Hi. unfold insights_or_default in HB |- *.
    case_bool_decide as Hh.
    - destruct Hh as [v Hv]. rewrite Hv.
      destruct (doc !! "productivity_insights") as [[| | | | |d]|] eqn:Ed; try done.
      + rewrite Hv in Hi. destruct v; try done.
        rewrite (insert_id d) by done. by rewrite insert_id.
      + vm_compute in Hv. injection Hv as <-.
        rewrite (insert_id _ "habit_streaks") by done. by rewrite insert_id.
    - assert (Hn : ∀ d : dict, ¬ is_Some (d !! "habit_streaks") →
                d !! "habit_streaks" = None)
        by (intros d Hd; by apply eq_None_not_Some).
      rewrite (Hn _ Hh). reflexivity. }
  assert (HA : docA !! "productivity_insights" = Some (VDict insA))
    by apply lookup_insert_eq.
  assert (HAo : ∀ s, s ≠ "productivity_insights" → docA !! s = doc !! s).
  { intros s Hs. unfold docA. rewrite lookup_insert_ne by done. by apply HBo. }
  unfold bind at 1, lift at 1. rewrite EA.
  unfold bind at 1. rewrite ensure_metadata_spec.
  assert (Hcost : metadata_cost docA = metadata_cost doc).
  { unfold metadata_cost. by rewrite HAo. }
  assert (HmdA : metadata_ok docA = true).
  { unfold metadata_ok. by rewrite HAo. }
  destruct (ensured_metadata docA w HmdA) as [md Emd].
  set (docM := ensured docA w) in *.
  assert (HM : docM !! "productivity_insights" = Some (VDict insA)).
  { unfold docM. by rewrite ensured_other. }
  step. unfold get_nested, py_getitem. rewrite HM.
  unfold insA at 1. rewrite lookup_insert_eq. cbn [py_update].
  unfold set_nested, py_getitem. rewrite HM. cbn [py_setitem].
  set (docC := <["productivity_insights" := _]> docM).
  assert (HC : docC !! "metadata" = Some (VDict md)).
  { unfold docC. by rewrite lookup_insert_ne. }
  rewrite HC. cbn [py_setitem]. rewrite Hcost.
  eexists. split; [reflexivity|].
  set (t := VStr _).
  assert (Ht : <["metadata" := VDict (<["last_updated" := t]> md)]> docC = touch t docC)
    by (unfold touch; by rewrite HC).
  assert (Hp : <["metadata" := VDict (<["last_updated" := t]> md)]> docC
               !! "productivity_insights" =
               Some (VDict (<["habit_streaks" := VDict (streaks ∪ streaks_or_default doc)]>
                              insA))).
  { rewrite lookup_insert_ne by done. apply lookup_insert_eq. }
  split; [unfold field; rewrite Hp; apply lookup_insert_eq|].
  split.
  { intros k Hk. unfold field. rewrite Hp. rewrite lookup_insert_ne by done.
    unfold insA. by rewrite lookup_insert_ne. }
  split.
  { intros s Hs Hs'. rewrite lookup_insert_ne by done. unfold docC.
    rewrite lookup_insert_ne by done. unfold docM. rewrite ensured_other by done.
    by apply HAo. }
  unfold field. rewrite lookup_insert_eq, lookup_insert_eq.
  reflexivity.
Qed.


(** ** The metadata under the mutations *)

Lemma set_nested_frame d k1 k2 x d' s :
  set_nested d k1 k2 x = Ok d' → s ≠ k1 → d' !! s = d !! s.
Proof.
  unfold set_nested. destruct (py_getitem (VDict d) k1) as [inner|]; [|done].
  destruct (py_setitem inner k2 x) as [inner'|]; [|done].
  intros [= <-] Hs. by rewrite lookup_insert_ne.
Qed.

Lemma ensure_nested_frame d k1 k2 x d' s :
  ensure_nested d k1 k2 x = Ok d' → s ≠ k1 → d' !! s = d !! s.
Proof.
  unfold ensure_nested. destruct (py_getitem (VDict d) k1) as [inner|]; [|done].
  destruct (py_in k2 inner) as [[]|]; [by intros [= <-]| |done].
  apply set_nested_frame.
Qed.

Lemma ensure_task_tracking_frame doc s :
  s ≠ "task_tracking" → ensure_task_tracking doc !! s = doc !! s.
Proof.
  intros Hs. unfold ensure_task_tracking. case_bool_decide; [done|].
  by rewrite lookup_insert_ne.
Qed.

Lemma ensured_present doc w v :
  doc !! "metadata" = Some v → ensured doc w = doc ∧ metadata_cost doc = 0.
Proof.
  intros H. unfold ensured, metadata_cost. by rewrite !bool_decide_eq_true_2.
Qed.

Lemma kept_same user_id md w w' :
  clock w' = clock w → store w' = store w → kept user_id md w w'.
Proof. intros. split; [done|by left]. Qed.

Lemma kept_advance user_id md n w w' :
  kept user_id md (advance n w) w' → kept user_id md w w'.
Proof. done. Qed.

(** the end of every mutating method: the timestamp, then the upsert *)
Lemma commit_kept user_id md w0 w doc :
  clock w = clock w0 → store w = store w0 →
  doc !! "metadata" = Some (VDict md) →
  kept user_id md w0
    (after (do t <- now_iso;
            do doc <- lift (set_nested doc "metadata" "last_updated" t);
            do_ collection_upsert (_doc_id user_id) doc;
            ret true) w).
Proof.
  intros Hclock Hstore Hmd. unfold after. step.
  rewrite (set_nested_touch _ _ _ Hmd). cbn [snd].
  split; [done|]. right. eexists. cbn [store clock ticks].
  split; [by rewrite Hstore|].
  unfold last_reading. cbn [clock ticks pred]. by apply touch_metadata.
Qed.

Lemma update_user_section_kept user_id section data w doc md :
  stored user_id w = Some doc →
  doc !! "metadata" = Some (VDict md) →
  section ≠ "metadata" →
  kept user_id md w (after (update_user_section user_id section data) w).
Proof.
  intros Hdoc Hmd Hs. unfold after, update_user_section. unfold bind at 1.
  rewrite (get_or_initialize_existing _ _ _ Hdoc). unfold bind at 1.
  rewrite ensure_metadata_spec.
  destruct (ensured_present doc w _ Hmd) as [-> ->].
  apply (commit_kept user_id md w (advance 0 w)); [done|done|].
  by rewrite lookup_insert_ne.
Qed.

Lemma _add_task_kept user_id task_data w doc md :
  stored user_id w = Some doc →
  doc !! "metadata" = Some (VDict md) →
  kept user_id md w (after (_add_task user_id task_data) w).
Proof.
  intros Hdoc Hmd. unfold after, _add_task. unfold bind at 1.
  rewrite (get_or_initialize_existing _ _ _ Hdoc). unfold bind at 1, lift at 1.
  destruct (ensure_nested _ _ _ _) as [docA|e] eqn:EA; [|by apply kept_same].
  assert (HA : docA !! "metadata" = Some (VDict md)).
  { rewrite (ensure_nested_frame _ _ _ _ _ _ EA) by done.
    by rewrite ensure_task_tracking_frame. }
  unfold bind at 1. rewrite ensure_metadata_spec.
  destruct (ensured_present docA w _ HA) as [-> ->].
  unfold bind at 1, now_iso at 1. step.
  destruct (get_nested _ _ _) as [cur|e]; [|by apply kept_same].
  destruct (py_append _ _) as [cur'|e]; [|by apply kept_same].
  destruct (set_nested docA _ _ _) as [docC|e] eqn:EC; [|by apply kept_same].
  assert (HC : docC !! "metadata" = Some (VDict md))
    by (by rewrite (set_nested_frame _ _ _ _ _ _ EC)).
  rewrite (set_nested_touch _ _ _ HC). cbn [snd].
  split; [done|]. right. eexists. cbn [store clock ticks].
  split; [done|]. unfold last_reading. cbn [clock ticks pred].
  by apply touch_metadata.
Qed.

Lemma _complete_task_kept user_id task_id w doc md :
  stored user_id w = Some doc →
  doc !! "metadata" = Some (VDict md) →
  kept user_id md w (after (_complete_task user_id task_id) w).
Proof.
  intros Hdoc Hmd. unfold after, _complete_task, try_not_found.
  unfold bind at 1, collection_get at 1. unfold stored in Hdoc. rewrite Hdoc.
  unfold bind at 1, lift at 1.
  destruct (ensure_nested _ _ _ _) as [docA|e] eqn:EA;
    [|destruct e; by apply kept_same].
  assert (HA : docA !! "metadata" = Some (VDict md)).
  { rewrite (ensure_nested_frame _ _ _ _ _ _ EA) by done.
    by rewrite ensure_task_tracking_frame. }
  unfold bind at 1, lift at 1.
  destruct (ensure_nested docA _ _ _) as [docB|e] eqn:EB;
    [|destruct e; by apply kept_same].
  assert (HB : docB !! "metadata" = Some (VDict md))
    by (by rewrite (ensure_nested_frame _ _ _ _ _ _ EB)).
  unfold bind at 1, lift at 1.
  destruct (get_nested _ _ _) as [cur|e]; [|destruct e; by apply kept_same].
  unfold bind at 1, lift at 1.
  destruct (py_iter cur) as [visited|e]; [|destruct e; by apply kept_same].
  unfold bind at 1, lift at 1.
  destruct (pop_task task_id visited) as [[[task rest]|]|e];
    [|by apply kept_same|destruct e; by apply kept_same].
  unfold bind at 1, lift at 1.
  destruct (set_nested docB _ _ _) as [docC|e] eqn:EC;
    [|destruct e; by apply kept_same].
  assert (HC : docC !! "metadata" = Some (VDict md))
    by (by rewrite (set_nested_frame _ _ _ _ _ _ EC)).
  destruct (truthy task); [|by apply kept_same].
  unfold bind at 1. rewrite ensure_metadata_spec.
  destruct (ensured_present docC w _ HC) as [-> ->].
  unfold bind at 1, now_iso at 1. step.
  destruct (py_setitem task _ _) as [task1|e]; [|destruct e; by apply kept_same].
  destruct (py_setitem task1 _ _) as [task2|e]; [|destruct e; by apply kept_same].
  destruct (get_nested docC _ _) as [comp|e]; [|destruct e; by apply kept_same].
  destruct (py_append comp _) as [comp'|e]; [|destruct e; by apply kept_same].
  destruct (set_nested docC _ _ _) as [docD|e] eqn:ED;
    [|destruct e; by apply kept_same].
  assert (HD : docD !! "metadata" = Some (VDict md))
    by (by rewrite (set_nested_frame _ _ _ _ _ _ ED)).
  rewrite (set_nested_touch _ _ _ HD). cbn [snd].
  split; [done|]. right. eexists. cbn [store clock ticks].
  split; [done|]. unfold last_reading. cbn [clock ticks pred].
  by apply touch_metadata.
Qed.

Lemma update_habit_streaks_kept user_id streaks w doc md :
  stored user_id w = Some doc →
  doc !! "metadata" = Some (VDict md) →
  kept user_id md w (after (update_habit_streaks user_id streaks) w).
Proof.
  intros Hdoc Hmd. unfold after, update_habit_streaks. unfold bind at 1.
  rewrite (get_or_initialize_existing _ _ _ Hdoc). unfold bind at 1, lift at 1.
  destruct (ensure_nested _ _ _ _) as [docA|e] eqn:EA; [|by apply kept_same].
  assert (HA : docA !! "metadata" = Some (VDict md)).
  { rewrite (ensure_nested_frame _ _ _ _ _ _ EA) by done.
    case_bool_decide; [done|]. by rewrite lookup_insert_ne. }
  unfold bind at 1. rewrite ensure_metadata_spec.
  destruct (ensured_present docA w _ HA) as [-> ->]. step.
  destruct (get_nested _ _ _) as [hs|e]; [|by apply kept_same].
  destruct (py_update _ _) as [hs'|e]; [|by apply kept_same].
  destruct (set_nested docA _ _ _) as [docC|e] eqn:EC; [|by apply kept_same].
  assert (HC : docC !! "metadata" = Some (VDict md))
    by (by rewrite (set_nested_frame _ _ _ _ _ _ EC)).
  rewrite (set_nested_touch _ _ _ HC). cbn [snd].
  split; [done|]. right. eexists. cbn [store clock ticks].
  split; [done|]. unfold last_reading. cbn [clock ticks pred].
  by apply touch_metadata.
Qed.

Lemma get_user_section_world user_id section w :
  after (get_user_section user_id section) w = w.
Proof.
  unfold after, get_user_section. step.
  destruct (store w !! _doc_id user_id); by destruct (named section).
Qed.

Lemma add_habit_or_blocker_kept user_id category item w doc md :
  stored user_id w = Some doc →
  doc !! "metadata" = Some (VDict md) →
  kept user_id md w (after (add_habit_or_blocker user_id category item) w).
Proof.
  intros Hdoc Hmd. unfold after, add_habit_or_blocker.
  destruct (negb (valid_category category)); [by apply kept_same|].
  unfold bind at 1.
  pose proof (get_user_section_world user_id (Some "habits_and_behaviors") w) as Hw.
  unfold after in Hw.
  destruct (get_user_section _ _ w) as [[habits|e] w1]; cbn [snd] in Hw; subst w1;
    [|by apply kept_same].
  unfold bind at 1, lift at 1.
  destruct (py_in category habits) as [has|e]; [|by apply kept_same].
  unfold bind at 1.
  assert (∃ r, (if has then ret habits
                else lift (py_setitem habits category (VList []))) w = (r, w))
    as [r ->] by (destruct has; by eexists).
  destruct r as [habits1|e]; [|by apply kept_same].
  unfold bind at 1, lift at 1.
  destruct (py_getitem habits1 category) as [items|e]; [|by apply kept_same].
  unfold bind at 1, lift at 1.
  destruct (py_in item items) as [[]|e]; [by apply kept_same| |by apply kept_same].
  unfold bind at 1, lift at 1.
  destruct (py_append items _) as [items'|e]; [|by apply kept_same].
  unfold bind at 1, lift at 1.
  destruct (py_setitem habits1 _ _) as [habits2|e]; [|by apply kept_same].
  pose proof (update_user_section_kept user_id "habits_and_behaviors" habits2 w
                doc md Hdoc Hmd) as Hkept.
  unfold after in Hkept. unfold bind, ret.
  destruct (update_user_section _ _ _ w) as [[[]|e] w']; by apply Hkept.
Qed.

(** the created_at and the version under [kept] *)
Lemma kept_metadata user_id md w w' doc :
  stored user_id w = Some doc →
  doc !! "metadata" = Some (VDict md) →
  kept user_id md w w' →
  ∃ doc' md',
    stored user_id w' = Some doc' ∧
    doc' !! "metadata" = Some (VDict md') ∧
    md' !! "created_at" = md !! "created_at" ∧
    md' !! "version" = md !! "version" ∧
    (store w' = store w ∨ md' !! "last_updated" = Some (last_reading w')).
Proof.
  intros Hdoc Hmd [Hclock [Hsame|(doc' & Hstore & Hmd')]].
  - exists doc, md. unfold stored in *. rewrite Hsame.
    split; [done|]. split; [done|]. split; [done|]. split; [done|]. by left.
  - exists doc', (<["last_updated" := last_reading w']> md).
    unfold stored. rewrite Hstore, lookup_insert_eq.
    split; [done|]. split; [done|].
    rewrite !lookup_insert_ne by done. split; [done|]. split; [done|].
    right. apply lookup_insert_eq.
Qed.

(** *** The refresh of the timestamp *)

Lemma written_refreshed user_id docW mdW n w0 w1 :
  clock w1 = clock w0 →
  (ticks w0 ≤ ticks w1)%nat →
  docW !! "metadata" = Some (VDict mdW) →
  mdW !! "last_updated" = Some (reading w1 n) →
  refreshed user_id w0 (written user_id docW (advance (S n) w1)).
Proof.
  intros Hclock Hticks Hmd Hlu. split; [done|]. split; [cbn; lia|].
  unfold stored_field. rewrite stored_written. unfold field. by rewrite Hmd, Hlu.
Qed.

Lemma touched_refreshed user_id docW mdW n w0 w1 :
  clock w1 = clock w0 →
  (ticks w0 ≤ ticks w1)%nat →
  docW !! "metadata" = Some (VDict mdW) →
  refreshed user_id w0
    (written user_id (touch (reading w1 n) docW) (advance (S n) w1)).
Proof.
  intros Hclock Hticks Hmd.
  apply (written_refreshed _ _ (<["last_updated" := reading w1 n]> mdW));
    [done|done|by apply touch_metadata|apply lookup_insert_eq].
Qed.

Lemma update_user_section_refreshes user_id section data w doc md :
  stored user_id w = Some doc →
  doc !! "metadata" = Some (VDict md) →
  section ≠ "metadata" →
  refreshed user_id w (after (update_user_section user_id section data) w).
Proof.
  intros Hdoc Hmd Hs. destruct (ensured_present doc w _ Hmd) as [Hens Hcost].
  unfold after.
  rewrite (update_user_section_ok _ _ _ _ _ md Hdoc)
    by (by rewrite Hens, lookup_insert_ne).
  rewrite Hcost. cbn [snd].
  apply (written_refreshed _ _ (<["last_updated" := reading w 0]> md));
    [done|done|apply lookup_insert_eq|apply lookup_insert_eq].
Qed.

Lemma _add_task_refreshes user_id task_data w0 w doc md :
  clock w = clock w0 →
  (ticks w0 ≤ ticks w)%nat →
  stored user_id w = Some doc →
  doc !! "metadata" = Some (VDict md) →
  tasks_ok doc = true →
  refreshed user_id w0 (after (_add_task user_id task_data) w).
Proof.
  intros Hclock Hticks Hdoc Hmd Hok.
  destruct (ensured_present doc w _ Hmd) as [Hens Hcost].
  assert (Hmdok : metadata_ok doc = true) by (unfold metadata_ok; by rewrite Hmd).
  unfold after. rewrite (_add_task_existing _ _ _ _ Hdoc Hok Hmdok).
  rewrite Hens, Hcost. cbn [snd].
  apply (touched_refreshed _ _ md); [done|done|by rewrite lookup_insert_ne].
Qed.

Lemma _complete_task_refreshes user_id task_id w doc md :
  stored user_id w = Some doc →
  doc !! "metadata" = Some (VDict md) →
  tasks_ok doc = true →
  existsb (has_id task_id) (current_tasks_of doc) = true →
  refreshed user_id w (after (_complete_task user_id task_id) w).
Proof.
  intros Hdoc Hmd Hok Hex.
  destruct (ensured_present doc w _ Hmd) as [Hens Hcost].
  assert (Hmdok : metadata_ok doc = true) by (unfold metadata_ok; by rewrite Hmd).
  apply existsb_first in Hex as (before & x & rest & Hcur & Hb & Hx).
  destruct x as [| | | | |task]; try done.
  unfold after.
  rewrite (_complete_task_found _ _ _ _ _ _ _ Hdoc Hok Hmdok Hcur Hb Hx).
  rewrite Hens, Hcost. cbn [snd].
  apply (touched_refreshed _ _ md); [done|done|by rewrite lookup_insert_ne].
Qed.

Lemma update_habit_streaks_refreshes user_id streaks w doc md :
  stored user_id w = Some doc →
  doc !! "metadata" = Some (VDict md) →
  insights_ok doc = true →
  refreshed user_id w (after (update_habit_streaks user_id streaks) w).
Proof.
  intros Hdoc Hmd Hok.
  destruct (ensured_present doc w _ Hmd) as [_ Hcost].
  assert (Hmdok : metadata_ok doc = true) by (unfold metadata_ok; by rewrite Hmd).
  destruct (update_habit_streaks_run user_id streaks w doc Hdoc Hmdok Hok)
    as (doc' & Hrun & _ & _ & _ & Hlu).
  unfold after. rewrite Hrun. rewrite Hcost in *. cbn [snd].
  unfold field in Hlu.
  destruct (doc' !! "metadata") as [[| | | | |md']|] eqn:Emd'; try done.
  by apply (written_refreshed _ _ md').
Qed.

(** [add_habit_or_blocker] leaves the world as it is or as its call of
    [update_user_section] leaves it *)
Lemma add_habit_or_blocker_after user_id category item w :
  after (add_habit_or_blocker user_id category item) w = w ∨
  ∃ habits_data,
    after (add_habit_or_blocker user_id category item) w =
      after (update_user_section user_id "habits_and_behaviors" habits_data) w.
Proof.
  set (w' := after (add_habit_or_blocker user_id category item) w).
  assert (Hw' : w' = after (add_habit_or_blocker user_id category item) w)
    by reflexivity.
  clearbody w'. revert Hw'. unfold after at 1, add_habit_or_blocker.
  destruct (negb (valid_category category)); [intros ->; by left|].
  unfold bind at 1.
  pose proof (get_user_section_world user_id (Some "habits_and_behaviors") w) as Hw.
  unfold after in Hw.
  destruct (get_user_section _ _ w) as [[habits|e] w1]; cbn [snd] in Hw; subst w1;
    [|intros ->; by left].
  unfold bind at 1, lift at 1.
  destruct (py_in category habits) as [has|e]; [|intros ->; by left].
  unfold bind at 1.
  assert (∃ r, (if has then ret habits
                else lift (py_setitem habits category (VList []))) w = (r, w))
    as [r ->] by (destruct has; by eexists).
  destruct r as [habits1|e]; [|intros ->; by left].
  unfold bind at 1, lift at 1.
  destruct (py_getitem habits1 category) as [items|e]; [|intros ->; by left].
  unfold bind at 1, lift at 1.
  destruct (py_in item items) as [[]|e];
    [intros ->; by left| |intros ->; by left].
  unfold bind at 1, lift at 1.
  destruct (py_append items _) as [items'|e]; [|intros ->; by left].
  unfold bind at 1, lift at 1.
  destruct (py_setitem habits1 _ _) as [habits2|e]; [|intros ->; by left].
  intros ->. right. exists habits2. unfold after, bind, ret.
  by destruct (update_user_section _ _ _ w) as [[[]|e] w'].
Qed.

Lemma add_habit_or_blocker_refreshes user_id category item w doc md :
  stored user_id w = Some doc →
  doc !! "metadata" = Some (VDict md) →
  habits_ok doc = true →
  valid_category category = true →
  has_item item (habit_list category doc) = false →
  refreshed user_id w (after (add_habit_or_blocker user_id category item) w).
Proof.
  intros Hdoc Hmd Hok Hc Hnew.
  assert (Hmdok : metadata_ok doc = true) by (unfold metadata_ok; by rewrite Hmd).
  destruct (add_habit_or_blocker_after user_id category item w)
    as [Hsame|[habits_data ->]].
  - destruct (add_habit_new user_id category item w doc Hdoc Hok Hmdok Hc Hnew)
      as (doc' & Hrun & _).
    unfold after in Hsame. rewrite Hrun in Hsame. cbn [snd] in Hsame.
    apply (f_equal ticks) in Hsame. cbn in Hsame. lia.
  - by apply (update_user_section_refreshes _ _ _ _ doc md).
Qed.

(** a mutation that takes effect refreshes the timestamp, one that does not
    leaves the world as it is *)
Lemma mutation_refreshes user_id m w doc md :
  stored user_id w = Some doc →
  doc !! "metadata" = Some (VDict md) →
  spares_metadata m = true →
  typed_for m doc = true →
  if takes_effect m doc then refreshed user_id w (mutate user_id m w)
  else mutate user_id m w = w.
Proof.
  intros Hdoc Hmd Hm Htyped.
  destruct m as [section data|description priority due_date|task_id|streaks
                |category item]; cbn [mutate takes_effect typed_for] in *.
  - apply (update_user_section_refreshes _ _ _ _ doc md); try done.
    cbn [spares_metadata] in Hm. by apply negb_true_iff, bool_decide_eq_false in Hm.
  - destruct (add_task_after user_id description priority due_date w)
      as (task_data & _ & ->).
    apply (_add_task_refreshes _ _ w (advance 2 w) doc md); try done. cbn. lia.
  - rewrite complete_task_after.
    destruct (existsb (has_id task_id) (current_tasks_of doc)) eqn:Hex.
    + by apply (_complete_task_refreshes _ _ _ doc md).
    + unfold after. by rewrite (_complete_task_not_found _ _ _ _ Hdoc Htyped Hex).
  - by apply (update_habit_streaks_refreshes _ _ _ doc md).
  - destruct (valid_category category) eqn:Hc; cbn [andb].
    + destruct (has_item item (habit_list category doc)) eqn:Hin; cbn [negb].
      * unfold after. by rewrite (add_habit_present _ _ _ _ _ Hdoc Htyped Hc Hin).
      * by apply (add_habit_or_blocker_refreshes _ _ _ _ doc md).
    + unfold after. by rewrite (add_habit_invalid _ _ _ _ Hc).
Qed.

(** C8, in the form the code satisfies:
    on a stored document whose metadata is a dict (as
    [initialize_user_schema] creates it), every mutation of the engine other
    than an [update_user_section] of the metadata section itself leaves
    [metadata.created_at] and [metadata.version] as they were, whether it
    returns or raises; and it either writes nothing or sets
    [metadata.last_updated] to the last reading of the clock.  Where the part
    of the document the mutation works on has the types of the schema, the
    mutation refreshes [metadata.last_updated] whenever it takes effect: it
    reads the clock and the stored document holds the last reading it took;
    [update_user_section], [add_task] and [update_habit_streaks] always take
    effect, [complete_task] when a current task has the id,
    [add_habit_or_blocker] when the category is one of the two and the item
    is new; a mutation that does not take effect leaves the store and the
    clock as they are. *)
Theorem mutations_keep_metadata user_id m w doc md :
  stored user_id w = Some doc →
  doc !! "metadata" = Some (VDict md) →
  spares_metadata m = true →
  ∃ doc' md',
    stored user_id (mutate user_id m w) = Some doc' ∧
    doc' !! "metadata" = Some (VDict md') ∧
    md' !! "created_at" = md !! "created_at" ∧
    md' !! "version" = md !! "version" ∧
    (store (mutate user_id m w) = store w ∨
     md' !! "last_updated" = Some (last_reading (mutate user_id m w))) ∧
    (typed_for m doc = true →
     if takes_effect m doc then
       clock (mutate user_id m w) = clock w ∧
       (ticks w < ticks (mutate user_id m w))%nat ∧
       md' !! "last_updated" = Some (last_reading (mutate user_id m w))
     else mutate user_id m w = w).
Proof.
  intros Hdoc Hmd Hm.
  assert (Hkept : kept user_id md w (mutate user_id m w)).
  { destruct m as [section data|description priority due_date|task_id|streaks
                  |category item]; cbn [mutate].
    - apply (update_user_section_kept _ _ _ _ doc); try done.
      cbn [spares_metadata] in Hm.
      by apply negb_true_iff, bool_decide_eq_false in Hm.
    - destruct (add_task_after user_id description priority due_date w)
        as (task_data & _ & ->).
      by apply (kept_advance _ _ 2), (_add_task_kept _ _ _ doc).
    - rewrite complete_task_after. by apply (_complete_task_kept _ _ _ doc).
    - by apply (update_habit_streaks_kept _ _ _ doc).
    - by apply (add_habit_or_blocker_kept _ _ _ _ doc). }
  destruct (kept_metadata user_id md w _ doc Hdoc Hmd Hkept)
    as (doc' & md' & Hst & Hmd' & Hcreated & Hversion & Hlast).
  exists doc', md'. repeat (split; [assumption|]).
  intros Htyped.
  pose proof (mutation_refreshes user_id m w doc md Hdoc Hmd Hm Htyped) as Hfresh.
  destruct (takes_effect m doc); [|exact Hfresh].
  destruct Hfresh as (Hclock & Hticks & Hfield).
  split; [exact Hclock|]. split; [exact Hticks|].
  unfold stored_field, field in Hfield. by rewrite Hst, Hmd' in Hfield.
Qed.

(** an update of the metadata section rewrites the version and created_at *)
Lemma update_section_rewrites_version :
  stored_field "Chris" "metadata" "version"
    (after (initialize_user_schema "Chris" None) (empty_world fast_clock)) =
    Some (VInt 1) ∧
  outcome (update_user_section "Chris" "metadata"
             (VDict (dict_of [("version", VInt 2); ("created_at", VStr "never")])))
    (after (initialize_user_schema "Chris" None) (empty_world fast_clock)) =
    Ok true ∧
  stored_field "Chris" "metadata" "version"
    (after (update_user_section "Chris" "metadata"
              (VDict (dict_of [("version", VInt 2); ("created_at", VStr "never")])))
       (after (initialize_user_schema "Chris" None) (empty_world fast_clock))) =
    Some (VInt 2) ∧
  stored_field "Chris" "metadata" "created_at"
    (after (update_user_section "Chris" "metadata"
              (VDict (dict_of [("version", VInt 2); ("created_at", VStr "never")])))
       (after (initialize_user_schema "Chris" None) (empty_world fast_clock))) =
    Some (VStr "never").
Proof. repeat split; vm_compute; reflexivity. Qed.

Lemma metadata_of_some doc :
  bool_decide (is_Some (doc !! "metadata")) && metadata_ok doc = true →
  doc !! "metadata" = Some (VDict (metadata_of doc)).
Proof.
  unfold metadata_ok, metadata_of. intros [[v Hv]%bool_decide_eq_true Hok]%andb_prop.
  rewrite Hv in *. by destruct v.
Qed.

Lemma mutations_keep_metadata_witness :
  stored "Chris" two_ids_world = Some two_ids_doc ∧
  two_ids_doc !! "metadata" = Some (VDict (metadata_of two_ids_doc)) ∧
  spares_metadata (CompleteTask_ "task_20260105_090000") = true ∧
  typed_for (CompleteTask_ "task_20260105_090000") two_ids_doc = true ∧
  takes_effect (CompleteTask_ "task_20260105_090000") two_ids_doc = true ∧
  metadata_of two_ids_doc !! "version" = Some (VInt 1) ∧
  stored_field "Chris" "metadata" "version"
    (mutate "Chris" (CompleteTask_ "task_20260105_090000") two_ids_world) =
    Some (VInt 1) ∧
  stored_field "Chris" "metadata" "last_updated"
    (mutate "Chris" (CompleteTask_ "task_20260105_090000") two_ids_world) =
    Some (last_reading
            (mutate "Chris" (CompleteTask_ "task_20260105_090000") two_ids_world)) ∧
  (ticks two_ids_world <
   ticks (mutate "Chris" (CompleteTask_ "task_20260105_090000") two_ids_world))%nat.
Proof.
  assert (E : stored "Chris" two_ids_world = Some two_ids_doc)
    by (apply stored_default; vm_compute; reflexivity).
  assert (Emd : two_ids_doc !! "metadata" = Some (VDict (metadata_of two_ids_doc)))
    by (apply metadata_of_some; vm_compute; reflexivity).
  assert (Hv : metadata_of two_ids_doc !! "version" = Some (VInt 1))
    by (vm_compute; reflexivity).
  assert (Htyped : typed_for (CompleteTask_ "task_20260105_090000") two_ids_doc = true)
    by (vm_compute; reflexivity).
  assert (Heff : takes_effect (CompleteTask_ "task_20260105_090000") two_ids_doc = true)
    by (vm_compute; reflexivity).
  split; [exact E|]. split; [exact Emd|]. split; [reflexivity|].
  split; [exact Htyped|]. split; [exact Heff|]. split; [exact Hv|].
  destruct (mutations_keep_metadata "Chris" (CompleteTask_ "task_20260105_090000")
              two_ids_world two_ids_doc _ E Emd eq_refl)
    as (doc' & md' & Hst & Hmd' & _ & Hversion & _ & Hfresh).
  specialize (Hfresh Htyped). rewrite Heff in Hfresh.
  destruct Hfresh as (_ & Hticks & Hlast).
  split; [unfold stored_field, field; by rewrite Hst, Hmd', Hversion|].
  split; [unfold stored_field, field; by rewrite Hst, Hmd', Hlast|exact Hticks].
Defined.

(** ** The answers of the tools *)

Lemma status_message_shape status message :
  status = "success" ∨ status = "error" ∨ status = "info" →
  status_ok (status_message status message) = true ∧
  has_message (status_message status message) = true.
Proof. by intros [-> | [-> | ->]]. Qed.

Ltac shape :=
  match goal with
  | |- status_ok (status_message _ _) = true ∧ _ =>
      apply status_message_shape; by auto
  | |- status_ok _ = true ∧ has_message _ = true => by split
  end.

Lemma answers_if (c : M bool) (yes no : dict) w (P : dict → Prop) :
  P yes → P no →
  answers (do success <- c; if (success : bool) then ret yes else ret no) w P.
Proof.
  intros Hyes Hno r w'. unfold bind, ret.
  destruct (c w) as [[[]|e] w1]; intros [= <- <-]; done.
Qed.

Lemma initialize_user_profile_shape user_id w :
  answers (initialize_user_profile user_id) w
    (λ r, status_ok r = true ∧ has_message r = true).
Proof. apply answers_if; shape. Qed.

Lemma update_personal_info_shape user_id updates w :
  answers (update_personal_info user_id updates) w
    (λ r, status_ok r = true ∧ has_message r = true).
Proof.
  unfold update_personal_info. destruct (truthy _).
  - apply answers_if; shape.
  - intros r w' [= <- <-]. shape.
Qed.

Lemma update_daily_routine_shape user_id updates w :
  answers (update_daily_routine user_id updates) w
    (λ r, status_ok r = true ∧ has_message r = true).
Proof.
  unfold update_daily_routine. destruct (truthy _).
  - apply answers_if; shape.
  - intros r w' [= <- <-]. shape.
Qed.

Lemma update_productivity_insights_shape user_id updates w :
  answers (update_productivity_insights user_id updates) w
    (λ r, status_ok r = true ∧ has_message r = true).
Proof.
  unfold update_productivity_insights. destruct (truthy _).
  - apply answers_if; shape.
  - intros r w' [= <- <-]. shape.
Qed.

Lemma add_task_shape user_id description priority due_date w :
  answers (add_task user_id description priority due_date) w
    (λ r, status_ok r = true ∧ has_message r = true).
Proof.
  unfold add_task. intros r w'. step.
  match goal with |- context [_add_task ?u ?td ?w1] =>
    destruct (_add_task u td w1) as [[[]|e] w2] end;
    intros [= <- <-]; by split.
Qed.

Lemma complete_task_shape user_id task_id w :
  answers (complete_task user_id task_id) w
    (λ r, status_ok r = true ∧ has_message r = true).
Proof. apply answers_if; shape. Qed.

Lemma add_habit_or_blocker_shape user_id category item w :
  answers (add_habit_or_blocker user_id category item) w
    (λ r, status_ok r = true ∧ has_message r = true).
Proof.
  unfold add_habit_or_blocker. intros r w'.
  destruct (negb (valid_category category)); [intros [= <- <-]; shape|].
  unfold bind, lift, ret.
  destruct (get_user_section _ _ w) as [[habits|e] w1]; [|done].
  destruct (py_in category habits) as [[]|e]; [| |done].
  - destruct (py_getitem habits category) as [items|e]; [|done].
    destruct (py_in item items) as [[]|e]; [intros [= <- <-]; shape| |done].
    destruct (py_append items _) as [items'|e]; [|done].
    destruct (py_setitem habits _ _) as [habits2|e]; [|done].
    destruct (update_user_section _ _ _ w1) as [[[]|e] w2];
      intros [= <- <-]; shape.
  - destruct (py_setitem habits category _) as [habits1|e]; [|done].
    destruct (py_getitem habits1 category) as [items|e]; [|done].
    destruct (py_in item items) as [[]|e]; [intros [= <- <-]; shape| |done].
    destruct (py_append items _) as [items'|e]; [|done].
    destruct (py_setitem habits1 _ _) as [habits2|e]; [|done].
    destruct (update_user_section _ _ _ w1) as [[[]|e] w2];
      intros [= <- <-]; shape.
Qed.

Lemma get_current_tasks_shape user_id w :
  answers (get_current_tasks user_id) w
    (λ r, r !! "status" = Some (VStr "success") ∧ r !! "message" = None ∧
          is_Some (r !! "current_tasks") ∧ is_Some (r !! "count")).
Proof.
  unfold get_current_tasks. intros r w'. unfold bind, lift, ret.
  destruct (get_user_section _ _ w) as [[tasks|e] w1]; [|done].
  destruct (py_get tasks _ _) as [cur|e]; [|done].
  destruct (py_len cur) as [n|e]; [|done].
  intros [= <- <-]. by repeat split; eexists.
Qed.

Lemma get_user_profile_shape user_id section w :
  answers (get_user_profile user_id section) w
    (λ r, r !! "status" = Some (VStr "success") ∧ r !! "message" = None ∧
          (is_Some (r !! "profile") ∨ is_Some (r !! "data"))).
Proof.
  unfold get_user_profile. intros r w'. unfold bind, ret.
  destruct (str_given section).
  - destruct (get_user_section _ _ w) as [[data|e] w1]; [|done].
    intros [= <- <-]. repeat split. right. by eexists.
  - destruct (get_user_section _ _ w) as [[data|e] w1]; [|done].
    intros [= <- <-]. repeat split. left. by eexists.
Qed.

Lemma returns_if (c : M bool) (yes no : dict) w :
  returns c w →
  returns (do success <- c; if (success : bool) then ret yes else ret no) w.
Proof.
  intros (b & w' & Hc). unfold returns, bind, ret. rewrite Hc.
  destruct b; by eexists _, _.
Qed.

Lemma well_formed_absent user_id w :
  stored user_id w = None → well_formed_store user_id w = true.
Proof. intros H. unfold well_formed_store. by rewrite H. Qed.

Lemma well_formed_stored user_id w doc :
  well_formed_store user_id w = true →
  stored user_id w = Some doc →
  metadata_ok doc = true ∧ tasks_ok doc = true ∧ habits_ok doc = true.
Proof.
  unfold well_formed_store. intros Hwf Hdoc. rewrite Hdoc in Hwf.
  by apply andb_prop in Hwf as [[??]%andb_prop ?].
Qed.

Lemma well_formed_initialized user_id w :
  well_formed_store user_id (initialized user_id w) = true.
Proof.
  unfold well_formed_store, initialized. by rewrite stored_written.
Qed.

Lemma initialize_user_schema_returns user_id w :
  well_formed_store user_id w = true →
  returns (initialize_user_schema user_id None) w.
Proof.
  intros Hwf. destruct (stored user_id w) as [doc|] eqn:Hdoc.
  - destruct (well_formed_stored _ _ _ Hwf Hdoc) as (Hmd & _ & _).
    eexists _, _. by apply initialize_existing.
  - eexists _, _. by apply initialize_absent.
Qed.

Lemma update_user_section_returns user_id section data w :
  well_formed_store user_id w = true →
  section ≠ "metadata" →
  returns (update_user_section user_id section data) w.
Proof.
  assert (Hstored : ∀ w doc, stored user_id w = Some doc → metadata_ok doc = true →
            section ≠ "metadata" →
            returns (update_user_section user_id section data) w).
  { intros w1 doc Hdoc Hmd Hs. destruct (ensured_metadata doc w1 Hmd) as [md Emd].
    eexists _, _. apply (update_user_section_ok _ _ _ _ _ md Hdoc).
    by rewrite lookup_insert_ne. }
  intros Hwf Hs. destruct (stored user_id w) as [doc|] eqn:Hdoc.
  - destruct (well_formed_stored _ _ _ Hwf Hdoc) as (Hmd & _ & _).
    by apply (Hstored w doc).
  - unfold returns. rewrite (update_user_section_absent _ _ _ _ Hdoc).
    by apply (Hstored _ _ (stored_written _ _ _)).
Qed.

Lemma _add_task_returns user_id task_data w :
  well_formed_store user_id w = true →
  returns (_add_task user_id task_data) w.
Proof.
  intros Hwf. destruct (stored user_id w) as [doc|] eqn:Hdoc.
  - destruct (well_formed_stored _ _ _ Hwf Hdoc) as (Hmd & Htasks & _).
    eexists _, _. by apply _add_task_existing.
  - unfold returns. rewrite (_add_task_absent _ _ _ Hdoc).
    eexists _, _. by apply (_add_task_existing _ _ _ _ (stored_written _ _ _)).
Qed.

Lemma add_task_returns user_id description priority due_date w :
  well_formed_store user_id w = true →
  returns (add_task user_id description priority due_date) w.
Proof.
  intros Hwf. unfold returns, add_task. step.
  match goal with |- context [_add_task ?u ?td ?w1] =>
    destruct (_add_task_returns u td w1) as (b & w2 & ->); [exact Hwf|] end.
  destruct b; by eexists _, _.
Qed.

Lemma _complete_task_returns user_id task_id w :
  well_formed_store user_id w = true →
  returns (_complete_task user_id task_id) w.
Proof.
  intros Hwf. destruct (stored user_id w) as [doc|] eqn:Hdoc.
  - destruct (well_formed_stored _ _ _ Hwf Hdoc) as (Hmd & Htasks & _).
    destruct (existsb (has_id task_id) (current_tasks_of doc)) eqn:Hex.
    + apply existsb_first in Hex as (before & x & rest & Hcur & Hb & Hx).
      destruct x as [| | | | |task]; try done.
      eexists _, _. by apply (_complete_task_found _ _ _ doc before task rest).
    + eexists _, _. by apply (_complete_task_not_found _ _ _ doc).
  - eexists _, _. by apply _complete_task_absent.
Qed.

Lemma get_current_tasks_returns user_id w :
  well_formed_store user_id w = true →
  returns (get_current_tasks user_id) w.
Proof.
  intros Hwf. unfold returns, get_current_tasks. unfold bind at 1.
  destruct (stored user_id w) as [doc|] eqn:Hdoc.
  - destruct (well_formed_stored _ _ _ Hwf Hdoc) as (_ & Htasks & _).
    rewrite (get_user_section_stored _ _ _ _ Hdoc) by done.
    unfold tasks_ok in Htasks. step.
    destruct (doc !! "task_tracking") as [[| | | | |tr]|]; try done.
    + cbn [from_option id py_get].
      apply andb_prop in Htasks as [Hcur _].
      destruct (tr !! "current_tasks") as [[| | | |cur|]|]; try done;
        by eexists _, _.
    + by eexists _, _.
  - rewrite (get_user_section_absent _ _ _ Hdoc). step. by eexists _, _.
Qed.

Lemma add_habit_or_blocker_returns user_id category item w :
  well_formed_store user_id w = true →
  returns (add_habit_or_blocker user_id category item) w.
Proof.
  intros Hwf. destruct (valid_category category) eqn:Hc;
    [|eexists _, _; by apply add_habit_invalid].
  destruct (stored user_id w) as [doc|] eqn:Hdoc.
  - destruct (well_formed_stored _ _ _ Hwf Hdoc) as (Hmd & _ & Hhabits).
    destruct (has_item item (habit_list category doc)) eqn:Hin.
    + eexists _, _. by apply (add_habit_present _ _ _ _ doc).
    + destruct (add_habit_new _ _ item _ _ Hdoc Hhabits Hmd Hc Hin) as (doc' & Hrun & _).
      by eexists _, _.
  - destruct (add_habit_absent _ _ item _ Hdoc Hc) as (w' & doc' & Hrun & _).
    by eexists _, _.
Qed.

Lemma get_user_section_returns user_id section w :
  returns (get_user_section user_id section) w.
Proof.
  unfold returns, get_user_section. step.
  destruct (store w !! _doc_id user_id); destruct (named section); by eexists _, _.
Qed.

Lemma get_user_profile_returns user_id section w :
  returns (get_user_profile user_id section) w.
Proof.
  unfold returns, get_user_profile.
  destruct (str_given section); unfold bind, ret;
    match goal with |- context [get_user_section ?u ?s ?w1] =>
      destruct (get_user_section_returns u s w1) as (r & w' & ->) end;
    by eexists _, _.
Qed.

Lemma tool_returns_if (c : M bool) (data : dict) (yes no : dict) w :
  returns c w →
  returns (if truthy (VDict data)
           then do success <- c; if (success : bool) then ret yes else ret no
           else ret no) w.
Proof.
  intros Hc. destruct (truthy _); [by apply returns_if|]. by eexists _, _.
Qed.


Lemma initialize_user_profile_returns user_id w :
  well_formed_store user_id w = true →
  returns (initialize_user_profile user_id) w.
Proof.
  intros Hwf. unfold initialize_user_profile.
  apply returns_if. by apply initialize_user_schema_returns.
Qed.

Lemma update_personal_info_returns user_id updates w :
  well_formed_store user_id w = true →
  returns (update_personal_info user_id updates) w.
Proof.
  intros Hwf. unfold update_personal_info. cbv zeta.
  apply tool_returns_if. by apply update_user_section_returns.
Qed.

Lemma update_daily_routine_returns user_id updates w :
  well_formed_store user_id w = true →
  returns (update_daily_routine user_id updates) w.
Proof.
  intros Hwf. unfold update_daily_routine. cbv zeta.
  apply tool_returns_if. by apply update_user_section_returns.
Qed.

Lemma update_productivity_insights_returns user_id updates w :
  well_formed_store user_id w = true →
  returns (update_productivity_insights user_id updates) w.
Proof.
  intros Hwf. unfold update_productivity_insights, _update_productivity_insights.
  cbv zeta. apply tool_returns_if. by apply update_user_section_returns.
Qed.

Lemma complete_task_returns user_id task_id w :
  well_formed_store user_id w = true →
  returns (complete_task user_id task_id) w.
Proof.
  intros Hwf. unfold complete_task.
  apply returns_if. by apply _complete_task_returns.
Qed.

(** C9, in the form the code satisfies:
    whatever a tool returns is a dict whose [status] is
    ["success"], ["error"] or ["info"]; it has a [message] string in the
    answers of [initialize_user_profile], [update_personal_info],
    [update_daily_routine], [add_task], [complete_task],
    [update_productivity_insights] and [add_habit_or_blocker], while
    [get_current_tasks] answers with [status], [current_tasks] and [count] and
    [get_user_profile] with [status] and [profile] or [section] and [data],
    both with the status ["success"] and without a [message].  Every tool
    returns such a dict (it does not raise) when the user has no document or
    one whose metadata, task lists and habits are well-formed. *)
Theorem tools_answer user_id w :
  (answers (initialize_user_profile user_id) w
     (λ r, status_ok r = true ∧ has_message r = true) ∧
   (∀ updates, answers (update_personal_info user_id updates) w
     (λ r, status_ok r = true ∧ has_message r = true)) ∧
   (∀ updates, answers (update_daily_routine user_id updates) w
     (λ r, status_ok r = true ∧ has_message r = true)) ∧
   (∀ description priority due_date,
     answers (add_task user_id description priority due_date) w
     (λ r, status_ok r = true ∧ has_message r = true)) ∧
   (∀ task_id, answers (complete_task user_id task_id) w
     (λ r, status_ok r = true ∧ has_message r = true)) ∧
   (∀ updates, answers (update_productivity_insights user_id updates) w
     (λ r, status_ok r = true ∧ has_message r = true)) ∧
   (∀ category item, answers (add_habit_or_blocker user_id category item) w
     (λ r, status_ok r = true ∧ has_message r = true)) ∧
   answers (get_current_tasks user_id) w
     (λ r, r !! "status" = Some (VStr "success") ∧ r !! "message" = None ∧
           is_Some (r !! "current_tasks") ∧ is_Some (r !! "count")) ∧
   (∀ section, answers (get_user_profile user_id section) w
     (λ r, r !! "status" = Some (VStr "success") ∧ r !! "message" = None ∧
           (is_Some (r !! "profile") ∨ is_Some (r !! "data"))))) ∧
  (well_formed_store user_id w = true →
   returns (initialize_user_profile user_id) w ∧
   (∀ updates, returns (update_personal_info user_id updates) w) ∧
   (∀ updates, returns (update_daily_routine user_id updates) w) ∧
   (∀ description priority due_date,
      returns (add_task user_id description priority due_date) w) ∧
   (∀ task_id, returns (complete_task user_id task_id) w) ∧
   (∀ updates, returns (update_productivity_insights user_id updates) w) ∧
   (∀ category item, returns (add_habit_or_blocker user_id category item) w) ∧
   returns (get_current_tasks user_id) w ∧
   (∀ section, returns (get_user_profile user_id section) w)).
Proof.
  split.
  - split; [exact (initialize_user_profile_shape _ _)|].
    split; [exact (λ u, update_personal_info_shape _ u _)|].
    split; [exact (λ u, update_daily_routine_shape _ u _)|].
    split; [exact (λ d p dd, add_task_shape _ d p dd _)|].
    split; [exact (λ t, complete_task_shape _ t _)|].
    split; [exact (λ u, update_productivity_insights_shape _ u _)|].
    split; [exact (λ c i, add_habit_or_blocker_shape _ c i _)|].
    split; [exact (get_current_tasks_shape _ _)|].
    exact (λ s, get_user_profile_shape _ s _).
  - intros Hwf.
    split; [exact (initialize_user_profile_returns _ _ Hwf)|].
    split; [exact (λ u, update_personal_info_returns _ u _ Hwf)|].
    split; [exact (λ u, update_daily_routine_returns _ u _ Hwf)|].
    split; [exact (λ d p dd, add_task_returns _ d p dd _ Hwf)|].
    split; [exact (λ t, complete_task_returns _ t _ Hwf)|].
    split; [exact (λ u, update_productivity_insights_returns _ u _ Hwf)|].
    split; [exact (λ c i, add_habit_or_blocker_returns _ c i _ Hwf)|].
    split; [exact (get_current_tasks_returns _ _ Hwf)|].
    exact (λ s, get_user_profile_returns _ s _).
Qed.

(** the answers of [get_current_tasks] and [get_user_profile] have no
    [message] *)
Lemma getters_answer_without_message :
  (answered (get_current_tasks "Chris") two_ids_world = true ∧
   answer_field (get_current_tasks "Chris") two_ids_world "status" =
     Some (VStr "success") ∧
   answer_field (get_current_tasks "Chris") two_ids_world "count" =
     Some (VInt 2) ∧
   answer_field (get_current_tasks "Chris") two_ids_world "message" = None) ∧
  (answered (get_user_profile "Chris" "metadata") two_ids_world = true ∧
   answer_field (get_user_profile "Chris" "metadata") two_ids_world "status" =
     Some (VStr "success") ∧
   answer_field (get_user_profile "Chris" "metadata") two_ids_world "section" =
     Some (VStr "metadata") ∧
   answer_field (get_user_profile "Chris" "metadata") two_ids_world "message" =
     None) ∧
  (answered (get_user_profile "Chris" "") two_ids_world = true ∧
   answer_field (get_user_profile "Chris" "") two_ids_world "status" =
     Some (VStr "success") ∧
   answer_field (get_user_profile "Chris" "") two_ids_world "message" = None).
Proof. repeat split; vm_compute; reflexivity. Qed.

Lemma tools_answer_witness :
  well_formed_store "Chris" two_ids_world = true ∧
  returns (complete_task "Chris" "task_20260105_090000") two_ids_world ∧
  returns (get_current_tasks "Chris") two_ids_world ∧
  answers (add_habit_or_blocker "Chris" "bogus_category" "x") two_ids_world
    (λ r, status_ok r = true ∧ has_message r = true).
Proof.
  assert (Hwf : well_formed_store "Chris" two_ids_world = true)
    by (vm_compute; reflexivity).
  destruct (tools_answer "Chris" two_ids_world) as [Hshape Hreturns].
  destruct (Hreturns Hwf) as (_ & _ & _ & _ & Hcomplete & _ & _ & Hcurrent & _).
  destruct Hshape as (_ & _ & _ & _ & _ & _ & Hhabit & _).
  split; [exact Hwf|]. split; [exact (Hcomplete _)|]. split; [exact Hcurrent|].
  exact (Hhabit _ _).
Defined.

(** * Further properties of the engine *)

(** ** Every call keeps to the document of its user *)

Lemma own_refl user_id w : own user_id w w.
Proof. by split; [|split]. Qed.

Lemma own_trans user_id w1 w2 w3 :
  own user_id w1 w2 → own user_id w2 w3 → own user_id w1 w3.
Proof.
  intros (Hc1 & Ht1 & Hs1) (Hc2 & Ht2 & Hs2).
  split; [congruence|]. split; [lia|].
  intros key Hkey. by rewrite Hs2, Hs1.
Qed.

Lemma local_ret user_id {A} (a : A) : local user_id (ret a).
Proof. intros w. apply own_refl. Qed.

Lemma local_lift user_id {A} (r : result A) : local user_id (lift r).
Proof. intros w. apply own_refl. Qed.

Lemma local_now user_id : local user_id now.
Proof.
  intros w. unfold own, after, now. cbn [snd clock ticks store].
  split; [done|]. split; [lia|done].
Qed.

Lemma local_get user_id doc_id : local user_id (collection_get doc_id).
Proof.
  intros w. unfold after, collection_get.
  destruct (store w !! doc_id); apply own_refl.
Qed.

Lemma local_upsert user_id doc :
  local user_id (collection_upsert (_doc_id user_id) doc).
Proof.
  intros w. unfold own, after, collection_upsert. cbn [snd clock ticks store].
  split; [done|]. split; [lia|].
  intros key Hkey. by rewrite lookup_insert_ne.
Qed.

Lemma local_bind user_id {A B} (c : M A) (k : A → M B) :
  local user_id c → (∀ a, local user_id (k a)) → local user_id (bind c k).
Proof.
  intros Hc Hk w. specialize (Hc w). unfold after, bind in *.
  destruct (c w) as [[a|e] w1]; cbn [snd] in *; [|done].
  apply (own_trans _ _ w1); [done|]. apply Hk.
Qed.

Lemma local_try user_id {A} (c h : M A) :
  local user_id c → local user_id h → local user_id (try_not_found c h).
Proof.
  intros Hc Hh w. specialize (Hc w). unfold after, try_not_found in *.
  destruct (c w) as [[a|[]] w1]; cbn [snd] in *; try done.
  apply (own_trans _ _ w1); [done|]. apply Hh.
Qed.

Create HintDb local.
#[local] Hint Resolve local_ret local_lift local_now local_get local_upsert : local.

Ltac local_step :=
  first
    [ apply local_bind; [|intros ?]
    | apply local_try
    | match goal with
      | |- local _ (if ?b then _ else _) => destruct b
      | |- local _ (match ?x with _ => _ end) => destruct x
      end
    | solve [eauto with local] ].

Ltac local_steps := cbv zeta; repeat local_step.

Lemma local_now_iso user_id : local user_id now_iso.
Proof. unfold now_iso. local_steps. Qed.
#[local] Hint Resolve local_now_iso : local.

Lemma local_initialize user_id user_data :
  local user_id (initialize_user_schema user_id user_data).
Proof. unfold initialize_user_schema. local_steps. Qed.
#[local] Hint Resolve local_initialize : local.

Lemma local_ensure_metadata user_id doc : local user_id (ensure_metadata doc).
Proof. unfold ensure_metadata, fresh_metadata. local_steps. Qed.

Lemma local_get_or_initialize user_id : local user_id (get_or_initialize user_id).
Proof. unfold get_or_initialize. local_steps. Qed.
#[local] Hint Resolve local_ensure_metadata local_get_or_initialize : local.

Lemma local_update_user_section user_id section data :
  local user_id (update_user_section user_id section data).
Proof. unfold update_user_section. local_steps. Qed.

Lemma local_get_user_section user_id section :
  local user_id (get_user_section user_id section).
Proof. unfold get_user_section. local_steps. Qed.

Lemma local__add_task user_id task_data :
  local user_id (_add_task user_id task_data).
Proof. unfold _add_task. local_steps. Qed.

Lemma local__complete_task user_id task_id :
  local user_id (_complete_task user_id task_id).
Proof. unfold _complete_task. local_steps. Qed.

Lemma local_update_habit_streaks user_id streaks :
  local user_id (update_habit_streaks user_id streaks).
Proof. unfold update_habit_streaks. local_steps. Qed.
#[local] Hint Resolve local_update_user_section local_get_user_section
  local__add_task local__complete_task local_update_habit_streaks : local.

Lemma local_tools user_id :
  local user_id (initialize_user_profile user_id) ∧
  (∀ updates, local user_id (update_personal_info user_id updates)) ∧
  (∀ updates, local user_id (update_daily_routine user_id updates)) ∧
  (∀ description priority due_date,
     local user_id (add_task user_id description priority due_date)) ∧
  (∀ task_id, local user_id (complete_task user_id task_id)) ∧
  local user_id (get_current_tasks user_id) ∧
  (∀ updates, local user_id (update_productivity_insights user_id updates)) ∧
  (∀ category item, local user_id (add_habit_or_blocker user_id category item)) ∧
  (∀ section, local user_id (get_user_profile user_id section)).
Proof.
  split; [unfold initialize_user_profile; local_steps|].
  split; [intros; unfold update_personal_info; local_steps|].
  split; [intros; unfold update_daily_routine; local_steps|].
  split; [intros; unfold add_task; local_steps|].
  split; [intros; unfold complete_task; local_steps|].
  split; [unfold get_current_tasks; local_steps|].
  split; [intros; unfold update_productivity_insights,
            _update_productivity_insights; local_steps|].
  split; [intros; unfold add_habit_or_blocker; local_steps|].
  intros; unfold get_user_profile; local_steps.
Qed.

Lemma _doc_id_inj user_id other : _doc_id user_id = _doc_id other → user_id = other.
Proof. unfold _doc_id. cbn. intros [= H]. exact H. Qed.

Lemma own_other user_id other w w' :
  other ≠ user_id → own user_id w w' → stored other w' = stored other w.
Proof.
  intros Hne (_ & _ & Hstore). unfold stored. apply Hstore.
  intros Heq. by apply Hne, _doc_id_inj.
Qed.

(** X1: no call made for one user changes the document stored for another
    user, however the call ends: not [initialize_user_schema] with any seed,
    not a mutation of the engine, not a tool. *)
Theorem other_users_untouched user_id other w :
  other ≠ user_id →
  (∀ user_data,
     stored other (after (initialize_user_schema user_id user_data) w) =
       stored other w) ∧
  (∀ m, stored other (mutate user_id m w) = stored other w) ∧
  stored other (after (initialize_user_profile user_id) w) = stored other w ∧
  (∀ updates,
     stored other (after (update_personal_info user_id updates) w) =
       stored other w) ∧
  (∀ updates,
     stored other (after (update_daily_routine user_id updates) w) =
       stored other w) ∧
  (∀ updates,
     stored other (after (update_productivity_insights user_id updates) w) =
       stored other w).
Proof.
  intros Hne.
  destruct (local_tools user_id)
    as (Hinit & Hpersonal & Hroutine & Hadd & Hcomplete & _ & Hinsights & Hhabit & _).
  split; [intros; apply (own_other user_id); [done|apply local_initialize]|].
  split.
  { intros [section data|description priority due_date|task_id|streaks
           |category item]; cbn [mutate]; apply (own_other user_id); try done.
    - apply local_update_user_section.
    - apply Hadd.
    - apply Hcomplete.
    - apply local_update_habit_streaks.
    - apply Hhabit. }
  split; [apply (own_other user_id); [done|apply Hinit]|].
  split; [intros; apply (own_other user_id); [done|apply Hpersonal]|].
  split; [intros; apply (own_other user_id); [done|apply Hroutine]|].
  intros; apply (own_other user_id); [done|apply Hinsights].
Qed.

Lemma other_users_untouched_witness :
  "Shubham" ≠ "Chris" ∧
  stored "Shubham"
    (mutate "Chris" (UpdateSection "personal_info" (VStr "gone")) old_world) =
    stored "Shubham" old_world.
Proof.
  split; [discriminate|].
  destruct (other_users_untouched "Chris" "Shubham" old_world) as (_ & Hm & _);
    [discriminate|].
  apply Hm.
Defined.

(** ** Reading changes nothing *)

Lemma get_current_tasks_world user_id w : after (get_current_tasks user_id) w = w.
Proof.
  pose proof (get_user_section_world user_id (Some "task_tracking") w) as Hw.
  unfold after, get_current_tasks, bind, lift, ret in *.
  destruct (get_user_section _ _ w) as [[tasks|e] w1]; cbn [snd] in *; [|done].
  destruct (py_get tasks _ _) as [cur|e]; [|done].
  by destruct (py_len cur).
Qed.

Lemma get_user_profile_world user_id section w :
  after (get_user_profile user_id section) w = w.
Proof.
  unfold after, get_user_profile, bind, ret.
  destruct (str_given section).
  - pose proof (get_user_section_world user_id (Some section) w) as Hw.
    unfold after in Hw. by destruct (get_user_section _ _ w) as [[data|e] w1].
  - pose proof (get_user_section_world user_id None w) as Hw.
    unfold after in Hw. by destruct (get_user_section _ _ w) as [[data|e] w1].
Qed.

(** X2: [get_user_section], [get_current_tasks] and [get_user_profile] leave
    the store and the clock as they are, whether they return or raise: they
    write no document (not even for a user without one) and take no reading
    of the clock. *)
Theorem reading_changes_nothing user_id w :
  (∀ section, after (get_user_section user_id section) w = w) ∧
  after (get_current_tasks user_id) w = w ∧
  (∀ section, after (get_user_profile user_id section) w = w).
Proof.
  split; [intros; apply get_user_section_world|].
  split; [apply get_current_tasks_world|].
  intros; apply get_user_profile_world.
Qed.

(** ** The methods report no failure *)

Lemma yields_true_ret : yields_true (ret true).
Proof. by intros w b w' [= <- _]. Qed.

Lemma yields_true_bind {A} (c : M A) (k : A → M bool) :
  (∀ a, yields_true (k a)) → yields_true (bind c k).
Proof.
  intros Hk w b w'. unfold bind. destruct (c w) as [[a|e] w1]; [|done].
  apply Hk.
Qed.

Ltac yields_true_steps :=
  cbv zeta; repeat (apply yields_true_bind; intros ?); apply yields_true_ret.

Lemma initialize_yields_true user_id user_data :
  yields_true (initialize_user_schema user_id user_data).
Proof. unfold initialize_user_schema. yields_true_steps. Qed.

Lemma update_user_section_yields_true user_id section data :
  yields_true (update_user_section user_id section data).
Proof. unfold update_user_section. yields_true_steps. Qed.

Lemma _add_task_yields_true user_id task_data :
  yields_true (_add_task user_id task_data).
Proof. unfold _add_task. yields_true_steps. Qed.

Lemma update_habit_streaks_yields_true user_id streaks :
  yields_true (update_habit_streaks user_id streaks).
Proof. unfold update_habit_streaks. yields_true_steps. Qed.

Lemma tool_answer (c : M bool) (yes no r : dict) w w' :
  yields_true c →
  (do success <- c; if (success : bool) then ret yes else ret no) w = (Ok r, w') →
  r = yes.
Proof.
  intros Hc. unfold bind, ret. destruct (c w) as [[b|e] w1] eqn:E; [|done].
  rewrite (Hc _ _ _ E). by intros [= <- _].
Qed.

(** X3: the methods that write return [True] whenever they return, so the
    tools never give the answers "Failed to initialize user profile" and
    "Failed to add task": [initialize_user_profile] and [add_task] answer
    with success whenever they answer ([add_task] with the id it made up from
    the clock), and the three update tools answer with the error exactly
    when no field they look at was truthy. *)
Theorem tools_report_no_failure user_id w :
  (∀ user_data, yields_true (initialize_user_schema user_id user_data)) ∧
  (∀ section data, yields_true (update_user_section user_id section data)) ∧
  (∀ task_data, yields_true (_add_task user_id task_data)) ∧
  (∀ streaks, yields_true (update_habit_streaks user_id streaks)) ∧
  (∀ r w', initialize_user_profile user_id w = (Ok r, w') →
           r = status_message "success"
                 ("User profile initialized for " +:+ user_id)) ∧
  (∀ description priority due_date r w',
     add_task user_id description priority due_date w = (Ok r, w') →
     r = <["task_id" := VStr (next_task_id w)]>
           (status_message "success"
              ("Task '" +:+ description +:+ "' added with ID: " +:+
               next_task_id w))) ∧
  (∀ updates r w',
     update_personal_info user_id updates w = (Ok r, w') →
     r = if truthy (VDict (personal_info_of updates))
         then status_message "success" "Personal information updated"
         else status_message "error" "No information provided to update") ∧
  (∀ updates r w',
     update_daily_routine user_id updates w = (Ok r, w') →
     r = if truthy (VDict (routine_data_of updates))
         then status_message "success" "Daily routine updated"
         else status_message "error" "No routine information provided") ∧
  (∀ updates r w',
     update_productivity_insights user_id updates w = (Ok r, w') →
     r = if truthy (VDict (insights_of updates))
         then status_message "success" "Productivity insights updated"
         else status_message "error" "No insights provided").
Proof.
  split; [intros; apply initialize_yields_true|].
  split; [intros; apply update_user_section_yields_true|].
  split; [intros; apply _add_task_yields_true|].
  split; [intros; apply update_habit_streaks_yields_true|].
  split.
  { intros r w'. unfold initialize_user_profile.
    apply tool_answer, initialize_yields_true. }
  split.
  { intros description priority due_date r w'. unfold add_task. step.
    match goal with |- context [_add_task ?u ?td ?w1] =>
      destruct (_add_task u td w1) as [[b|e] w2] eqn:E end; [|done].
    rewrite (_add_task_yields_true _ _ _ _ _ E). by intros [= <- _]. }
  split.
  { intros updates r w'. unfold update_personal_info. cbv zeta.
    destruct (truthy _); [|by intros [= <- _]].
    apply tool_answer, update_user_section_yields_true. }
  split.
  { intros updates r w'. unfold update_daily_routine. cbv zeta.
    destruct (truthy _); [|by intros [= <- _]].
    apply tool_answer, update_user_section_yields_true. }
  intros updates r w'. unfold update_productivity_insights,
    _update_productivity_insights. cbv zeta.
  destruct (truthy _); [|by intros [= <- _]].
  apply tool_answer, update_user_section_yields_true.
Qed.

Lemma tools_report_no_failure_witness :
  add_task "Chris" "Write report" "high" "" (empty_world slow_clock) =
    (Ok (<["task_id" := VStr "task_20260105_090000"]>
           (status_message "success"
              "Task 'Write report' added with ID: task_20260105_090000")),
     after (add_task "Chris" "Write report" "high" "") (empty_world slow_clock)).
Proof.
  destruct (add_task_returns "Chris" "Write report" "high" ""
              (empty_world slow_clock)) as (r & w' & Hrun); [reflexivity|].
  destruct (tools_report_no_failure "Chris" (empty_world slow_clock))
    as (_ & _ & _ & _ & _ & Hadd & _).
  unfold after. rewrite Hrun. cbn [snd]. by rewrite (Hadd _ _ _ _ _ Hrun).
Defined.

(** ** Initialization with seed data *)

Lemma seeded_schema seed c l :
  (if truthy (VDict seed) then default ∅ (Some seed) ∪ default_schema c l
   else default_schema c l) = seed ∪ default_schema c l.
Proof.
  cbn [from_option id]. destruct (truthy (VDict seed)) eqn:Ht; [done|].
  apply truthy_dict in Ht as ->. by rewrite (left_id_L ∅ (∪)).
Qed.

Lemma seeded_metadata (seed : dict) c l :
  metadata_ok seed = true →
  ∃ md, (seed ∪ default_schema c l) !! "metadata" = Some (VDict md).
Proof. apply union_metadata. Qed.

Lemma initialize_seeded_absent user_id seed w :
  stored user_id w = None →
  metadata_ok seed = true →
  initialize_user_schema user_id (Some seed) w =
  (Ok true,
   written user_id
     (touch (reading w 2) (seed ∪ default_schema (reading w 0) (reading w 1)))
     (advance 3 w)).
Proof.
  intros H Hseed. unfold stored in H. unfold initialize_user_schema. run.
  rewrite seeded_schema.
  destruct (seeded_metadata seed (reading w 0) (reading w 1) Hseed) as [md Emd].
  unfold reading in *. cbn [Nat.add] in *.
  rewrite (set_nested_touch _ _ _ Emd). rewrite H. reflexivity.
Qed.

Lemma touch_ok t doc : metadata_ok doc = true → metadata_ok (touch t doc) = true.
Proof.
  unfold metadata_ok, touch. destruct (doc !! "metadata") as [[]|] eqn:E; try done.
  - by rewrite lookup_insert_eq.
  - by rewrite E.
Qed.

Lemma union_ok (a b : dict) :
  metadata_ok a = true → metadata_ok b = true → metadata_ok (a ∪ b) = true.
Proof.
  unfold metadata_ok. rewrite lookup_union.
  destruct (a !! "metadata") as [[]|]; try done;
    destruct (b !! "metadata") as [[]|]; done.
Qed.

Lemma metadata_ok_dict doc :
  metadata_ok doc = true → is_Some (doc !! "metadata") →
  ∃ md, doc !! "metadata" = Some (VDict md).
Proof.
  unfold metadata_ok. intros Hok [v Hv]. rewrite Hv in *.
  destruct v; try done. by eexists.
Qed.

Lemma initialize_seeded_existing user_id seed w doc :
  stored user_id w = Some doc →
  metadata_ok doc = true →
  metadata_ok seed = true →
  initialize_user_schema user_id (Some seed) w =
  (Ok true,
   written user_id
     (touch (reading w 3)
        (doc ∪ touch (reading w 2)
                 (seed ∪ default_schema (reading w 0) (reading w 1))))
     (advance 4 w)).
Proof.
  intros H Hmd Hseed. unfold stored in H. unfold initialize_user_schema. run.
  rewrite seeded_schema.
  destruct (seeded_metadata seed (reading w 0) (reading w 1) Hseed) as [md Emd].
  unfold reading in *. cbn [Nat.add] in *.
  rewrite (set_nested_touch _ _ _ Emd). rewrite H, backfill_union.
  set (schema := touch _ (seed ∪ _)).
  assert (Hschema : ∃ md', schema !! "metadata" = Some (VDict md')).
  { unfold schema. eexists. by apply touch_metadata. }
  destruct Hschema as [md' Emd'].
  destruct (metadata_ok_dict (doc ∪ schema)) as [md2 Emd2].
  { apply union_ok; [done|]. unfold metadata_ok. by rewrite Emd'. }
  { rewrite lookup_union, Emd'. by destruct (doc !! "metadata"). }
  rewrite (set_nested_touch _ _ _ Emd2). reflexivity.
Qed.

Lemma initialize_seeded_raises user_id seed w v :
  seed !! "metadata" = Some v →
  is_dict v = false →
  initialize_user_schema user_id (Some seed) w = (Raise TypeError, advance 3 w).
Proof.
  intros Hv Hdict. unfold initialize_user_schema. run. rewrite seeded_schema.
  unfold set_nested, py_getitem, py_setitem.
  rewrite lookup_union, Hv, union_Some_l. by destruct v.
Qed.

(** X4: for a user without a document, [initialize_user_schema] with seed
    data (whose metadata, where given, is a dict) stores the sections of the
    seed as they are, also those the schema does not know, in place of the
    defaults, and the defaults for the other sections; a section of the seed
    replaces the default whole, its missing keys are not filled in.  The
    metadata of a seed is kept but for [last_updated], so [created_at] and
    [version] are there only if the seed has them. *)
Theorem initialize_with_seed user_id seed w :
  stored user_id w = None →
  metadata_ok seed = true →
  ∃ doc,
    initialize_user_schema user_id (Some seed) w =
      (Ok true, written user_id doc (advance 3 w)) ∧
    dom doc = dom seed ∪ sections ∧
    (∀ s v, s ≠ "metadata" → seed !! s = Some v → doc !! s = Some v) ∧
    (∀ s c l, s ≠ "metadata" → seed !! s = None →
              doc !! s = default_schema c l !! s) ∧
    (seed !! "metadata" = None →
     doc !! "metadata" =
       Some (VDict (dict_of [("created_at", reading w 0);
                             ("last_updated", reading w 2);
                             ("version", VInt 1)]))) ∧
    (∀ md, seed !! "metadata" = Some (VDict md) →
           doc !! "metadata" =
             Some (VDict (<["last_updated" := reading w 2]> md))).
Proof.
  intros Habsent Hseed.
  set (dflt := default_schema (reading w 0) (reading w 1)).
  destruct (seeded_metadata seed (reading w 0) (reading w 1) Hseed) as [md0 Emd0].
  fold dflt in Emd0.
  assert (Htouch : touch (reading w 2) (seed ∪ dflt) =
                   <["metadata" := VDict (<["last_updated" := reading w 2]> md0)]>
                     (seed ∪ dflt)) by (unfold touch; by rewrite Emd0).
  exists (touch (reading w 2) (seed ∪ dflt)).
  split; [by apply initialize_seeded_absent|].
  split.
  { rewrite Htouch, dom_insert_L, dom_union_L. unfold dflt.
    rewrite default_schema_dom. unfold sections. set_solver. }
  split.
  { intros s v Hs Hv. rewrite Htouch, lookup_insert_ne by done.
    by rewrite lookup_union, Hv, union_Some_l. }
  split.
  { intros s c l Hs Hnone. rewrite Htouch, lookup_insert_ne by done.
    rewrite lookup_union, Hnone, (left_id_L None (∪)).
    by apply default_schema_other. }
  split.
  { intros E. rewrite Htouch, lookup_insert_eq.
    rewrite lookup_union, E, (left_id_L None (∪)) in Emd0.
    unfold dflt in Emd0. rewrite default_schema_metadata in Emd0.
    by simplify_eq. }
  intros md E. rewrite Htouch, lookup_insert_eq.
  rewrite lookup_union, E, union_Some_l in Emd0. by simplify_eq.
Qed.

(** X5: on a stored document, seed data never replaces what is stored: a
    section that is there keeps its value, a missing section takes the value
    the seed gives it, and the default only where the seed has none. *)
Theorem seed_spares_stored_sections user_id seed w doc :
  stored user_id w = Some doc →
  metadata_ok doc = true →
  metadata_ok seed = true →
  ∃ doc',
    initialize_user_schema user_id (Some seed) w =
      (Ok true, written user_id doc' (advance 4 w)) ∧
    (∀ s, s ≠ "metadata" → is_Some (doc !! s) → doc' !! s = doc !! s) ∧
    (∀ s v, s ≠ "metadata" → doc !! s = None → seed !! s = Some v →
            doc' !! s = Some v) ∧
    (∀ s c l, s ≠ "metadata" → doc !! s = None → seed !! s = None →
              doc' !! s = default_schema c l !! s) ∧
    (∀ md, doc !! "metadata" = Some (VDict md) →
           doc' !! "metadata" =
             Some (VDict (<["last_updated" := reading w 3]> md))).
Proof.
  intros Hdoc Hmd Hseed.
  eexists. split; [by apply initialize_seeded_existing|].
  set (dflt := default_schema (reading w 0) (reading w 1)).
  split.
  { intros s Hs [x Hx]. rewrite touch_lookup_ne by done.
    by rewrite lookup_union, Hx, union_Some_l. }
  split.
  { intros s v Hs Hnone Hv. rewrite touch_lookup_ne by done.
    rewrite lookup_union, Hnone, (left_id_L None (∪)).
    rewrite touch_lookup_ne by done. by rewrite lookup_union, Hv, union_Some_l. }
  split.
  { intros s c l Hs Hnone Hv. rewrite touch_lookup_ne by done.
    rewrite lookup_union, Hnone, (left_id_L None (∪)).
    rewrite touch_lookup_ne by done.
    rewrite lookup_union, Hv, (left_id_L None (∪)).
    by apply default_schema_other. }
  intros md E. apply touch_metadata. by rewrite lookup_union, E, union_Some_l.
Qed.

(** X6: seed data whose ["metadata"] is not a dict makes
    [initialize_user_schema] raise [TypeError], for a new user and for a
    stored document alike, after three readings of the clock and before the
    store is touched: nothing is written. *)
Theorem seed_with_bad_metadata_raises user_id seed w v :
  seed !! "metadata" = Some v →
  is_dict v = false →
  initialize_user_schema user_id (Some seed) w = (Raise TypeError, advance 3 w) ∧
  store (after (initialize_user_schema user_id (Some seed)) w) = store w.
Proof.
  intros Hv Hdict. unfold after.
  rewrite (initialize_seeded_raises _ _ _ _ Hv Hdict). by split.
Qed.

Lemma initialize_with_seed_witness :
  stored "Shubham" (empty_world fast_clock) = None ∧
  metadata_ok example_data = true ∧
  ∃ doc,
    outcome create_example_user_profile (empty_world fast_clock) = Ok true ∧
    stored "Shubham" (after create_example_user_profile (empty_world fast_clock)) =
      Some doc ∧
    field doc "personal_info" "name" = Some (VStr "Shubham Dalvi") ∧
    doc !! "task_tracking" = Some empty_task_tracking.
Proof.
  split; [reflexivity|]. split; [reflexivity|].
  destruct (initialize_with_seed "Shubham" example_data (empty_world fast_clock))
    as (doc & Hrun & _ & Hseed & Hdflt & _); [reflexivity|reflexivity|].
  exists doc. unfold outcome, after, create_example_user_profile.
  rewrite Hrun. cbn [fst snd]. split; [reflexivity|].
  split; [apply stored_written|]. split.
  - unfold field.
    rewrite (Hseed "personal_info"
               (VDict (dict_of [("name", VStr "Shubham Dalvi"); ("age", VInt 28);
                                ("domain", VStr "Data Engineering")])));
      [reflexivity|discriminate|reflexivity].
  - rewrite (Hdflt "task_tracking" VNone VNone); [reflexivity|discriminate|].
    reflexivity.
Defined.

Lemma seed_spares_stored_sections_witness :
  stored "Chris" old_world = Some old_profile ∧
  metadata_ok old_profile = true ∧
  metadata_ok example_data = true ∧
  ∃ doc',
    initialize_user_schema "Chris" (Some example_data) old_world =
      (Ok true, written "Chris" doc' (advance 4 old_world)) ∧
    field doc' "personal_info" "name" = Some (VStr "Chris") ∧
    field doc' "preferences" "motivation_style" =
      Some (VStr "data-driven feedback and progress visualization").
Proof.
  split; [reflexivity|]. split; [reflexivity|]. split; [reflexivity|].
  destruct (seed_spares_stored_sections "Chris" example_data old_world old_profile)
    as (doc' & Hrun & Hkept & Hseed & _); [reflexivity|reflexivity|reflexivity|].
  exists doc'. split; [exact Hrun|]. split.
  - unfold field. rewrite (Hkept "personal_info"); [reflexivity|discriminate|].
    by eexists.
  - unfold field.
    rewrite (Hseed "preferences"
               (VDict (dict_of [
                  ("notifications", VDict (dict_of [
                      ("reminder_frequency", VStr "every 2 hours");
                      ("preferred_channels", VList [VStr "push"; VStr "email"])]));
                  ("motivation_style",
                   VStr "data-driven feedback and progress visualization")])));
      [reflexivity|discriminate|reflexivity|reflexivity].
Defined.

Lemma seed_with_bad_metadata_raises_witness :
  bad_seed !! "metadata" = Some (VStr "v1") ∧
  is_dict (VStr "v1") = false ∧
  initialize_user_schema "Chris" (Some bad_seed) old_world =
    (Raise TypeError, advance 3 old_world).
Proof.
  split; [reflexivity|]. split; [reflexivity|].
  by apply (seed_with_bad_metadata_raises "Chris" bad_seed old_world (VStr "v1")).
Defined.

(** ** Adding, listing and completing a task *)

Lemma get_current_tasks_stored user_id w doc :
  stored user_id w = Some doc →
  tasks_ok doc = true →
  get_current_tasks user_id w = (Ok (tasks_answer (current_tasks_of doc)), w).
Proof.
  intros Hdoc Htasks. unfold get_current_tasks. unfold bind at 1.
  rewrite (get_user_section_stored _ _ _ _ Hdoc) by done.
  unfold tasks_ok in Htasks. unfold current_tasks_of, tasks_of, tracking_of. step.
  destruct (doc !! "task_tracking") as [[| | | | |tr]|]; try done.
  cbn [from_option id py_get].
  apply andb_prop in Htasks as [Hcur _].
  by destruct (tr !! "current_tasks") as [[| | | |cur|]|].
Qed.

Lemma get_current_tasks_absent user_id w :
  stored user_id w = None →
  get_current_tasks user_id w = (Ok (tasks_answer []), w).
Proof.
  intros Hdoc. unfold get_current_tasks. unfold bind at 1.
  by rewrite (get_user_section_absent _ _ _ Hdoc).
Qed.

(** X7: for a user without a document, or with one whose task lists are
    well-formed, [get_current_tasks] answers with the stored [current_tasks]
    in their order and with their number as [count] (an empty list and 0
    where there is no document, no [task_tracking] or no [current_tasks]),
    and leaves the world as it is. *)
Theorem get_current_tasks_lists user_id w :
  match stored user_id w with
  | Some doc => tasks_ok doc = true
  | None => True
  end →
  get_current_tasks user_id w =
    (Ok (tasks_answer (stored_tasks "current_tasks" user_id w)), w) ∧
  tasks_answer (stored_tasks "current_tasks" user_id w) !! "count" =
    Some (VInt (Z.of_nat (length (stored_tasks "current_tasks" user_id w)))).
Proof.
  intros Hok. split; [|reflexivity]. unfold stored_tasks.
  destruct (stored user_id w) as [doc|] eqn:Hdoc.
  - by apply get_current_tasks_stored.
  - by apply get_current_tasks_absent.
Qed.

Lemma get_current_tasks_lists_witness :
  match stored "Chris" two_ids_world with
  | Some doc => tasks_ok doc = true
  | None => True
  end ∧
  answer_field (get_current_tasks "Chris") two_ids_world "count" = Some (VInt 2).
Proof.
  assert (Hok : match stored "Chris" two_ids_world with
                | Some doc => tasks_ok doc = true
                | None => True
                end).
  { assert (E : stored "Chris" two_ids_world = Some two_ids_doc)
      by (apply stored_default; vm_compute; reflexivity).
    rewrite E. vm_compute. reflexivity. }
  split; [exact Hok|].
  destruct (get_current_tasks_lists "Chris" two_ids_world Hok) as [Hrun Hcount].
  unfold answer_field, outcome. rewrite Hrun. cbn [fst]. rewrite Hcount.
  vm_compute. reflexivity.
Defined.

Lemma add_task_unfold user_id description priority due_date w :
  add_task user_id description priority due_date w =
  (let (r, w') :=
     _add_task user_id
       (task_data_of (next_task_id w) description priority due_date (reading w 1))
       (advance 2 w) in
   match r with
   | Ok true => (Ok (task_added (next_task_id w) description), w')
   | Ok false => (Ok (status_message "error" "Failed to add task"), w')
   | Raise e => (Raise e, w')
   end).
Proof.
  unfold add_task. step. unfold task_data_of, next_task_id, reading, advance.
  cbn [Nat.add].
  match goal with |- context [_add_task ?u ?td ?w1] =>
    destruct (_add_task u td w1) as [[[]|e] w2] end; reflexivity.
Qed.

Lemma stored_advance user_id n w : stored user_id (advance n w) = stored user_id w.
Proof. reflexivity. Qed.

Lemma default_schema_ok c l :
  tasks_ok (default_schema c l) = true ∧
  metadata_ok (default_schema c l) = true ∧
  habits_ok (default_schema c l) = true ∧
  current_tasks_of (default_schema c l) = [] ∧
  completed_tasks_of (default_schema c l) = [].
Proof. by repeat split. Qed.

(** what [_add_task] leaves for a well-formed store *)
Lemma _add_task_appends user_id task_data w :
  well_formed_store user_id w = true →
  ∃ w' doc' t,
    _add_task user_id task_data w = (Ok true, w') ∧
    stored user_id w' = Some doc' ∧
    tasks_ok doc' = true ∧
    metadata_ok doc' = true ∧
    current_tasks_of doc' =
      stored_tasks "current_tasks" user_id w ++
      [VDict (<["last_activity" := VStr t]> task_data)] ∧
    completed_tasks_of doc' = stored_tasks "completed_tasks" user_id w.
Proof.
  assert (Hstored : ∀ w doc, stored user_id w = Some doc →
            tasks_ok doc = true → metadata_ok doc = true →
            ∃ w' doc' t,
              _add_task user_id task_data w = (Ok true, w') ∧
              stored user_id w' = Some doc' ∧
              tasks_ok doc' = true ∧
              metadata_ok doc' = true ∧
              current_tasks_of doc' =
                current_tasks_of doc ++
                [VDict (<["last_activity" := VStr t]> task_data)] ∧
              completed_tasks_of doc' = completed_tasks_of doc).
  { intros w1 doc Hdoc Htasks Hmd.
    destruct (_add_task_effect user_id task_data w1 doc Hdoc Htasks Hmd)
      as (doc' & Hout & Hst & Hok' & Hmd' & Hcur & Hcomp).
    unfold outcome, after in *.
    destruct (_add_task user_id task_data w1) as [r w'] eqn:E. cbn [fst snd] in *.
    subst r. by eexists w', doc', _. }
  intros Hwf. unfold stored_tasks.
  destruct (stored user_id w) as [doc|] eqn:Hdoc.
  - destruct (well_formed_stored _ _ _ Hwf Hdoc) as (Hmd & Htasks & _).
    by apply Hstored.
  - rewrite (_add_task_absent _ _ _ Hdoc).
    destruct (default_schema_ok (reading w 0) (reading w 2))
      as (Htasks & Hmd & _ & Hcur & Hcomp).
    destruct (Hstored (initialized user_id w) _ (stored_written _ _ _) Htasks Hmd)
      as (w' & doc' & t & Hrun & Hst & Hok' & Hmd' & Hcur' & Hcomp').
    rewrite Hcur in Hcur'. rewrite Hcomp in Hcomp'.
    by eexists w', doc', t.
Qed.

Lemma task_data_of_fields task_id description priority due_date created_at :
  let task := task_data_of task_id description priority due_date created_at in
  task !! "task_id" = Some (VStr task_id) ∧
  task !! "description" = Some (VStr description) ∧
  task !! "priority" = Some (VStr priority) ∧
  task !! "status" = Some (VStr "pending") ∧
  task !! "created_at" = Some created_at ∧
  task !! "due_date" = (if str_given due_date then Some (VStr due_date) else None) ∧
  task !! "last_activity" = None ∧
  task !! "completed_on" = None.
Proof. unfold task_data_of. cbv zeta. by destruct (str_given due_date). Qed.

(** X8: on a well-formed store [add_task] answers with success and the id
    ["task_"] followed by the second of the clock; after it
    [get_current_tasks] lists the old tasks followed by the new one, which is
    pending, carries that id, the description, the priority, the time of its
    creation and of its last activity, and a due date exactly when the one
    given has a character that is not white space, of Unicode as [str.strip]
    has it (it is stored as given, not stripped).  For a user without a document the new task is the only one. *)
Theorem add_task_then_list user_id description priority due_date w :
  well_formed_store user_id w = true →
  ∃ w' task,
    add_task user_id description priority due_date w =
      (Ok (task_added (next_task_id w) description), w') ∧
    get_current_tasks user_id w' =
      (Ok (tasks_answer
             (stored_tasks "current_tasks" user_id w ++ [VDict task])), w') ∧
    stored_tasks "completed_tasks" user_id w' =
      stored_tasks "completed_tasks" user_id w ∧
    task !! "task_id" = Some (VStr (next_task_id w)) ∧
    task !! "description" = Some (VStr description) ∧
    task !! "priority" = Some (VStr priority) ∧
    task !! "status" = Some (VStr "pending") ∧
    task !! "created_at" = Some (reading w 1) ∧
    is_Some (task !! "last_activity") ∧
    task !! "completed_on" = None ∧
    task !! "due_date" =
      (if str_given due_date then Some (VStr due_date) else None).
Proof.
  intros Hwf. rewrite add_task_unfold.
  set (td := task_data_of _ _ _ _ _).
  destruct (_add_task_appends user_id td (advance 2 w) Hwf)
    as (w' & doc' & t & Hrun & Hst & Hok' & Hmd' & Hcur & Hcomp).
  rewrite Hrun.
  destruct (task_data_of_fields (next_task_id w) description priority due_date
              (reading w 1)) as (Hid & Hd & Hp & Hs & Hc & Hdue & Hla & Hco).
  fold td in Hid, Hd, Hp, Hs, Hc, Hdue, Hla, Hco.
  exists w', (<["last_activity" := VStr t]> td).
  split; [reflexivity|]. split.
  { rewrite (get_current_tasks_stored _ _ _ Hst Hok'). by rewrite Hcur. }
  split; [unfold stored_tasks at 1; by rewrite Hst|].
  repeat split; first [by rewrite lookup_insert_ne | by rewrite lookup_insert_eq].
Qed.

Lemma add_task_then_list_witness :
  well_formed_store "Chris" (empty_world slow_clock) = true ∧
  ∃ w' task,
    add_task "Chris" "Write report" "high" (" " +:+ nbsp) (empty_world slow_clock) =
      (Ok (task_added "task_20260105_090000" "Write report"), w') ∧
    get_current_tasks "Chris" w' = (Ok (tasks_answer [VDict task]), w') ∧
    task !! "status" = Some (VStr "pending") ∧
    task !! "due_date" = None.
Proof.
  split; [reflexivity|].
  destruct (add_task_then_list "Chris" "Write report" "high" (" " +:+ nbsp)
              (empty_world slow_clock))
    as (w' & task & Hrun & Hlist & _ & _ & _ & _ & Hs & _ & _ & _ & Hdue);
    [reflexivity|].
  exists w', task. split; [exact Hrun|]. split; [exact Hlist|].
  split; [exact Hs|exact Hdue].
Defined.

(** what [complete_task] leaves for the first task of [current_tasks] with
    the id *)
Lemma complete_task_first user_id task_id w doc before task rest :
  stored user_id w = Some doc →
  tasks_ok doc = true →
  metadata_ok doc = true →
  current_tasks_of doc = before ++ VDict task :: rest →
  existsb (has_id task_id) before = false →
  has_id task_id (VDict task) = true →
  ∃ w' doc',
    complete_task user_id task_id w =
      (Ok (status_message "success" ("Task " +:+ task_id +:+ " marked as completed")),
       w') ∧
    stored user_id w' = Some doc' ∧
    tasks_ok doc' = true ∧
    metadata_ok doc' = true ∧
    current_tasks_of doc' = before ++ rest ∧
    completed_tasks_of doc' =
      completed_tasks_of doc ++
      [VDict (completed (reading w (metadata_cost doc)) task)].
Proof.
  intros Hdoc Hok Hmd Hcur Hb Hx.
  pose proof (_complete_task_found _ _ _ _ _ _ _ Hdoc Hok Hmd Hcur Hb Hx) as Hrun.
  destruct (ensured_metadata doc w Hmd) as [md Emd].
  unfold complete_task, bind. rewrite Hrun. unfold ret.
  eexists _, _. split; [reflexivity|].
  split; [apply stored_written|].
  match goal with |- tasks_ok ?d = _ ∧ _ => set (doc' := d) end.
  assert (Htr : doc' !! "task_tracking" =
    Some (VDict (<["completed_tasks" :=
                    VList (completed_tasks_of doc ++
                           [VDict (completed (reading w (metadata_cost doc)) task)])]>
                   (<["current_tasks" := VList (before ++ rest)]>
                      (<["completed_tasks" := VList (completed_tasks_of doc)]>
                         (<["current_tasks" := VList (current_tasks_of doc)]>
                            (tracking_of doc))))))).
  { unfold doc'. rewrite touch_lookup_ne by done. apply lookup_insert_eq. }
  split.
  { unfold tasks_ok. rewrite Htr.
    rewrite (lookup_insert_ne _ "completed_tasks" "current_tasks") by done.
    rewrite !lookup_insert_eq. cbn [absent_or is_task_list is_list].
    pose proof (current_tasks_dicts _ Hok) as Hd. rewrite Hcur in Hd.
    rewrite forallb_app in Hd |- *. cbn [forallb] in Hd.
    apply andb_prop in Hd as [-> [_ ->]%andb_prop]. done. }
  split.
  { unfold metadata_ok, doc'. erewrite touch_metadata; [done|].
    rewrite lookup_insert_ne by done. exact Emd. }
  split.
  { apply (tasks_of_lookup _ _ _ _ Htr).
    rewrite lookup_insert_ne by done. apply lookup_insert_eq. }
  apply (tasks_of_lookup _ _ _ _ Htr), lookup_insert_eq.
Qed.

Lemma has_id_task_id task_id task :
  task !! "task_id" = Some (VStr task_id) → has_id task_id (VDict task) = true.
Proof.
  intros H. unfold has_id. rewrite H. cbn [from_option]. unfold id, eq_str.
  by rewrite bool_decide_eq_true_2.
Qed.

(** X9: on a well-formed store, [complete_task] called with the id that
    [add_task] has just answered succeeds.  When no task of [current_tasks]
    carried that id before, it undoes the addition: [get_current_tasks] lists
    the tasks it listed before, and [completed_tasks] has gained the new task,
    with the description given, [status] ["completed"] and a [completed_on]
    time.  When an earlier task of [current_tasks] carried the id (it was added
    within the same second), that earlier task is the one completed, and the
    task just added stays in [current_tasks]. *)
Theorem add_then_complete user_id description priority due_date w :
  well_formed_store user_id w = true →
  ∃ w1 w2 task moved,
    add_task user_id description priority due_date w =
      (Ok (task_added (next_task_id w) description), w1) ∧
    complete_task user_id (next_task_id w) w1 =
      (Ok (status_message "success"
             ("Task " +:+ next_task_id w +:+ " marked as completed")), w2) ∧
    task !! "task_id" = Some (VStr (next_task_id w)) ∧
    task !! "description" = Some (VStr description) ∧
    stored_tasks "completed_tasks" user_id w2 =
      stored_tasks "completed_tasks" user_id w ++ [VDict moved] ∧
    moved !! "status" = Some (VStr "completed") ∧
    is_Some (moved !! "completed_on") ∧
    (existsb (has_id (next_task_id w)) (stored_tasks "current_tasks" user_id w) = false →
     moved !! "description" = Some (VStr description) ∧
     moved !! "task_id" = Some (VStr (next_task_id w)) ∧
     get_current_tasks user_id w2 =
       (Ok (tasks_answer (stored_tasks "current_tasks" user_id w)), w2)) ∧
    (∀ before old rest,
       stored_tasks "current_tasks" user_id w = before ++ VDict old :: rest →
       existsb (has_id (next_task_id w)) before = false →
       has_id (next_task_id w) (VDict old) = true →
       moved !! "description" = old !! "description" ∧
       get_current_tasks user_id w2 =
         (Ok (tasks_answer (before ++ rest ++ [VDict task])), w2)).
Proof.
  intros Hwf. rewrite add_task_unfold.
  set (td := task_data_of _ _ _ _ _).
  destruct (_add_task_appends user_id td (advance 2 w) Hwf)
    as (w1 & doc1 & t & Hrun & Hst & Hok1 & Hmd1 & Hcur & Hcomp).
  rewrite Hrun.
  change (stored_tasks "current_tasks" user_id (advance 2 w))
    with (stored_tasks "current_tasks" user_id w) in Hcur.
  change (stored_tasks "completed_tasks" user_id (advance 2 w))
    with (stored_tasks "completed_tasks" user_id w) in Hcomp.
  destruct (task_data_of_fields (next_task_id w) description priority due_date
              (reading w 1)) as (Hid & Hd & _).
  fold td in Hid, Hd.
  set (task := <["last_activity" := VStr t]> td) in *.
  assert (Htid : task !! "task_id" = Some (VStr (next_task_id w)))
    by (unfold task; by rewrite lookup_insert_ne).
  assert (Htd : task !! "description" = Some (VStr description))
    by (unfold task; by rewrite lookup_insert_ne).
  assert (Hex : existsb (has_id (next_task_id w)) (current_tasks_of doc1) = true).
  { rewrite Hcur, existsb_app. cbn [existsb].
    by rewrite (has_id_task_id _ _ Htid), orb_true_r. }
  apply existsb_first in Hex as (before & x & rest & Hsplit & Hb & Hx).
  destruct x as [| | | | |moved0]; try done.
  destruct (complete_task_first _ _ _ _ _ _ _ Hst Hok1 Hmd1 Hsplit Hb Hx)
    as (w2 & doc2 & Hrun2 & Hst2 & Hok2 & Hmd2 & Hcur2 & Hcomp2).
  exists w1, w2, task, (completed (reading w1 (metadata_cost doc1)) moved0).
  split; [reflexivity|]. split; [exact Hrun2|].
  split; [exact Htid|]. split; [exact Htd|].
  split; [unfold stored_tasks at 1; rewrite Hst2; by rewrite <-Hcomp|].
  split; [apply lookup_insert_eq|].
  split; [unfold completed; rewrite lookup_insert_ne by done;
          rewrite lookup_insert_eq; by eexists|].
  rewrite (get_current_tasks_stored _ _ _ Hst2 Hok2), Hcur2.
  rewrite Hcur in Hsplit.
  split.
  - intros Hno.
    assert (Hsame : before = stored_tasks "current_tasks" user_id w ∧
                    moved0 = task ∧ rest = []).
    { clear -Hsplit Hb Hx Hno.
      revert before Hsplit Hb.
      induction (stored_tasks "current_tasks" user_id w) as [|y l IH];
        intros before Hsplit Hb.
      - destruct before as [|b before]; cbn in Hsplit.
        + by simplify_eq.
        + injection Hsplit as _ Hsplit. by destruct before.
      - cbn [existsb] in Hno. apply orb_false_elim in Hno as [Hy Hl].
        destruct before as [|b before]; cbn in Hsplit.
        + injection Hsplit as Hy' _. rewrite Hy' in Hy. by rewrite Hx in Hy.
        + injection Hsplit as <- Hsplit. cbn [existsb] in Hb.
          apply orb_false_elim in Hb as [_ Hb].
          destruct (IH Hl before Hsplit Hb) as (-> & ? & ?). done. }
    destruct Hsame as (-> & -> & ->).
    unfold completed. rewrite !lookup_insert_ne by done.
    by rewrite app_nil_r.
  - intros before' old rest' Hold Hb' Hold_id.
    rewrite Hold in Hsplit. rewrite <-(assoc_L (++)) in Hsplit.
    cbn [app] in Hsplit.
    assert (Hsame : before = before' ∧ moved0 = old ∧
                    rest = rest' ++ [VDict task]).
    { clear -Hsplit Hb Hx Hb' Hold_id.
      revert before Hsplit Hb.
      induction before' as [|y l IH]; intros before Hsplit Hb.
      - destruct before as [|b before]; cbn in Hsplit.
        + by simplify_eq.
        + injection Hsplit as Hy' _. cbn [existsb] in Hb.
          rewrite <-Hy' in Hb. by rewrite Hold_id in Hb.
      - cbn [existsb] in Hb'. apply orb_false_elim in Hb' as [Hy Hl].
        destruct before as [|b before]; cbn in Hsplit.
        + injection Hsplit as Hy' _. rewrite Hy' in Hy. by rewrite Hx in Hy.
        + injection Hsplit as <- Hsplit. cbn [existsb] in Hb.
          apply orb_false_elim in Hb as [_ Hb].
          destruct (IH Hl before Hsplit Hb) as (-> & ? & ?). done. }
    destruct Hsame as (-> & -> & ->).
    unfold completed. by rewrite !lookup_insert_ne by done.
Qed.

Lemma add_then_complete_witness :
  well_formed_store "Chris" (empty_world slow_clock) = true ∧
  ∃ w1 w2 moved,
    add_task "Chris" "Write report" "high" "" (empty_world slow_clock) =
      (Ok (task_added "task_20260105_090000" "Write report"), w1) ∧
    complete_task "Chris" "task_20260105_090000" w1 =
      (Ok (status_message "success"
             "Task task_20260105_090000 marked as completed"), w2) ∧
    get_current_tasks "Chris" w2 = (Ok (tasks_answer []), w2) ∧
    stored_tasks "completed_tasks" "Chris" w2 = [VDict moved] ∧
    moved !! "description" = Some (VStr "Write report") ∧
    moved !! "status" = Some (VStr "completed").
Proof.
  split; [reflexivity|].
  destruct (add_then_complete "Chris" "Write report" "high" ""
              (empty_world slow_clock))
    as (w1 & w2 & task & moved & Hadd & Hdone & _ & _ & Hcomp & Hs & _ & Hfresh & _);
    [reflexivity|].
  destruct (Hfresh eq_refl) as (Hd & _ & Hlist).
  exists w1, w2, moved.
  split; [exact Hadd|]. split; [exact Hdone|]. split; [exact Hlist|].
  split; [exact Hcomp|]. split; [exact Hd|exact Hs].
Defined.

(** ** The habit streaks *)

Lemma update_habit_streaks_stored user_id streaks w doc :
  stored user_id w = Some doc →
  metadata_ok doc = true →
  insights_ok doc = true →
  ∃ w' doc',
    update_habit_streaks user_id streaks w = (Ok true, w') ∧
    stored user_id w' = Some doc' ∧
    field doc' "productivity_insights" "habit_streaks" =
      Some (VDict (streaks ∪ streaks_or_default doc)) ∧
    (∀ k, k ≠ "habit_streaks" →
       field doc' "productivity_insights" k = insights_or_default doc !! k) ∧
    (∀ s, s ≠ "productivity_insights" → s ≠ "metadata" → doc' !! s = doc !! s) ∧
    field doc' "metadata" "last_updated" = Some (reading w (metadata_cost doc)).
Proof.
  intros Hdoc Hmd Hins.
  destruct (update_habit_streaks_run user_id streaks w doc Hdoc Hmd Hins)
    as (doc' & Hrun & Hrest).
  eexists _, doc'. split; [exact Hrun|]. split; [apply stored_written|exact Hrest].
Qed.

Lemma update_habit_streaks_absent user_id streaks w :
  stored user_id w = None →
  update_habit_streaks user_id streaks w =
  update_habit_streaks user_id streaks (initialized user_id w).
Proof.
  intros H. unfold update_habit_streaks. unfold bind at 1.
  rewrite (get_or_initialize_absent _ _ H).
  symmetry. unfold bind at 1.
  rewrite (get_or_initialize_existing _ (initialized user_id w) _ (stored_written _ _ _)).
  reflexivity.
Qed.

(** X10: [update_habit_streaks] merges the given streaks into the stored
    ones.  On a stored document (metadata absent or a dict, productivity
    insights absent or a dict whose habit streaks are absent or a dict) it
    returns [True]; after it [habit_streaks] has every given key with the given
    value and every other key as before, where the streaks, when they were
    absent, count as the two counters at 0 and the insights, when they were
    absent, as the default ones; the other insights, and the sections other
    than the insights and the metadata, are as before, and
    [metadata.last_updated] is the reading of the clock.  For a user without a
    document the profile is created first, and the streaks are merged into
    the two counters at 0.  Stored habit streaks that are not a dict make the
    method raise [AttributeError], and nothing is written. *)
Theorem update_habit_streaks_merges user_id streaks w :
  (∀ doc,
     stored user_id w = Some doc →
     metadata_ok doc = true →
     insights_ok doc = true →
     ∃ w' doc',
       update_habit_streaks user_id streaks w = (Ok true, w') ∧
       stored user_id w' = Some doc' ∧
       field doc' "productivity_insights" "habit_streaks" =
         Some (VDict (streaks ∪ streaks_or_default doc)) ∧
       (∀ k, k ≠ "habit_streaks" →
          field doc' "productivity_insights" k = insights_or_default doc !! k) ∧
       (∀ s, s ≠ "productivity_insights" → s ≠ "metadata" →
          doc' !! s = doc !! s) ∧
       field doc' "metadata" "last_updated" =
         Some (reading w (metadata_cost doc))) ∧
  (stored user_id w = None →
   ∃ w' doc',
     update_habit_streaks user_id streaks w = (Ok true, w') ∧
     stored user_id w' = Some doc' ∧
     field doc' "productivity_insights" "habit_streaks" =
       Some (VDict (streaks ∪ dict_in default_habit_streaks)) ∧
     (∀ s, s ≠ "productivity_insights" → s ≠ "metadata" →
        doc' !! s = default_schema (reading w 0) (reading w 2) !! s)) ∧
  (∀ doc v,
     stored user_id w = Some doc →
     field doc "productivity_insights" "habit_streaks" = Some v →
     is_dict v = false →
     outcome (update_habit_streaks user_id streaks) w = Raise AttributeError ∧
     store (after (update_habit_streaks user_id streaks) w) = store w).
Proof.
  split; [intros doc; apply update_habit_streaks_stored|]. split.
  - intros Hnone. rewrite (update_habit_streaks_absent _ _ _ Hnone).
    destruct (update_habit_streaks_stored user_id streaks (initialized user_id w)
                (default_schema (reading w 0) (reading w 2)))
      as (w' & doc' & Hrun & Hst & Hs & _ & Ho & _);
      [apply stored_written|reflexivity|reflexivity|].
    by exists w', doc'.
  - intros doc v Hdoc Hv Hnd.
    assert (Hrun : update_habit_streaks user_id streaks w =
                   (Raise AttributeError, advance (metadata_cost doc) w)).
    { unfold update_habit_streaks. unfold bind at 1.
      rewrite (get_or_initialize_existing _ _ _ Hdoc).
      unfold field in Hv.
      destruct (doc !! "productivity_insights") as [[| | | | |d]|] eqn:Ed; try done.
      rewrite bool_decide_eq_true_2 by done.
      unfold bind at 1, lift at 1.
      unfold ensure_nested, py_getitem. rewrite Ed. cbn [py_in].
      rewrite bool_decide_eq_true_2 by done.
      unfold bind at 1. rewrite ensure_metadata_spec.
      unfold bind at 1, lift at 1.
      unfold get_nested, py_getitem. rewrite ensured_other by done. rewrite Ed, Hv.
      unfold bind at 1, lift at 1.
      by destruct v. }
    unfold outcome, after. by rewrite Hrun.
Qed.

Lemma update_habit_streaks_merges_witness :
  stored "Chris" old_world = Some old_profile ∧
  (∃ w' doc',
     update_habit_streaks "Chris" (dict_of [("workout_streak_days", VInt 5)])
       old_world = (Ok true, w') ∧
     stored "Chris" w' = Some doc' ∧
     field doc' "productivity_insights" "habit_streaks" =
       Some (VDict (dict_of [("workout_streak_days", VInt 5);
                             ("task_completion_streak", VInt 0)])) ∧
     field doc' "productivity_insights" "best_focus_times" = Some (VList []) ∧
     doc' !! "personal_info" = old_profile !! "personal_info") ∧
  field bad_streaks_doc "productivity_insights" "habit_streaks" = Some (VInt 3) ∧
  outcome (update_habit_streaks "Chris" (dict_of [("workout_streak_days", VInt 5)]))
    (written "Chris" bad_streaks_doc old_world) = Raise AttributeError.
Proof.
  split; [reflexivity|]. split.
  - destruct (update_habit_streaks_merges "Chris"
                (dict_of [("workout_streak_days", VInt 5)]) old_world)
      as [Hmerge _].
    destruct (Hmerge old_profile eq_refl eq_refl eq_refl)
      as (w' & doc' & Hrun & Hst & Hs & Hk & Ho & _).
    exists w', doc'. split; [exact Hrun|]. split; [exact Hst|].
    split; [rewrite Hs; by vm_compute|].
    split; [by rewrite (Hk "best_focus_times")|by apply Ho].
  - split; [reflexivity|].
    destruct (update_habit_streaks_merges "Chris"
                (dict_of [("workout_streak_days", VInt 5)])
                (written "Chris" bad_streaks_doc old_world))
      as (_ & _ & Hbad).
    by apply (Hbad bad_streaks_doc (VInt 3) (stored_written _ _ _)).
Defined.

(** ** Writing a section and reading it back *)

Lemma ensured_dom doc w : dom (ensured doc w) = dom doc ∪ {["metadata"]}.
Proof.
  unfold ensured. case_bool_decide as Hmd.
  - apply elem_of_dom in Hmd. set_solver.
  - rewrite dom_insert_L. set_solver.
Qed.

Lemma update_user_section_stored user_id section data w doc :
  stored user_id w = Some doc →
  metadata_ok doc = true →
  section ≠ "metadata" →
  ∃ w' doc',
    update_user_section user_id section data w = (Ok true, w') ∧
    stored user_id w' = Some doc' ∧
    doc' !! section = Some (merge_section (doc !! section) data) ∧
    dom doc' = dom doc ∪ {[section; "metadata"]} ∧
    (∀ s, s ≠ section → s ≠ "metadata" → doc' !! s = doc !! s).
Proof.
  intros Hdoc Hmd Hs.
  destruct (ensured_metadata doc w Hmd) as [md Emd].
  eexists _, _. split.
  { eapply update_user_section_ok; [done|].
    rewrite lookup_insert_ne by done. exact Emd. }
  split; [apply stored_written|].
  split; [rewrite lookup_insert_ne by done;
          by rewrite lookup_insert_eq, ensured_other|].
  split.
  { rewrite !dom_insert_L, ensured_dom. set_solver. }
  intros s Hs1 Hs2. by rewrite !lookup_insert_ne, ensured_other.
Qed.

(** X11: [update_user_section] followed by [get_user_section], for a section
    whose name is not empty and not ["metadata"].  On a stored document
    (metadata absent or a dict) the update returns [True] and the section read
    back is the given data merged over the old section when both are dicts,
    and the given data itself, the old section forgotten, when the section was
    absent or not a dict or the data is not a dict; the document gains no key
    but the section and the metadata (the schema is not filled in), and the
    other sections but the metadata are as before.  For a user without a
    document the profile is created first: the section read back is the data
    merged with the default section of the schema, and the document has the
    seven sections of the schema and the one updated. *)
Theorem update_then_get user_id section data w :
  section ≠ "" →
  section ≠ "metadata" →
  (∀ doc,
     stored user_id w = Some doc →
     metadata_ok doc = true →
     ∃ w' doc' got,
       update_user_section user_id section data w = (Ok true, w') ∧
       stored user_id w' = Some doc' ∧
       get_user_section user_id (Some section) w' = (Ok got, w') ∧
       (∀ old new, doc !! section = Some (VDict old) → data = VDict new →
                   got = VDict (new ∪ old)) ∧
       (doc !! section = None → got = data) ∧
       (∀ v, doc !! section = Some v → is_dict v = false → got = data) ∧
       (is_dict data = false → got = data) ∧
       dom doc' = dom doc ∪ {[section; "metadata"]} ∧
       (∀ s, s ≠ section → s ≠ "metadata" → doc' !! s = doc !! s)) ∧
  (stored user_id w = None →
   ∃ w' doc',
     update_user_section user_id section data w = (Ok true, w') ∧
     stored user_id w' = Some doc' ∧
     get_user_section user_id (Some section) w' =
       (Ok (merge_section (default_schema (reading w 0) (reading w 2) !! section)
              data), w') ∧
     dom doc' = sections ∪ {[section]}).
Proof.
  intros Hne Hnm. split.
  - intros doc Hdoc Hmd.
    destruct (update_user_section_stored user_id section data w doc Hdoc Hmd Hnm)
      as (w' & doc' & Hrun & Hst & Hsec & Hdom & Hother).
    exists w', doc', (merge_section (doc !! section) data).
    split; [exact Hrun|]. split; [exact Hst|].
    split; [rewrite (get_user_section_stored _ _ _ _ Hst Hne); by rewrite Hsec|].
    split; [by intros old new -> ->|].
    split; [by intros ->|].
    split; [intros v -> Hv; by destruct v|].
    split; [intros Hd; destruct (doc !! section) as [[]|]; by destruct data|].
    by split.
  - intros Hnone. rewrite (update_user_section_absent _ _ _ _ Hnone).
    destruct (update_user_section_stored user_id section data (initialized user_id w)
                (default_schema (reading w 0) (reading w 2)))
      as (w' & doc' & Hrun & Hst & Hsec & Hdom & _);
      [apply stored_written|reflexivity|done|].
    exists w', doc'. split; [exact Hrun|]. split; [exact Hst|].
    split; [rewrite (get_user_section_stored _ _ _ _ Hst Hne); by rewrite Hsec|].
    rewrite Hdom, default_schema_dom.
    assert (Hm : "metadata" ∈ sections) by (by apply (bool_decide_unpack _)).
    clear -Hm. set_solver.
Qed.

Lemma update_then_get_witness :
  ("preferences" : string) ≠ "" ∧ ("preferences" : string) ≠ "metadata" ∧
  stored "Chris" old_world = Some old_profile ∧
  ∃ w' doc',
    update_user_section "Chris" "preferences" (VStr "none") old_world = (Ok true, w') ∧
    stored "Chris" w' = Some doc' ∧
    get_user_section "Chris" (Some "preferences") w' = (Ok (VStr "none"), w') ∧
    doc' !! "task_tracking" = None.
Proof.
  split; [done|]. split; [done|]. split; [reflexivity|].
  destruct (update_then_get "Chris" "preferences" (VStr "none") old_world)
    as [Hstored _]; [done|done|].
  destruct (Hstored old_profile eq_refl eq_refl)
    as (w' & doc' & got & Hrun & Hst & Hget & _ & Habsent & _ & _ & _ & Hother).
  exists w', doc'. split; [exact Hrun|]. split; [exact Hst|].
  split; [by rewrite Hget, (Habsent eq_refl)|].
  by rewrite (Hother "task_tracking").
Defined.

(** ** The tools that update a section *)

(** the dict the three [if k in updates and updates[k]] tests of a tool
    build *)
Lemma take_truthy3_lookup a b c updates k v :
  take_truthy c updates (take_truthy b updates (take_truthy a updates ∅)) !! k
    = Some v ↔
  (k = a ∨ k = b ∨ k = c) ∧ updates !! k = Some v ∧ truthy v = true.
Proof.
  rewrite !take_truthy_lookup, lookup_empty.
  destruct (updates !! c) as [vc|] eqn:Ec;
    destruct (updates !! b) as [vb|] eqn:Eb;
    destruct (updates !! a) as [va|] eqn:Ea;
    repeat match goal with
      | |- context [truthy ?x] => destruct (truthy x) eqn:?
      | |- context [decide (?a = k)] => destruct (decide (a = k)) as [<-|?]
      end;
    split; try (intros [[?|[?|?]] [? ?]]); try intros ?; simplify_eq;
    try done; try congruence; by auto.
Qed.

Lemma filtered_update_error user_id section data ok_message error_message w :
  data = ∅ →
  (if truthy (VDict data) then
     do success <- update_user_section user_id section (VDict data);
     if (success : bool) then ret (status_message "success" ok_message)
     else ret (status_message "error" error_message)
   else ret (status_message "error" error_message)) w =
  (Ok (status_message "error" error_message), w).
Proof. by intros ->. Qed.

Lemma filtered_update_merges user_id section data ok_message error_message w doc old :
  stored user_id w = Some doc →
  metadata_ok doc = true →
  section ≠ "metadata" →
  doc !! section = Some (VDict old) →
  data ≠ ∅ →
  ∃ w' doc',
    (if truthy (VDict data) then
       do success <- update_user_section user_id section (VDict data);
       if (success : bool) then ret (status_message "success" ok_message)
       else ret (status_message "error" error_message)
     else ret (status_message "error" error_message)) w =
    (Ok (status_message "success" ok_message), w') ∧
    stored user_id w' = Some doc' ∧
    doc' !! section = Some (VDict (data ∪ old)) ∧
    (∀ s, s ≠ section → s ≠ "metadata" → doc' !! s = doc !! s).
Proof.
  intros Hdoc Hmd Hs Hsec Hne.
  destruct (truthy (VDict data)) eqn:Ht; [|by apply truthy_dict in Ht].
  destruct (update_user_section_merge user_id section w doc old data Hdoc Hmd Hsec)
    as (w' & doc' & new & Hrun & Hst & Hnew & Hother & _ & Hframe).
  exists w', doc'. unfold bind. rewrite Hrun. unfold ret.
  split; [done|]. split; [done|]. split; [by rewrite Hnew, (Hother Hs)|done].
Qed.

(** X12: [update_daily_routine] and [update_productivity_insights] on a
    stored document (metadata absent or a dict) whose section is a dict.
    Of the dict given, only the tool's three keys count, and only where the
    value is truthy.  When there is none, the answer is the error and nothing
    is written or read.  Otherwise the answer is the success, each such key
    holds the given value as a whole (a nested dict such as [habit_streaks]
    or [meal_timings] is replaced, not merged: what the old one held is
    gone), every other key of the section is as before, and the other
    sections but the metadata are as before. *)
Theorem update_tools_replace user_id updates w doc :
  stored user_id w = Some doc →
  metadata_ok doc = true →
  (∀ old,
     doc !! "daily_routine" = Some (VDict old) →
     ((∀ k v, k = "meal_timings" ∨ k = "working_hours" ∨ k = "workout_preferences" →
              updates !! k = Some v → truthy v = false) →
      update_daily_routine user_id updates w =
        (Ok (status_message "error" "No routine information provided"), w)) ∧
     (∀ k0 v0, k0 = "meal_timings" ∨ k0 = "working_hours" ∨ k0 = "workout_preferences" →
        updates !! k0 = Some v0 → truthy v0 = true →
        ∃ w' doc',
          update_daily_routine user_id updates w =
            (Ok (status_message "success" "Daily routine updated"), w') ∧
          stored user_id w' = Some doc' ∧
          (∀ k v, k = "meal_timings" ∨ k = "working_hours" ∨ k = "workout_preferences" →
             updates !! k = Some v → truthy v = true →
             field doc' "daily_routine" k = Some v) ∧
          (∀ k, ¬ (k = "meal_timings" ∨ k = "working_hours" ∨ k = "workout_preferences") ∨
                updates !! k = None ∨
                (∃ v, updates !! k = Some v ∧ truthy v = false) →
             field doc' "daily_routine" k = old !! k) ∧
          (∀ s, s ≠ "daily_routine" → s ≠ "metadata" → doc' !! s = doc !! s))) ∧
  (∀ old,
     doc !! "productivity_insights" = Some (VDict old) →
     ((∀ k v, k = "best_focus_times" ∨ k = "energy_levels" ∨ k = "habit_streaks" →
              updates !! k = Some v → truthy v = false) →
      update_productivity_insights user_id updates w =
        (Ok (status_message "error" "No insights provided"), w)) ∧
     (∀ k0 v0, k0 = "best_focus_times" ∨ k0 = "energy_levels" ∨ k0 = "habit_streaks" →
        updates !! k0 = Some v0 → truthy v0 = true →
        ∃ w' doc',
          update_productivity_insights user_id updates w =
            (Ok (status_message "success" "Productivity insights updated"), w') ∧
          stored user_id w' = Some doc' ∧
          (∀ k v, k = "best_focus_times" ∨ k = "energy_levels" ∨ k = "habit_streaks" →
             updates !! k = Some v → truthy v = true →
             field doc' "productivity_insights" k = Some v) ∧
          (∀ k, ¬ (k = "best_focus_times" ∨ k = "energy_levels" ∨ k = "habit_streaks") ∨
                updates !! k = None ∨
                (∃ v, updates !! k = Some v ∧ truthy v = false) →
             field doc' "productivity_insights" k = old !! k) ∧
          (∀ s, s ≠ "productivity_insights" → s ≠ "metadata" →
             doc' !! s = doc !! s))).
Proof.
  intros Hdoc Hmd.
  assert (Hgen : ∀ a b c section ok_message error_message old,
    section ≠ "metadata" →
    doc !! section = Some (VDict old) →
    let data := take_truthy c updates (take_truthy b updates (take_truthy a updates ∅)) in
    let tool :=
      if truthy (VDict data) then
        do success <- update_user_section user_id section (VDict data);
        if (success : bool) then ret (status_message "success" ok_message)
        else ret (status_message "error" error_message)
      else ret (status_message "error" error_message) in
    ((∀ k v, k = a ∨ k = b ∨ k = c → updates !! k = Some v → truthy v = false) →
     tool w = (Ok (status_message "error" error_message), w)) ∧
    (∀ k0 v0, k0 = a ∨ k0 = b ∨ k0 = c →
       updates !! k0 = Some v0 → truthy v0 = true →
       ∃ w' doc',
         tool w = (Ok (status_message "success" ok_message), w') ∧
         stored user_id w' = Some doc' ∧
         (∀ k v, k = a ∨ k = b ∨ k = c →
            updates !! k = Some v → truthy v = true →
            field doc' section k = Some v) ∧
         (∀ k, ¬ (k = a ∨ k = b ∨ k = c) ∨ updates !! k = None ∨
               (∃ v, updates !! k = Some v ∧ truthy v = false) →
            field doc' section k = old !! k) ∧
         (∀ s, s ≠ section → s ≠ "metadata" → doc' !! s = doc !! s))).
  { intros a b c section ok_message error_message old Hs Hsec data tool. split.
    - intros Hall. apply filtered_update_error.
      apply map_eq. intros k. rewrite lookup_empty.
      destruct (data !! k) as [v|] eqn:E; [|done].
      apply take_truthy3_lookup in E as (Hk & Hv & Ht).
      by rewrite (Hall k v Hk Hv) in Ht.
    - intros k0 v0 Hk0 Hv0 Ht0.
      assert (Hne : data ≠ ∅).
      { intros Hempty.
        assert (data !! k0 = Some v0) as Hin by (by apply take_truthy3_lookup).
        by rewrite Hempty, lookup_empty in Hin. }
      destruct (filtered_update_merges user_id section data ok_message error_message
                  w doc old Hdoc Hmd Hs Hsec Hne)
        as (w' & doc' & Hrun & Hst & Hnew & Hother).
      exists w', doc'. split; [exact Hrun|]. split; [exact Hst|].
      split; [|split; [|exact Hother]].
      + intros k v Hk Hv Ht. unfold field. rewrite Hnew, lookup_union.
        assert (data !! k = Some v) as -> by (by apply take_truthy3_lookup).
        by rewrite union_Some_l.
      + intros k Hk. unfold field. rewrite Hnew, lookup_union.
        destruct (data !! k) as [v|] eqn:E; [|by rewrite (left_id_L None (∪))].
        apply take_truthy3_lookup in E as (Hk' & Hv & Ht).
        destruct Hk as [Hk|[Hk|(v' & Hv' & Hf)]]; [done|congruence|].
        rewrite Hv in Hv'. injection Hv' as <-. by rewrite Ht in Hf. }
  split; intros old Hsec.
  - exact (Hgen "meal_timings" "working_hours" "workout_preferences" "daily_routine"
             "Daily routine updated" "No routine information provided" old
             ltac:(done) Hsec).
  - exact (Hgen "best_focus_times" "energy_levels" "habit_streaks"
             "productivity_insights" "Productivity insights updated"
             "No insights provided" old ltac:(done) Hsec).
Qed.


Lemma update_tools_replace_witness :
  stored "Chris" schema_world =
    Some (default_schema (VStr "created") (VStr "updated")) ∧
  ∃ w' doc',
    update_productivity_insights "Chris" some_insights schema_world =
      (Ok (status_message "success" "Productivity insights updated"), w') ∧
    stored "Chris" w' = Some doc' ∧
    field doc' "productivity_insights" "habit_streaks" =
      Some (VDict (dict_of [("workout_streak_days", VInt 5)])) ∧
    field doc' "productivity_insights" "best_focus_times" = Some (VList []) ∧
    field doc' "productivity_insights" "notes" = None.
Proof.
  split; [apply stored_written|].
  assert (Hmd : metadata_ok (default_schema (VStr "created") (VStr "updated")) = true)
    by (vm_compute; reflexivity).
  assert (Hsec : default_schema (VStr "created") (VStr "updated")
                   !! "productivity_insights" =
                 Some (VDict (dict_in default_productivity_insights)))
    by (vm_compute; reflexivity).
  assert (Hhs : some_insights !! "habit_streaks" =
                Some (VDict (dict_of [("workout_streak_days", VInt 5)])))
    by (vm_compute; reflexivity).
  assert (Hbf : some_insights !! "best_focus_times" = Some (VList []))
    by (vm_compute; reflexivity).
  assert (Hobf : dict_in default_productivity_insights !! "best_focus_times" =
                 Some (VList []))
    by (vm_compute; reflexivity).
  assert (Hon : dict_in default_productivity_insights !! "notes" = None)
    by (vm_compute; reflexivity).
  destruct (update_tools_replace "Chris" some_insights schema_world
              (default_schema (VStr "created") (VStr "updated"))
              (stored_written _ _ _) Hmd) as [_ Hinsights].
  destruct (Hinsights (dict_in default_productivity_insights) Hsec)
    as [_ Hsome].
  destruct (Hsome "habit_streaks"
              (VDict (dict_of [("workout_streak_days", VInt 5)]))
              (or_intror (or_intror eq_refl)) Hhs eq_refl)
    as (w' & doc' & Hrun & Hst & Hnew & Hold & _).
  exists w', doc'. split; [exact Hrun|]. split; [exact Hst|].
  split; [exact (Hnew "habit_streaks" _ (or_intror (or_intror eq_refl)) Hhs eq_refl)|].
  split.
  - rewrite (Hold "best_focus_times"); [exact Hobf|].
    right. right. exists (VList []). split; [exact Hbf|reflexivity].
  - rewrite (Hold "notes"); [exact Hon|]. left. by intros [|[|]].
Defined.

(** ** Overwriting the metadata *)

(** X13: [update_user_section] called for the section ["metadata"] with data
    that is not a dict raises [TypeError]: the data replaces the metadata, and
    the timestamp can then not be set.  On a stored document nothing is
    written, so the stored metadata survives.  For a user without a document
    the profile has been created by then, and it stays stored as
    [initialize_user_schema] made it. *)
Theorem update_metadata_raises user_id data w :
  is_dict data = false →
  outcome (update_user_section user_id "metadata" data) w = Raise TypeError ∧
  (∀ doc, stored user_id w = Some doc →
          store (after (update_user_section user_id "metadata" data) w) = store w) ∧
  (stored user_id w = None →
   after (update_user_section user_id "metadata" data) w =
     advance 1 (after (initialize_user_schema user_id None) w)).
Proof.
  intros Hd.
  assert (Hraise : ∀ w1 doc, stored user_id w1 = Some doc →
            update_user_section user_id "metadata" data w1 =
              (Raise TypeError, advance (1 + metadata_cost doc) w1)).
  { intros w1 doc Hdoc. rewrite (update_user_section_existing _ _ _ _ _ Hdoc).
    cbv zeta. unfold set_nested, py_getitem. rewrite lookup_insert_eq.
    assert (merge_section (ensured doc w1 !! "metadata") data = data) as ->.
    { unfold merge_section. destruct (ensured doc w1 !! "metadata") as [[]|];
        by destruct data. }
    by destruct data. }
  destruct (stored user_id w) as [doc|] eqn:Hdoc.
  - unfold outcome, after. rewrite (Hraise w doc Hdoc).
    split; [done|]. split; [by intros ? _|done].
  - unfold outcome, after.
    rewrite (update_user_section_absent _ _ _ _ Hdoc).
    rewrite (Hraise (initialized user_id w) _ (stored_written _ _ _)).
    rewrite (initialize_absent _ _ Hdoc).
    split; [done|]. split; [done|]. by intros _.
Qed.

Lemma update_metadata_raises_witness :
  is_dict (VStr "v2") = false ∧
  outcome (update_user_section "Chris" "metadata" (VStr "v2")) old_world =
    Raise TypeError ∧
  stored "Chris" (after (update_user_section "Chris" "metadata" (VStr "v2")) old_world) =
    Some old_profile.
Proof.
  split; [reflexivity|].
  destruct (update_metadata_raises "Chris" (VStr "v2") old_world eq_refl)
    as (Hout & Hkeep & _).
  split; [exact Hout|].
  unfold stored. by rewrite (Hkeep old_profile eq_refl).
Defined.

(** ** The demonstration *)

Lemma _add_task_frame user_id task_data w r w' doc' s c l :
  well_formed_store user_id w = true →
  _add_task user_id task_data w = (r, w') →
  stored user_id w' = Some doc' →
  s ≠ "task_tracking" → s ≠ "metadata" →
  doc' !! s = match stored user_id w with
              | Some doc => doc !! s
              | None => default_schema c l !! s
              end.
Proof.
  intros Hwf Hrun Hst Hs Hs'.
  assert (Hstored : ∀ w0 doc, stored user_id w0 = Some doc →
            tasks_ok doc = true → metadata_ok doc = true →
            _add_task user_id task_data w0 = (r, w') → doc' !! s = doc !! s).
  { intros w0 doc Hdoc Htasks Hmd Hrun0.
    rewrite (_add_task_existing _ _ _ _ Hdoc Htasks Hmd) in Hrun0.
    injection Hrun0 as _ <-. rewrite stored_written in Hst. injection Hst as <-.
    rewrite touch_lookup_ne by done. rewrite lookup_insert_ne by done.
    by apply ensured_other. }
  destruct (stored user_id w) as [doc|] eqn:Hdoc.
  - destruct (well_formed_stored _ _ _ Hwf Hdoc) as (Hmd & Htasks & _).
    by apply (Hstored w doc).
  - rewrite (_add_task_absent _ _ _ Hdoc) in Hrun.
    destruct (default_schema_ok (reading w 0) (reading w 2)) as (Htasks & Hmd & _).
    rewrite (Hstored (initialized user_id w) _ (stored_written _ _ _) Htasks Hmd Hrun).
    by apply default_schema_other.
Qed.

Lemma complete_task_frame user_id task_id w doc before task rest r w' doc' s :
  stored user_id w = Some doc →
  tasks_ok doc = true →
  metadata_ok doc = true →
  current_tasks_of doc = before ++ VDict task :: rest →
  existsb (has_id task_id) before = false →
  has_id task_id (VDict task) = true →
  complete_task user_id task_id w = (r, w') →
  stored user_id w' = Some doc' →
  s ≠ "task_tracking" → s ≠ "metadata" →
  doc' !! s = doc !! s.
Proof.
  intros Hdoc Hok Hmd Hcur Hb Hx Hrun Hst Hs Hs'.
  unfold complete_task, bind in Hrun.
  rewrite (_complete_task_found _ _ _ _ _ _ _ Hdoc Hok Hmd Hcur Hb Hx) in Hrun.
  unfold ret in Hrun. injection Hrun as _ <-.
  rewrite stored_written in Hst. injection Hst as <-.
  rewrite touch_lookup_ne by done. rewrite lookup_insert_ne by done.
  by apply ensured_other.
Qed.

Lemma update_productivity_insights_stored user_id updates w doc :
  stored user_id w = Some doc →
  metadata_ok doc = true →
  truthy (VDict (insights_of updates)) = true →
  ∃ w' doc',
    update_productivity_insights user_id updates w =
      (Ok (status_message "success" "Productivity insights updated"), w') ∧
    stored user_id w' = Some doc' ∧
    metadata_ok doc' = true ∧
    doc' !! "productivity_insights" =
      Some (merge_section (doc !! "productivity_insights")
              (VDict (insights_of updates))) ∧
    (∀ s, s ≠ "productivity_insights" → s ≠ "metadata" → doc' !! s = doc !! s).
Proof.
  intros Hdoc Hmd Ht.
  destruct (ensured_metadata doc w Hmd) as [md Emd].
  unfold update_productivity_insights. cbv zeta. rewrite Ht.
  unfold _update_productivity_insights, bind.
  erewrite update_user_section_ok;
    [|exact Hdoc|rewrite lookup_insert_ne by done; exact Emd].
  unfold ret. eexists _, _. split; [reflexivity|].
  split; [apply stored_written|].
  split; [unfold metadata_ok; by rewrite lookup_insert_eq|].
  split; [rewrite lookup_insert_ne by done;
          by rewrite lookup_insert_eq, ensured_other|].
  intros s Hs1 Hs2. by rewrite !lookup_insert_ne, ensured_other.
Qed.

Lemma merge_section_field old data k v :
  data !! k = Some v →
  match merge_section old (VDict data) with
  | VDict d => d !! k
  | _ => None
  end = Some v.
Proof.
  intros Hk. unfold merge_section. destruct old as [[| | | | |o]|]; try done.
  by rewrite lookup_union, Hk, union_Some_l.
Qed.

Lemma create_example_user_profile_runs w :
  match stored "Shubham" w with
  | Some doc => metadata_ok doc = true
  | None => True
  end →
  ∃ w1,
    create_example_user_profile w = (Ok true, w1) ∧
    own "Shubham" w w1 ∧
    (stored "Shubham" w = None →
     stored_field "Shubham" "personal_info" "name" w1 = Some (VStr "Shubham Dalvi")).
Proof.
  intros Hok.
  assert (Hseed : metadata_ok example_data = true) by (vm_compute; reflexivity).
  pose proof (local_initialize "Shubham" (Some example_data) w) as Hown.
  unfold after in Hown. unfold create_example_user_profile.
  destruct (stored "Shubham" w) as [doc|] eqn:Hdoc.
  - rewrite (initialize_seeded_existing _ _ _ _ Hdoc Hok Hseed) in Hown |- *.
    eexists. split; [reflexivity|]. split; [exact Hown|done].
  - rewrite (initialize_seeded_absent _ _ _ Hdoc Hseed) in Hown |- *.
    eexists. split; [reflexivity|]. split; [exact Hown|]. intros _.
    unfold stored_field. rewrite stored_written. unfold field.
    rewrite touch_lookup_ne by done.
    rewrite lookup_union.
    assert (example_data !! "personal_info" =
            Some (VDict (dict_of [("name", VStr "Shubham Dalvi"); ("age", VInt 28);
                                  ("domain", VStr "Data Engineering")]))) as ->
      by (vm_compute; reflexivity).
    rewrite union_Some_l. by vm_compute.
Qed.

(** X14: [demo_new_schema] run for a tool user other than ["Shubham"] (the
    tools' user is ["Chris"] unless set otherwise).  Where the documents
    stored for the two users are well formed and no current task of the tool
    user carries the id the demonstration's task will get, the run ends
    without raising.  The example profile goes to the document of
    ["Shubham"], which the rest of the run leaves alone; the task and the
    insights go to the document of the tool user: its current tasks end as
    they were, its completed tasks have gained the demonstration's task, its
    best focus times are the demonstration's, and its other sections but the
    metadata are what they were, or the defaults of the schema (not the
    example data) when the user had no document. *)
Theorem demo_new_schema_runs user_id w :
  user_id ≠ "Shubham" →
  match stored "Shubham" w with
  | Some doc => metadata_ok doc = true
  | None => True
  end →
  well_formed_store user_id w = true →
  existsb (has_id (next_task_id (after create_example_user_profile w)))
    (stored_tasks "current_tasks" user_id w) = false →
  ∃ w' moved,
    demo_new_schema user_id w = (Ok tt, w') ∧
    stored "Shubham" w' = stored "Shubham" (after create_example_user_profile w) ∧
    (stored "Shubham" w = None →
     stored_field "Shubham" "personal_info" "name" w' = Some (VStr "Shubham Dalvi")) ∧
    stored_tasks "current_tasks" user_id w' =
      stored_tasks "current_tasks" user_id w ∧
    stored_tasks "completed_tasks" user_id w' =
      stored_tasks "completed_tasks" user_id w ++ [VDict moved] ∧
    moved !! "description" = Some (VStr "Finish ETL pipeline testing") ∧
    moved !! "priority" = Some (VStr "high") ∧
    moved !! "due_date" = Some (VStr "2025-07-06") ∧
    moved !! "status" = Some (VStr "completed") ∧
    stored_field user_id "productivity_insights" "best_focus_times" w' =
      Some (VList [VStr "09:00-11:00"; VStr "14:00-16:00"]) ∧
    (∀ s, s ≠ "task_tracking" → s ≠ "productivity_insights" → s ≠ "metadata" →
       stored_section user_id s w' =
         match stored user_id w with
         | Some doc => doc !! s
         | None => default_schema VNone VNone !! s
         end).
Proof.
  intros Hne HS Hwf Hfresh.
  destruct (create_example_user_profile_runs w HS) as (w1 & Hcreate & Hown1 & Hname).
  unfold after in Hfresh |- *. rewrite Hcreate in Hfresh |- *. cbn [snd] in Hfresh |- *.
  assert (Huser1 : stored user_id w1 = stored user_id w) by (by apply (own_other "Shubham")).
  assert (Hwf1 : well_formed_store user_id w1 = true)
    by (unfold well_formed_store; by rewrite Huser1).
  (* the task is added *)
  pose proof (add_task_unfold user_id "Finish ETL pipeline testing" "high"
                "2025-07-06" w1) as Hadd.
  set (td := task_data_of _ _ _ _ _) in Hadd.
  destruct (_add_task_appends user_id td (advance 2 w1) Hwf1)
    as (w2 & doc2 & t & Hrun2 & Hst2 & Htasks2 & Hmd2 & Hcur2 & Hcomp2).
  pose proof (λ s, _add_task_frame user_id td (advance 2 w1) _ _ _ s VNone VNone
                     Hwf1 Hrun2 Hst2) as Hframe2.
  rewrite Hrun2 in Hadd.
  change (stored user_id (advance 2 w1)) with (stored user_id w1) in Hframe2.
  change (stored_tasks "current_tasks" user_id (advance 2 w1))
    with (stored_tasks "current_tasks" user_id w1) in Hcur2.
  change (stored_tasks "completed_tasks" user_id (advance 2 w1))
    with (stored_tasks "completed_tasks" user_id w1) in Hcomp2.
  assert (Hold_cur : stored_tasks "current_tasks" user_id w1 =
                     stored_tasks "current_tasks" user_id w)
    by (unfold stored_tasks; by rewrite Huser1).
  assert (Hold_comp : stored_tasks "completed_tasks" user_id w1 =
                      stored_tasks "completed_tasks" user_id w)
    by (unfold stored_tasks; by rewrite Huser1).
  rewrite Hold_cur in Hcur2. rewrite Hold_comp in Hcomp2. rewrite Huser1 in Hframe2.
  set (task := <["last_activity" := VStr t]> td) in *.
  destruct (task_data_of_fields (next_task_id w1) "Finish ETL pipeline testing"
              "high" "2025-07-06" (reading w1 1)) as (Hid & Hd & Hp & _ & _ & Hdue & _).
  fold td in Hid, Hd, Hp, Hdue.
  assert (Hdue' : td !! "due_date" = Some (VStr "2025-07-06")) by exact Hdue.
  (* the insights are updated *)
  destruct (update_productivity_insights_stored user_id demo_insights w2 doc2
              Hst2 Hmd2 eq_refl)
    as (w3 & doc3 & Hrun3 & Hst3 & Hmd3 & Hins3 & Hframe3).
  assert (Htr3 : doc3 !! "task_tracking" = doc2 !! "task_tracking")
    by (by apply Hframe3).
  assert (Htasks3 : tasks_ok doc3 = true) by (unfold tasks_ok; by rewrite Htr3).
  assert (Hcur3 : current_tasks_of doc3 =
                  stored_tasks "current_tasks" user_id w ++ VDict task :: []).
  { rewrite <-Hcur2. unfold current_tasks_of, tasks_of, tracking_of. by rewrite Htr3. }
  assert (Hcomp3 : completed_tasks_of doc3 = stored_tasks "completed_tasks" user_id w).
  { rewrite <-Hcomp2. unfold completed_tasks_of, tasks_of, tracking_of.
    by rewrite Htr3. }
  (* the task is completed *)
  assert (Htid : has_id (next_task_id w1) (VDict task) = true).
  { apply has_id_task_id. unfold task. by rewrite lookup_insert_ne. }
  destruct (complete_task_first user_id (next_task_id w1) w3 doc3 _ task []
              Hst3 Htasks3 Hmd3 Hcur3 Hfresh Htid)
    as (w4 & doc4 & Hrun4 & Hst4 & Htasks4 & Hmd4 & Hcur4 & Hcomp4).
  pose proof (λ s, complete_task_frame user_id (next_task_id w1) w3 doc3 _ task []
                     _ w4 doc4 s Hst3 Htasks3 Hmd3 Hcur3 Hfresh Htid Hrun4 Hst4)
    as Hframe4.
  exists w4, (completed (reading w3 (metadata_cost doc3)) task).
  split.
  { unfold demo_new_schema. unfold bind at 1. rewrite Hcreate.
    unfold bind at 1. rewrite Hadd.
    unfold bind at 1, lift at 1. unfold task_added. cbn [py_get].
    rewrite lookup_insert_eq. cbn [from_option]. unfold id.
    unfold bind at 1. rewrite (get_current_tasks_stored _ _ _ Hst2 Htasks2).
    unfold bind at 1. rewrite Hrun3.
    unfold bind at 1.
    assert (Hprofile : get_user_profile user_id "" w3 =
              (Ok (dict_of [("status", VStr "success"); ("profile", VDict doc3)]), w3)).
    { unfold get_user_profile. cbn [str_given String.length Nat.eqb negb andb].
      unfold get_user_section. step. unfold stored in Hst3. by rewrite Hst3. }
    rewrite Hprofile.
    unfold bind at 1, lift at 1. cbn [py_get].
    assert (dict_of [("status", VStr "success"); ("profile", VDict doc3)]
              !! "profile" = Some (VDict doc3)) as ->.
    { unfold dict_of. cbn [list_to_map foldr uncurry fst snd].
      rewrite lookup_insert_ne by done. apply lookup_insert_eq. }
    cbn [from_option]. unfold bind at 1, lift at 1. unfold id. cbn [py_keys].
    assert (truthy (VStr (next_task_id w1)) = true) as -> by reflexivity.
    unfold bind. rewrite Hrun4. reflexivity. }
  assert (HS4 : stored "Shubham" w4 = stored "Shubham" w1).
  { assert (Hsym : "Shubham" ≠ user_id) by (intros E; apply Hne; symmetry; exact E).
    destruct (local_tools user_id) as (_ & _ & _ & _ & Hlc & _ & Hli & _).
    pose proof (Hlc (next_task_id w1) w3) as Ho4.
    pose proof (Hli demo_insights w2) as Ho3.
    pose proof (local__add_task user_id td (advance 2 w1)) as Ho2.
    unfold after in Ho4, Ho3, Ho2.
    rewrite Hrun4 in Ho4. rewrite Hrun3 in Ho3. rewrite Hrun2 in Ho2.
    cbn [snd] in Ho4, Ho3, Ho2.
    rewrite (own_other user_id "Shubham" w3 w4 Hsym Ho4).
    rewrite (own_other user_id "Shubham" w2 w3 Hsym Ho3).
    exact (own_other user_id "Shubham" (advance 2 w1) w2 Hsym Ho2). }
  split; [exact HS4|].
  split; [intros Hnone; unfold stored_field; rewrite HS4; exact (Hname Hnone)|].
  split; [unfold stored_tasks at 1; rewrite Hst4;
          exact (eq_trans Hcur4 (app_nil_r _))|].
  split; [unfold stored_tasks at 1; rewrite Hst4;
          exact (eq_trans Hcomp4 (f_equal (λ l, l ++ _) Hcomp3))|].
  assert (Hmoved : ∀ k, k ≠ "status" → k ≠ "completed_on" → k ≠ "last_activity" →
            completed (reading w3 (metadata_cost doc3)) task !! k = td !! k).
  { intros k H1 H2 H3. unfold completed, task. by rewrite !lookup_insert_ne. }
  split; [by rewrite Hmoved|]. split; [by rewrite Hmoved|].
  split; [by rewrite Hmoved|].
  split; [apply lookup_insert_eq|].
  split.
  { unfold stored_field, field. rewrite Hst4, (Hframe4 "productivity_insights") by done.
    rewrite Hins3. apply merge_section_field. by vm_compute. }
  intros s Hs1 Hs2 Hs3. unfold stored_section.
  rewrite Hst4, (Hframe4 s), (Hframe3 s) by done. by apply Hframe2.
Qed.

Lemma demo_new_schema_runs_witness :
  USER_ID ≠ "Shubham" ∧
  stored "Shubham" (empty_world slow_clock) = None ∧
  well_formed_store USER_ID (empty_world slow_clock) = true ∧
  ∃ w' moved,
    demo_new_schema USER_ID (empty_world slow_clock) = (Ok tt, w') ∧
    stored_field "Shubham" "personal_info" "name" w' = Some (VStr "Shubham Dalvi") ∧
    stored_field USER_ID "personal_info" "name" w' = Some (VStr "") ∧
    stored_tasks "current_tasks" USER_ID w' = [] ∧
    stored_tasks "completed_tasks" USER_ID w' = [VDict moved] ∧
    moved !! "description" = Some (VStr "Finish ETL pipeline testing") ∧
    moved !! "status" = Some (VStr "completed").
Proof.
  assert (Hne : USER_ID ≠ "Shubham") by done.
  assert (HS : stored "Shubham" (empty_world slow_clock) = None)
    by (vm_compute; reflexivity).
  assert (HU : stored USER_ID (empty_world slow_clock) = None)
    by (vm_compute; reflexivity).
  assert (Hwf : well_formed_store USER_ID (empty_world slow_clock) = true)
    by (unfold well_formed_store; by rewrite HU).
  split; [exact Hne|]. split; [exact HS|]. split; [exact Hwf|].
  destruct (demo_new_schema_runs USER_ID (empty_world slow_clock) Hne)
    as (w' & moved & Hrun & _ & Hname & Hcur & Hcomp & Hd & _ & _ & Hs & _ & Hother);
    [by rewrite HS|exact Hwf|unfold stored_tasks; by rewrite HU|].
  exists w', moved. split; [exact Hrun|]. split; [exact (Hname HS)|].
  split.
  { pose proof (Hother "personal_info") as Hp. unfold stored_section in Hp.
    unfold stored_field. destruct (stored USER_ID w') as [doc'|].
    - unfold field. rewrite Hp by done. rewrite HU. by vm_compute.
    - rewrite HU in Hp. by specialize (Hp ltac:(done) ltac:(done) ltac:(done)). }
  split; [rewrite Hcur; unfold stored_tasks; by rewrite HU|].
  split; [rewrite Hcomp; unfold stored_tasks; by rewrite HU|].
  split; [exact Hd|exact Hs].
Defined.

(** ** Reading the profile *)

(** X15: [get_user_profile] always answers with the status ["success"] and
    leaves the world as it is.  For a section name that is empty or all white
    space (of Unicode, as [str.strip] has it) the answer carries under
    [profile] the whole stored document, the empty dict for a user without
    one.  For any other name it carries the
    name as given and under [data] what the document holds under exactly that
    name (the name is not stripped), the empty dict when the document has no
    such key or the user has no document. *)
Theorem get_user_profile_answers user_id section w :
  get_user_profile user_id section w =
  (Ok (if str_given section then
         dict_of [("status", VStr "success");
                  ("section", VStr section);
                  ("data", match stored user_id w with
                           | Some doc => default (VDict ∅) (doc !! section)
                           | None => VDict ∅
                           end)]
       else
         dict_of [("status", VStr "success");
                  ("profile", match stored user_id w with
                              | Some doc => VDict doc
                              | None => VDict ∅
                              end)]),
   w).
Proof.
  unfold get_user_profile, stored.
  destruct (str_given section) eqn:Hgiven.
  - assert (named (Some section) = true) as Hnamed.
    { unfold str_given in Hgiven. by apply andb_prop in Hgiven as [? _]. }
    unfold get_user_section. step. rewrite Hnamed.
    by destruct (store w !! _doc_id user_id).
  - unfold get_user_section. step.
    by destruct (store w !! _doc_id user_id).
Qed.
